(** * odin-project: the market classifier, the universe ranker, the strategy
    policies and the Bollinger breakout back-test engine, embedded in Rocq.

    Source files embedded here:
    - [backend/app/core/market_analysis.py]  (MarketAnalyzer)
    - [backend/app/core/strategy_base.py]    (BaseStrategy and its variants,
                                              StrategyFactory)
    - [backend/app/api/backtest.py]          (run_bollinger_breakout_backtest,
                                              create_backtest, run_backtest,
                                              get_backtest_result,
                                              delete_backtest_job)
    - [backend/app/api/regime.py]            (the three regime endpoints)
    - [backend/app/api/live.py]              (start, stop, status, positions,
                                              performance)
    - [backend/app/api/websocket.py]         (ConnectionManager)
    - [backend/app/models/trade_models.py]   (BacktestRequest and the rows)

    Numbers.  Prices, sizes and capital are Python/NumPy doubles in the
    source.  They are embedded as exact rationals [Q]; rounding error of the
    binary representation is not modelled.  What IS modelled of IEEE
    arithmetic is the part the control flow of the source depends on: pandas
    never raises on a division by zero, it yields an infinity or NaN, and
    every ordered comparison with NaN is false.  Values that flow through
    pandas Series therefore live in [float64] = rationals + inf + NaN.
    The engine itself divides by the entry price only, which is positive
    for the positive prices of a candle, so it stays within [Q].

    Where the result of a float64 computation is not the exact value, the
    statements avoid resting on identities of exact arithmetic: the regime
    classifier is stated for any rolling mean (pandas keeps a running sum),
    and the capital of the engine is stated as the running sum the loop
    performs, not as a re-associated sum. *)

From Stdlib Require Import QArith ZArith List String Lia Lqa Bool Qround Qabs
  Sorted DecimalString.
From stdpp Require Import gmap strings.
Import ListNotations.
Local Open Scope Q_scope.

(* ===================================================================== *)
(** * Part I. The embedding                                               *)
(* ===================================================================== *)

(** ** Python exceptions as an error monad *)

Inductive exn : Type :=
| ValueError                      (* raise ValueError(...) *)
| IndexError                      (* xs[-1] / .iloc[-1] on an empty object *)
| HTTPException (status : Z).     (* fastapi.HTTPException(status_code=...) *)

Inductive result (A : Type) : Type :=
| Ok (a : A)
| Raise (e : exn).
Arguments Ok {A} a.
Arguments Raise {A} e.

(** Sequencing: an exception skips the rest.  The instances give the
    notation [x ← m; k]. *)
#[global] Instance result_ret : MRet result := fun A a => Ok a.
#[global] Instance result_bind : MBind result := fun A B k m =>
  match m with
  | Ok a => k a
  | Raise e => Raise e
  end.

(** A [for] loop whose body may raise: the first exception ends the loop. *)
Fixpoint for_each {A S : Type} (body : A -> S -> result S) (xs : list A) (s : S)
  : result S :=
  match xs with
  | [] => Ok s
  | x :: xs' => s' ← body x s; for_each body xs' s'
  end.

(** [xs[-1]]: the last element, [IndexError] when there is none. *)
Definition last_item {A : Type} (xs : list A) : result A :=
  match last xs with
  | Some x => Ok x
  | None => Raise IndexError
  end.

(** [xs[-1] = f(xs[-1])]: in-place update of the last element. *)
Fixpoint update_last {A : Type} (f : A -> A) (xs : list A) : result (list A) :=
  match xs with
  | [] => Raise IndexError
  | [x] => Ok [f x]
  | x :: xs' => r ← update_last f xs'; Ok (x :: r)
  end.

(** Boolean comparisons of rationals: [a < b], [a <= b], [a != b]. *)
Definition Qltb (a b : Q) : bool :=
  match a ?= b with Lt => true | _ => false end.
Definition Qleb (a b : Q) : bool :=
  match a ?= b with Gt => false | _ => true end.
Definition Qneqb (a b : Q) : bool := negb (Qeq_bool a b).

(** Python's [max(a, b)] on two numbers: [b] only when [b > a]. *)
Definition py_max (a b : Q) : Q := if Qltb a b then b else a.

(** Python's [sum(xs)]: left to right, starting from 0. *)
Definition py_sum (xs : list Q) : Q := fold_left Qplus xs 0.

(** Python's [round(x, ndigits)]: to the nearest multiple of
    [10^-ndigits], a tie going to the even neighbour. *)
Definition round_half_even (x : Q) : Z :=
  let n := Qfloor x in
  match Qcompare (x - inject_Z n) (1 # 2) with
  | Lt => n
  | Gt => (n + 1)%Z
  | Eq => if Z.even n then n else (n + 1)%Z
  end.

Definition py_round (x : Q) (ndigits : nat) : Q :=
  let scale := inject_Z (10 ^ Z.of_nat ndigits) in
  inject_Z (round_half_even (x * scale)) / scale.

(** ** Doubles as they appear in pandas Series *)

Inductive float64 : Type :=
| Fin (q : Q)
| PInf
| NInf
| NaN.

Module F.

Definition neg (x : float64) : float64 :=
  match x with
  | Fin q => Fin (- q)
  | PInf => NInf
  | NInf => PInf
  | NaN => NaN
  end.

Definition add (x y : float64) : float64 :=
  match x, y with
  | NaN, _ | _, NaN => NaN
  | Fin a, Fin b => Fin (a + b)
  | PInf, NInf | NInf, PInf => NaN
  | PInf, _ | _, PInf => PInf
  | NInf, _ | _, NInf => NInf
  end.

Definition sub (x y : float64) : float64 := add x (neg y).

(** Sign of a rational as a comparison with 0. *)
Definition sgn (q : Q) : comparison := q ?= 0.

Definition signed_inf (c : comparison) : float64 :=
  match c with
  | Gt => PInf
  | Lt => NInf
  | Eq => NaN
  end.

Definition flip (c : comparison) : comparison := CompOpp c.

Definition mul (x y : float64) : float64 :=
  match x, y with
  | NaN, _ | _, NaN => NaN
  | Fin a, Fin b => Fin (a * b)
  | Fin a, PInf | PInf, Fin a => signed_inf (sgn a)
  | Fin a, NInf | NInf, Fin a => signed_inf (flip (sgn a))
  | PInf, PInf | NInf, NInf => PInf
  | PInf, NInf | NInf, PInf => NInf
  end.

(** IEEE division; the zero divisor is taken as +0 (the sign of a zero is
    not modelled; it does not change any result used below). *)
Definition div (x y : float64) : float64 :=
  match x, y with
  | NaN, _ | _, NaN => NaN
  | Fin a, Fin b =>
      match sgn b with
      | Eq => signed_inf (sgn a)           (* a/0: +-inf, and 0/0 = NaN *)
      | _ => Fin (a / b)
      end
  | Fin _, (PInf | NInf) => Fin 0
  | (PInf | NInf), (PInf | NInf) => NaN
  | PInf, Fin b => match sgn b with Lt => NInf | _ => PInf end
  | NInf, Fin b => match sgn b with Lt => PInf | _ => NInf end
  end.

(** Ordered comparison: false as soon as a NaN is involved. *)
Definition lt (x y : float64) : bool :=
  match x, y with
  | NaN, _ | _, NaN => false
  | Fin a, Fin b => match a ?= b with Lt => true | _ => false end
  | NInf, (Fin _ | PInf) => true
  | Fin _, PInf => true
  | _, _ => false
  end.

Definition gt (x y : float64) : bool := lt y x.

Definition le (x y : float64) : bool :=
  match x, y with
  | NaN, _ | _, NaN => false
  | Fin a, Fin b => match a ?= b with Gt => false | _ => true end
  | NInf, _ | _, PInf => true
  | _, _ => false
  end.

(** [x == y] on doubles: false as soon as a NaN is involved. *)
Definition eq (x y : float64) : bool :=
  match x, y with
  | Fin a, Fin b => Qeq_bool a b
  | PInf, PInf | NInf, NInf => true
  | _, _ => false
  end.

(** Equality of doubles up to the representation of the rational. *)
Definition equiv (x y : float64) : Prop :=
  match x, y with
  | Fin a, Fin b => a == b
  | PInf, PInf | NInf, NInf | NaN, NaN => True
  | _, _ => False
  end.

End F.

(** ** The pandas operations the source uses *)

Module Pandas.

Definition Series := list float64.

(** [s.diff()]: first entry NaN, then [s[i] - s[i-1]]. *)
Definition diff (s : Series) : Series :=
  match s with
  | [] => []
  | _ :: rest => NaN :: zip_with F.sub rest s
  end.

(** [s.where(cond, other)]: keep the entries where [cond] holds. *)
Definition where_ (cond : float64 -> bool) (other : float64) (s : Series)
  : Series :=
  map (fun x => if cond x then x else other) s.

(** The rationals of a window, if it holds nothing else. *)
Fixpoint finite_values (w : list float64) : option (list Q) :=
  match w with
  | [] => Some []
  | Fin q :: w' => option_map (cons q) (finite_values w')
  | _ :: _ => None
  end.

Definition Qsum (qs : list Q) : Q := fold_right Qplus 0%Q qs.

Definition Qmean (qs : list Q) : Q :=
  (Qsum qs / inject_Z (Z.of_nat (length qs)))%Q.

(** Sample variance ([ddof=1], the default of [Rolling.std]). *)
Definition Qvar (qs : list Q) : Q :=
  let m := Qmean qs in
  (Qsum (map (fun x => (x - m) * (x - m)) qs)
     / inject_Z (Z.of_nat (length qs - 1)))%Q.

Definition mean (w : list float64) : float64 :=
  match finite_values w with
  | Some qs => Fin (Qmean qs)
  | None => NaN
  end.

(** The window of [w] entries that ends at index [i]. *)
Definition window {A : Type} (w i : nat) (s : list A) : list A :=
  firstn w (skipn (S i - w) s).

(** [s.rolling(window=w).agg()]: aligned with [s]; NaN until the window
    is full ([min_periods] defaults to the window size). *)
Definition rolling (w : nat) (agg : list float64 -> float64) (s : Series)
  : Series :=
  map (fun i => if (S i <? w)%nat then NaN else agg (window w i s))
      (seq 0 (length s)).

(** [s.iloc[-1]] *)
Definition iloc_last {A : Type} (s : list A) : result A := last_item s.

Section Std.
(** The square root is not a rational function: [np.sqrt] is a parameter
    of the embedding, and nothing proved below depends on which function
    it is. *)
Variable sqrt : Q -> Q.

(** [Rolling.std]: the sample standard deviation, NaN for fewer than two
    observations. *)
Definition std (w : list float64) : float64 :=
  match finite_values w with
  | Some qs =>
      if (length qs <=? 1)%nat then NaN else Fin (sqrt (Qvar qs))
  | None => NaN
  end.
End Std.

(** One admissible square root, for evaluating the definitions on
    concrete data: the integer square root at six decimals. *)
Definition sqrt6 (q : Q) : Q :=
  (inject_Z (Z.sqrt (Qfloor (q * 1000000000000))) / 1000000)%Q.

End Pandas.

(** ** The data model *)

(** A row of the OHLCV DataFrame; [name] is its index label (the timestamp). *)
Record candle : Type := mkCandle {
  name : Z;
  open : Q;
  high : Q;
  low : Q;
  close : Q;
  volume : Q
}.

Definition DataFrame := list candle.

(** [df['close']] *)
Definition close_column (df : DataFrame) : Pandas.Series :=
  map (fun c => Fin (close c)) df.

(** ** core/market_analysis.py: MarketAnalyzer *)

Module MarketAnalyzer.
Import Pandas.

(** [analyze_market_regime(btc_ohlcv_df)]: raises [ValueError] below 120
    candles; otherwise compares the last close with the last SMA20, SMA60
    and SMA120.  A chained Python comparison [a > b > c > d] is
    [a > b and b > c and c > d]. *)
Definition analyze_market_regime (btc_ohlcv_df : DataFrame) : result string :=
  if (length btc_ohlcv_df <? 120)%nat then Raise ValueError
  else
    let SMA20 := rolling 20 mean (close_column btc_ohlcv_df) in
    let SMA60 := rolling 60 mean (close_column btc_ohlcv_df) in
    let SMA120 := rolling 120 mean (close_column btc_ohlcv_df) in
    current_price ← iloc_last (close_column btc_ohlcv_df);
    sma20 ← iloc_last SMA20;
    sma60 ← iloc_last SMA60;
    sma120 ← iloc_last SMA120;
    if F.gt current_price sma20 && F.gt sma20 sma60 && F.gt sma60 sma120
    then Ok "UPTREND"%string
    else if F.lt current_price sma20 && F.lt sma20 sma60 && F.lt sma60 sma120
    then Ok "DOWNTREND"%string
    else Ok "SIDEWAYS"%string.

(** The same function with [Series.rolling(window=w).mean()] left open.
    pandas computes a rolling mean with a float64 running sum (a value
    enters, a value leaves), so the double it stores is in general not the
    exact mean of the window: three windows whose exact means coincide can
    hold three different doubles.  What the classifier does with the
    values is independent of how they were computed; [rolling_mean w s] is
    the column pandas returns for the window [w] on the series [s].
    [analyze_market_regime] is the instance at the exact mean. *)
Definition analyze_market_regime_with
    (rolling_mean : nat -> Series -> Series) (btc_ohlcv_df : DataFrame)
  : result string :=
  if (length btc_ohlcv_df <? 120)%nat then Raise ValueError
  else
    let SMA20 := rolling_mean 20%nat (close_column btc_ohlcv_df) in
    let SMA60 := rolling_mean 60%nat (close_column btc_ohlcv_df) in
    let SMA120 := rolling_mean 120%nat (close_column btc_ohlcv_df) in
    current_price ← iloc_last (close_column btc_ohlcv_df);
    sma20 ← iloc_last SMA20;
    sma60 ← iloc_last SMA60;
    sma120 ← iloc_last SMA120;
    if F.gt current_price sma20 && F.gt sma20 sma60 && F.gt sma60 sma120
    then Ok "UPTREND"%string
    else if F.lt current_price sma20 && F.lt sma20 sma60 && F.lt sma60 sma120
    then Ok "DOWNTREND"%string
    else Ok "SIDEWAYS"%string.

(** A ticker dict.  ['symbol'] is always read with [ticker['symbol']];
    ['change_pct'] and ['quote_volume'] are read with [.get(key, 0)], so an
    absent key is [None] here. *)
Record ticker : Type := mkTicker {
  symbol : string;
  change_pct : option Q;
  quote_volume : option Q;
  last_price : Q
}.

(** [d.get(key, 0)] *)
Definition get0 (field : option Q) : Q := default 0 field.

(** [s.endswith(suffix)] *)
Definition endswith (s suffix : string) : bool :=
  let n := String.length s in
  let m := String.length suffix in
  (m <=? n)%nat && String.eqb (substring (n - m) m s) suffix.

(** [sorted(xs, key=key, reverse=reverse)]: a stable sort; with
    [reverse=True] the order of the keys is descending and entries with
    equal keys still keep their original order. *)
Section Sorted.
Context {A : Type} (key : A -> Q) (reverse : bool).

(** [stays_in_front y x]: [y] must stay in front of the newly inserted [x]. *)
Definition stays_in_front (y x : A) : bool :=
  if reverse
  then match key y ?= key x with Gt => true | _ => false end
  else match key y ?= key x with Lt => true | _ => false end.

Fixpoint insert_sorted (x : A) (l : list A) : list A :=
  match l with
  | [] => [x]
  | y :: l' =>
      if stays_in_front y x then y :: insert_sorted x l' else x :: y :: l'
  end.

Definition sorted (l : list A) : list A := fold_right insert_sorted [] l.
End Sorted.

(** One value of the [scores] dict. *)
Record score_item : Type := mkScore {
  s_symbol : string;
  s_data : ticker;
  s_score : Q
}.

(** [if symbol not in scores: scores[symbol] = {...,'score': 0}] followed by
    [scores[symbol]['score'] += points].  The dict keeps insertion order,
    which the final stable sort exposes, so it is an association list. *)
Fixpoint add_score (item : ticker) (points : Q) (scores : list score_item)
  : list score_item :=
  match scores with
  | [] => [ mkScore (symbol item) item (0 + points) ]
  | e :: rest =>
      if String.eqb (s_symbol e) (symbol item)
      then mkScore (s_symbol e) (s_data e) (s_score e + points) :: rest
      else e :: add_score item points rest
  end.

(** [for i, item in enumerate(lst): ... += (10 - i) * weight] *)
Definition score_list (lst : list ticker) (weight : Q)
    (scores : list score_item) : list score_item :=
  fold_left
    (fun sc '(i, item) =>
       add_score item ((10 - inject_Z (Z.of_nat i)) * weight) sc)
    (combine (seq 0 (length lst)) lst) scores.

Definition _calculate_weighted_score (change_list volume_list : list ticker)
    (change_weight volume_weight : Q) : list ticker :=
  let scores := score_list change_list change_weight [] in
  let scores := score_list volume_list volume_weight scores in
  let sorted_items := sorted s_score true scores in
  map s_data sorted_items.

(** An entry of the selected universe. *)
Record pick : Type := mkPick {
  p_symbol : string;
  direction : string
}.

Definition as_picks (dir : string) (selected : list ticker) : list pick :=
  map (fun item => mkPick (symbol item) dir) selected.

(** [xs[-n:]] *)
Definition last_n {A : Type} (n : nat) (xs : list A) : list A :=
  skipn (length xs - n) xs.

Definition scan_universe (market_regime : string)
    (all_tickers_data : list ticker) : list pick :=
  let usdt_pairs :=
    List.filter (fun t => endswith (symbol t) "/USDT") all_tickers_data in
  if String.eqb market_regime "UPTREND" then
    let sorted_by_change :=
      sorted (fun x => get0 (change_pct x)) true usdt_pairs in
    let top_change := firstn 10 sorted_by_change in
    let sorted_by_volume :=
      sorted (fun x => get0 (quote_volume x)) true usdt_pairs in
    let top_volume := firstn 10 sorted_by_volume in
    let selected := _calculate_weighted_score top_change top_volume 0.6 0.4 in
    as_picks "long" (firstn 5 selected)
  else if String.eqb market_regime "DOWNTREND" then
    let sorted_by_change :=
      sorted (fun x => get0 (change_pct x)) false usdt_pairs in
    let top_change := firstn 10 sorted_by_change in
    let sorted_by_volume :=
      sorted (fun x => get0 (quote_volume x)) true usdt_pairs in
    let top_volume := firstn 10 sorted_by_volume in
    let selected := _calculate_weighted_score top_change top_volume 0.6 0.4 in
    as_picks "short" (firstn 5 selected)
  else
    let sorted_by_change :=
      sorted (fun x => get0 (change_pct x)) true usdt_pairs in
    let top_gainers := firstn 10 sorted_by_change in
    let top_losers := last_n 10 sorted_by_change in
    let sorted_by_volume :=
      sorted (fun x => get0 (quote_volume x)) true usdt_pairs in
    let top_volume := firstn 10 sorted_by_volume in
    let selected_long :=
      firstn 5 (_calculate_weighted_score top_gainers top_volume 0.6 0.4) in
    let selected_short :=
      firstn 5 (_calculate_weighted_score top_losers top_volume 0.6 0.4) in
    as_picks "long" selected_long ++ as_picks "short" selected_short.

End MarketAnalyzer.

(** ** core/strategy_base.py: the strategies *)

Module Strategy.
Import Pandas.

(** [BaseStrategy.calculate_pnl]: [position_size] is a quantity of units
    here; any direction other than ['long'] takes the short branch. *)
Definition calculate_pnl (entry_price current_price position_size : Q)
    (direction : string) : Q :=
  if String.eqb direction "long"
  then (current_price - entry_price) * position_size
  else (entry_price - current_price) * position_size.

(** The RSI block, written out identically in
    [MomentumStrategy.check_entry_signal] and
    [MeanReversionStrategy.check_entry_signal]:
<<
    delta = ohlcv_df['close'].diff()
    gain = (delta.where(delta > 0, 0)).rolling(window=rsi_period).mean()
    loss = (-delta.where(delta < 0, 0)).rolling(window=rsi_period).mean()
    rs = gain / loss
    rsi = 100 - (100 / (1 + rs))
>> *)
Definition gain_series (rsi_period : nat) (close : Series) : Series :=
  let delta := diff close in
  rolling rsi_period mean (where_ (fun d => F.gt d (Fin 0)) (Fin 0) delta).

Definition loss_series (rsi_period : nat) (close : Series) : Series :=
  let delta := diff close in
  rolling rsi_period mean
    (map F.neg (where_ (fun d => F.lt d (Fin 0)) (Fin 0) delta)).

Definition rsi_of (gain loss : float64) : float64 :=
  let rs := F.div gain loss in
  F.sub (Fin 100) (F.div (Fin 100) (F.add (Fin 1) rs)).

Definition rsi_series (rsi_period : nat) (close : Series) : Series :=
  zip_with rsi_of (gain_series rsi_period close)
                  (loss_series rsi_period close).

Module Momentum.
Definition rsi_period : nat := 14.
Definition rsi_oversold : Q := 30.
Definition sma_short : nat := 20.
Definition sma_long : nat := 50.

Definition check_entry_signal (ohlcv_df : DataFrame) : result bool :=
  if (length ohlcv_df <? 50)%nat then Ok false
  else
    let rsi := rsi_series rsi_period (close_column ohlcv_df) in
    let sma_s := rolling sma_short mean (close_column ohlcv_df) in
    let sma_l := rolling sma_long mean (close_column ohlcv_df) in
    current_rsi ← iloc_last rsi;
    current_sma_short ← iloc_last sma_s;
    current_sma_long ← iloc_last sma_l;
    if F.lt current_rsi (Fin rsi_oversold)
       && F.gt current_sma_short current_sma_long
    then Ok true
    else Ok false.
End Momentum.

Module MeanReversion.
Definition bb_period : nat := 20.
Definition bb_std : Q := 2.
Definition rsi_period : nat := 14.
Definition rsi_oversold : Q := 20.

Section WithSqrt.
Variable sqrt : Q -> Q.

Definition check_entry_signal (ohlcv_df : DataFrame) : result bool :=
  if (length ohlcv_df <? 20)%nat then Ok false
  else
    let sma := rolling bb_period mean (close_column ohlcv_df) in
    let std := rolling bb_period (std sqrt) (close_column ohlcv_df) in
    let upper_band :=
      zip_with F.add sma (map (fun s => F.mul s (Fin bb_std)) std) in
    let lower_band :=
      zip_with F.sub sma (map (fun s => F.mul s (Fin bb_std)) std) in
    let rsi := rsi_series rsi_period (close_column ohlcv_df) in
    current_price ← iloc_last (close_column ohlcv_df);
    current_upper ← iloc_last upper_band;
    current_lower ← iloc_last lower_band;
    current_rsi ← iloc_last rsi;
    if F.le current_price (F.mul current_lower (Fin 1.02))
       && F.lt current_rsi (Fin rsi_oversold)
    then Ok true
    else Ok false.
End WithSqrt.
End MeanReversion.

(** The dict returned by [BollingerBandBreakoutStrategy.set_trailing_stop]. *)
Record stop_info : Type := mkStopInfo {
  stop_loss : Q;
  take_profit : Q;
  trailing_stop : Q;
  max_profit_target : Q
}.

Module Bollinger.
Definition bb_20_period : nat := 20.
Definition bb_20_std : Q := 2.
Definition bb_80_period : nat := 80.
Definition bb_80_std : Q := 2.

Section WithSqrt.
Variable sqrt : Q -> Q.

Definition calculate_bollinger_bands (ohlcv_df : DataFrame)
    (period : nat) (std_dev : Q) : Series * Series * Series :=
  let sma := rolling period mean (close_column ohlcv_df) in
  let std := rolling period (std sqrt) (close_column ohlcv_df) in
  let upper_band :=
    zip_with F.add sma (map (fun s => F.mul s (Fin std_dev)) std) in
  let lower_band :=
    zip_with F.sub sma (map (fun s => F.mul s (Fin std_dev)) std) in
  (upper_band, sma, lower_band).

Definition check_entry_signal (ohlcv_df : DataFrame) : result bool :=
  if (length ohlcv_df <? 80)%nat then Ok false
  else
    let '(bb20_upper, bb20_middle, bb20_lower) :=
      calculate_bollinger_bands ohlcv_df bb_20_period bb_20_std in
    let '(bb80_upper, bb80_middle, bb80_lower) :=
      calculate_bollinger_bands ohlcv_df bb_80_period bb_80_std in
    current_candle ← iloc_last ohlcv_df;
    let current_open := Fin (open current_candle) in
    let current_high := Fin (high current_candle) in
    let current_close := Fin (close current_candle) in
    current_bb20_lower ← iloc_last bb20_lower;
    current_bb20_upper ← iloc_last bb20_upper;
    current_bb80_upper ← iloc_last bb80_upper;
    let condition1 := F.lt current_open current_bb20_lower in
    let combined_upper := F.add current_bb20_upper current_bb80_upper in
    let condition2 := F.gt current_high combined_upper in
    let condition3 := F.gt current_close current_open in
    Ok (condition1 && condition2 && condition3).
End WithSqrt.

Definition set_trailing_stop (entry_price : Q) : stop_info :=
  {| stop_loss := entry_price * 0.97;
     take_profit := entry_price * 3.00;
     trailing_stop := entry_price * 0.985;
     max_profit_target := entry_price * 3.00 |}.

(** [ohlcv_df.iloc[-1]['close'] * 0.995] *)
Definition get_entry_price (ohlcv_df : DataFrame) : result Q :=
  current_candle ← iloc_last ohlcv_df;
  Ok (close current_candle * 0.995).

Definition get_position_size_ratio : Q := 0.3.
End Bollinger.

(** [StrategyFactory]: the registry maps an id to a strategy class. *)
Inductive strategy_class : Type :=
| MomentumStrategy
| MeanReversionStrategy
| BollingerBandBreakoutStrategy.

Definition _strategies : gmap string strategy_class :=
  <["momentum_v1"%string := MomentumStrategy]>
    (<["mean_reversion_v1"%string := MeanReversionStrategy]>
       (<["bollinger_breakout_v1"%string := BollingerBandBreakoutStrategy]> ∅)).

Definition get_strategy (strategy_id : string) : result strategy_class :=
  match _strategies !! strategy_id with
  | Some cls => Ok cls
  | None => Raise ValueError
  end.

End Strategy.

(** ** api/backtest.py: the Bollinger breakout back-test *)

Module Backtest.
Import Strategy.

(** The four texts written to [trade["close_reason"]], in the order of the
    source: the stop loss, the 200% maximum take profit, the trailing stop
    and the end of the back-test. *)
Inductive close_reason : Type :=
| StopLoss
| TakeProfit
| TrailingStop
| EndOfData.

(** The [position] dict.  ['highest_price'] is set when the dict is
    created, so the [if 'highest_price' not in position] branch of the
    source is never taken and the key is a plain field. *)
Record position : Type := mkPosition {
  entry_date : Z;
  entry_price : Q;
  pos_size : Q;
  pos_direction : string;
  highest_price : Q
}.

(** A trade dict.  The keys written on close are absent ([None]) while the
    trade is open.  (The constant ['strategy_signal'] text is left out.) *)
Record trade : Type := mkTrade {
  date : Z;
  symbol : string;
  action : string;
  t_direction : string;
  price : Q;
  t_size : Q;
  pnl : Q;
  t_stop_loss : Q;
  t_max_profit_target : Q;
  close_date : option Z;
  close_price : option Q;
  t_close_reason : option close_reason;
  highest_price_reached : option Q;
  max_profit_percentage : option Q
}.

Record equity_point : Type := mkEquity {
  e_date : Z;
  equity : Q
}.

(** Calls made on the strategy and on the exit rules, in order.  This is
    the only part of the state that is not a variable of the source: it
    records, per candle index, that [strategy.check_entry_signal] was
    called (and its answer), or that the closing conditions were evaluated
    (and which one fired). *)
Inductive event : Type :=
| SignalConsulted (i : nat) (signal : bool)
| ExitEvaluated (i : nat) (verdict : option close_reason).

(** The local variables of [run_bollinger_breakout_backtest]. *)
Record sim : Type := mkSim {
  trades : list trade;
  current_capital : Q;
  equity_curve : list equity_point;
  pos : option position;
  trace : list event
}.

Definition initial (initial_capital : Q) : sim :=
  {| trades := []; current_capital := initial_capital;
     equity_curve := []; pos := None; trace := [] |}.

(** The writes to [trades[-1]] when a position is closed. *)
Definition close_trade (pnl' : Q) (when : Z) (current_price : Q)
    (reason : close_reason) (p : position) (t : trade) : trade :=
  {| date := date t; symbol := symbol t; action := action t;
     t_direction := t_direction t; price := price t; t_size := t_size t;
     pnl := pnl';
     t_stop_loss := t_stop_loss t;
     t_max_profit_target := t_max_profit_target t;
     close_date := Some when;
     close_price := Some current_price;
     t_close_reason := Some reason;
     highest_price_reached := Some (highest_price p);
     max_profit_percentage :=
       Some ((highest_price p - entry_price p) / entry_price p * 100) |}.

Definition with_highest (h : Q) (p : position) : position :=
  {| entry_date := entry_date p; entry_price := entry_price p;
     pos_size := pos_size p; pos_direction := pos_direction p;
     highest_price := h |}.

Definition log (e : event) (st : sim) : sim :=
  {| trades := trades st; current_capital := current_capital st;
     equity_curve := equity_curve st; pos := pos st;
     trace := trace st ++ [e] |}.

(** The [if / elif / elif] chain over the three closing conditions;
    [highest] is the already updated [position['highest_price']]. *)
Definition closing_condition (current_price entry highest : Q)
  : option close_reason :=
  let stop_info := Bollinger.set_trailing_stop entry in
  let trailing := highest * 0.985 in
  if Qleb current_price (stop_loss stop_info) then Some StopLoss
  else if Qleb (max_profit_target stop_info) current_price then Some TakeProfit
  else if Qleb current_price trailing && Qltb (entry * 1.02) highest
  then Some TrailingStop
  else None.

(** The [position] dict and the trade dict written on entry. *)
Definition new_position (current_date : Z) (entry position_size : Q)
  : position :=
  {| entry_date := current_date; entry_price := entry;
     pos_size := position_size; pos_direction := "LONG";
     highest_price := entry |}.

Definition new_trade (current_date : Z) (entry position_size : Q) : trade :=
  {| date := current_date; symbol := "BTC/USDT"; action := "BUY";
     t_direction := "LONG"; price := entry; t_size := position_size;
     pnl := 0;
     t_stop_loss := entry * 0.97;
     t_max_profit_target := entry * 3.00;
     close_date := None; close_price := None; t_close_reason := None;
     highest_price_reached := None; max_profit_percentage := None |}.

Section Engine.
Variable sqrt : Q -> Q.
(** [ohlcv_data]: in the source the candles come from
    [generate_test_ohlcv_data], a random generator; here they are the
    input of the engine. *)
Variable ohlcv_data : DataFrame.

(** Lines 162-190: the entry branch, taken when
    [position is None and strategy.check_entry_signal(current_data)]. *)
Definition enter (current_data : DataFrame) (current_date : Z) (st : sim)
  : result sim :=
  entry ← Bollinger.get_entry_price current_data;
  let position_size_ratio := Bollinger.get_position_size_ratio in
  let position_size := current_capital st * position_size_ratio in
  let position := new_position current_date entry position_size in
  let trade := new_trade current_date entry position_size in
  Ok {| trades := trades st ++ [trade];
        current_capital := current_capital st;
        equity_curve := equity_curve st;
        pos := Some position;
        trace := trace st |}.

(** Lines 193-244: the exit branch, taken when a position is held. *)
Definition manage (i : nat) (current_candle : candle) (current_date : Z)
    (position : position) (st : sim) : result sim :=
  let current_price := close current_candle in
  let entry := entry_price position in
  let position_size := pos_size position in
  let pnl := (current_price - entry) * position_size / entry in
  let position :=
    with_highest (py_max (highest_price position) current_price) position in
  let verdict :=
    closing_condition current_price entry (highest_price position) in
  let st := log (ExitEvaluated i verdict) st in
  match verdict with
  | Some close_reason =>
      trades' ← update_last
                  (close_trade pnl current_date current_price close_reason
                               position)
                  (trades st);
      Ok {| trades := trades';
            current_capital := current_capital st + pnl;
            equity_curve := equity_curve st;
            pos := None;
            trace := trace st |}
  | None =>
      Ok {| trades := trades st;
            current_capital := current_capital st;
            equity_curve := equity_curve st;
            pos := Some position;
            trace := trace st |}
  end.

(** One iteration of [for i in range(80, len(ohlcv_data))].  The [and] of
    the first test short-circuits: the strategy is asked only when no
    position is held. *)
Definition step (i : nat) (st : sim) : result sim :=
  let current_data := firstn (S i) ohlcv_data in
  current_candle ← Pandas.iloc_last current_data;
  let current_date := name current_candle in
  st ← match pos st with
       | None =>
           signal ← Bollinger.check_entry_signal sqrt current_data;
           let st := log (SignalConsulted i signal) st in
           if signal then enter current_data current_date st else Ok st
       | Some position => manage i current_candle current_date position st
       end;
  Ok {| trades := trades st;
        current_capital := current_capital st;
        equity_curve :=
          equity_curve st ++ [mkEquity current_date (current_capital st)];
        pos := pos st;
        trace := trace st |}.

(** The loop after its first [k] iterations. *)
Definition loop_upto (k : nat) (initial_capital : Q) : result sim :=
  for_each step (seq 80 k) (initial initial_capital).

Definition loop (initial_capital : Q) : result sim :=
  loop_upto (length ohlcv_data - 80) initial_capital.

(** Lines 252-268: a position still held after the loop is closed at the
    close of the last candle.  The variable [position] itself is not
    reset; nothing reads it afterwards. *)
Definition close_at_end (st : sim) : result sim :=
  match pos st with
  | None => Ok st
  | Some position =>
      last_candle ← Pandas.iloc_last ohlcv_data;
      let current_price := close last_candle in
      let entry := entry_price position in
      let position_size := pos_size position in
      let pnl := (current_price - entry) * position_size / entry in
      trades' ← update_last
                  (close_trade pnl (name last_candle) current_price
                               EndOfData position)
                  (trades st);
      let capital := current_capital st + pnl in
      curve' ← update_last (fun e => mkEquity (e_date e) capital)
                           (equity_curve st);
      Ok {| trades := trades';
            current_capital := capital;
            equity_curve := curve';
            pos := pos st;
            trace := trace st |}
  end.

(** The simulation part of [run_bollinger_breakout_backtest]: the loop
    and the forced close. *)
Definition simulate (initial_capital : Q) : result sim :=
  st ← loop initial_capital;
  close_at_end st.
End Engine.

(** Line 313, the [profit_factor] entry of the statistics:
<<
    round(sum(wins) / abs(sum(losses)), 2) if sum(losses) != 0 else 0
>>  with [wins] the pnls [> 0] and [losses] the pnls [< 0] of all trades. *)
Definition winning_pnls (ts : list trade) : list Q :=
  List.filter (fun x => Qltb 0 x) (map pnl ts).

Definition losing_pnls (ts : list trade) : list Q :=
  List.filter (fun x => Qltb x 0) (map pnl ts).

Definition profit_factor (ts : list trade) : Q :=
  if Qneqb (py_sum (losing_pnls ts)) 0
  then py_round (py_sum (winning_pnls ts) / Qabs (py_sum (losing_pnls ts))) 2
  else 0.

(** What [run_bollinger_breakout_backtest] returns, as far as it is used
    below: the ledger, the equity curve and the profit factor.  The other
    summary numbers are not embedded. *)
Record backtest_result : Type := mkResult {
  r_trades : list trade;
  r_equity_curve : list equity_point;
  r_profit_factor : Q
}.

(** [max(equities)] raises [ValueError] on an empty equity curve, that is
    when there are at most 80 candles.  (The summary block, which is not
    embedded, divides by the initial capital; whether a zero capital makes
    that division raise depends on the Python or NumPy type of the
    operands.  Nothing below relies on a run with a zero capital
    completing.) *)
Definition run_bollinger_breakout_backtest (sqrt : Q -> Q)
    (ohlcv_data : DataFrame) (initial_capital : Q) : result backtest_result :=
  st ← simulate sqrt ohlcv_data initial_capital;
  match equity_curve st with
  | [] => Raise ValueError
  | _ :: _ =>
      Ok {| r_trades := trades st;
            r_equity_curve := equity_curve st;
            r_profit_factor := profit_factor (trades st) |}
  end.

(** *** The request endpoint *)

(** [models/trade_models.py]: the pydantic model of the request body; the
    five fields carry types only, no validator. *)
Record BacktestRequest : Type := mkRequest {
  strategy_id : string;
  start_date : Z;
  end_date : Z;
  initial_capital : Q;
  timeframe : string
}.

(** A row of the [backtest_jobs] table. *)
Record BacktestJob : Type := mkJobRow {
  row_request : BacktestRequest;
  row_status : string
}.

(** A value of the process-wide [backtest_jobs] dict. *)
Record job : Type := mkJob {
  job_request : BacktestRequest;
  job_status : string;
  created_at : Z;
  results : option backtest_result;
  error : option string
}.

(** Everything [create_backtest] can write to: the database session, the
    [backtest_jobs] dict and the queue of background tasks. *)
Record server : Type := mkServer {
  db : list BacktestJob;
  backtest_jobs : gmap string job;
  background_tasks : list (string * BacktestRequest)
}.

Record response : Type := mkResponse {
  resp_job_id : string;
  resp_strategy : strategy_class;
  resp_status : string
}.

(** [create_backtest]: [job_id] stands for [str(uuid.uuid4())] and [now]
    for [datetime.now()].  The result is the reply (or the exception) and
    the state of the server afterwards. *)
Definition create_backtest (request : BacktestRequest) (job_id : string)
    (now : Z) (sv : server) : result response * server :=
  match get_strategy (strategy_id request) with
  | Raise _ => (Raise (HTTPException 400), sv)
  | Ok strategy =>
      if (start_date request >=? end_date request)%Z
      then (Raise (HTTPException 400), sv)
      else
        let backtest_job := mkJobRow request "PENDING" in
        let entry := mkJob request "PENDING" now None None in
        (Ok (mkResponse job_id strategy "PENDING"),
         {| db := db sv ++ [backtest_job];
            backtest_jobs := <[job_id := entry]> (backtest_jobs sv);
            background_tasks := background_tasks sv ++ [(job_id, request)] |})
  end.
End Backtest.

(** ** The quantities the specification names *)

Module Spec.
Import Pandas.

(** The last close and the simple moving average of the last [w] closes. *)
Definition last_close (df : DataFrame) : Q :=
  default 0 (last (map close df)).

Definition sma (w : nat) (df : DataFrame) : Q :=
  Qmean (window w (length df - 1) (map close df)).

(** The two strict chains and a tie, on the four doubles the classifier
    holds: the last close [c] and the last SMA20 [a], SMA60 [b] and SMA120
    [d] as they were computed. *)
Definition uptrend_chain (c a b d : float64) : Prop :=
  F.gt c a = true /\ F.gt a b = true /\ F.gt b d = true.

Definition downtrend_chain (c a b d : float64) : Prop :=
  F.lt c a = true /\ F.lt a b = true /\ F.lt b d = true.

(** Two of the four values are equal. *)
Definition some_tie (c a b d : float64) : Prop :=
  F.eq c a = true \/ F.eq c b = true \/ F.eq c d = true \/
  F.eq a b = true \/ F.eq a d = true \/ F.eq b d = true.

(** Every entry of a ranked universe has the direction [dir]. *)
Definition all_direction (dir : string) (l : list MarketAnalyzer.pick) : Prop :=
  Forall (fun p => MarketAnalyzer.direction p = dir) l.

(** The shape of the SIDEWAYS answer, which is also the answer for any
    regime text other than the two trend labels: at most five long entries
    followed by at most five short ones. *)
Definition long_short_split (l : list MarketAnalyzer.pick) : Prop :=
  exists longs shorts : list MarketAnalyzer.pick,
    l = longs ++ shorts /\
    (length longs <= 5)%nat /\ (length shorts <= 5)%nat /\
    all_direction "long" longs /\ all_direction "short" shorts.

(** A request the endpoint turns down: the strategy id is not a key of the
    registry, or the start date is not before the end date. *)
Definition malformed (request : Backtest.BacktestRequest) : Prop :=
  Strategy._strategies !! Backtest.strategy_id request = None \/
  (Backtest.end_date request <= Backtest.start_date request)%Z.

(** The sums the profit factor is made of, in the words of the
    specification: the sum of the winning pnls and the sum of the losing
    pnls of a ledger. *)
Definition gross_win (ts : list Backtest.trade) : Q :=
  py_sum (List.filter (fun x => Qltb 0 x) (map Backtest.pnl ts)).

Definition gross_loss (ts : list Backtest.trade) : Q :=
  py_sum (List.filter (fun x => Qltb x 0) (map Backtest.pnl ts)).

Definition no_losing_trade (ts : list Backtest.trade) : Prop :=
  Forall (fun t => 0 <= Backtest.pnl t) ts.

(** The realized pnl of a position closed at a price, in the words of the
    specification: [(closePrice - entryPrice) * size / entryPrice]. *)
Definition pnl_at (p : Backtest.position) (close_price : Q) : Q :=
  (close_price - Backtest.entry_price p) * Backtest.pos_size p
    / Backtest.entry_price p.

(** The candle [c] at index [i] closes the position [p] held in [st] for
    [reason], giving [st']: the last trade of the ledger receives its close
    fields and the realized pnl, the capital grows by that pnl, the position
    is gone, and exactly one evaluation of the closing conditions is
    logged. *)
Definition closes_with (reason : Backtest.close_reason) (i : nat) (c : candle)
    (p : Backtest.position) (st st' : Backtest.sim) : Prop :=
  Backtest.pos st' = None /\
  (exists (ts : list Backtest.trade) (t t' : Backtest.trade),
     Backtest.trades st = ts ++ [t] /\
     Backtest.trades st' = ts ++ [t'] /\
     Backtest.t_close_reason t' = Some reason /\
     Backtest.close_date t' = Some (name c) /\
     Backtest.close_price t' = Some (close c) /\
     Backtest.pnl t' = pnl_at p (close c)) /\
  Backtest.current_capital st'
    = Backtest.current_capital st + pnl_at p (close c) /\
  Backtest.trace st'
    = Backtest.trace st ++ [Backtest.ExitEvaluated i (Some reason)].

(** The candle leaves the position open; only its running high moves. *)
Definition stays_open (i : nat) (highest : Q) (p : Backtest.position)
    (st st' : Backtest.sim) : Prop :=
  Backtest.pos st' = Some (Backtest.with_highest highest p) /\
  Backtest.trades st' = Backtest.trades st /\
  Backtest.current_capital st' = Backtest.current_capital st /\
  Backtest.trace st' = Backtest.trace st ++ [Backtest.ExitEvaluated i None].

(** *** The state machine of the simulation engine *)

Inductive phase : Type := FLAT | OPEN.

Definition phase_of (st : Backtest.sim) : phase :=
  match Backtest.pos st with
  | None => FLAT
  | Some _ => OPEN
  end.

(** What each phase allows on one candle.  FLAT: the entry signal is
    consulted, and a positive answer opens a position.  OPEN: the closing
    conditions are evaluated, and a verdict closes the position.  A signal
    consulted while OPEN, or an exit evaluated while FLAT, is refused. *)
Definition transition (ph : phase) (e : Backtest.event) : option phase :=
  match ph, e with
  | FLAT, Backtest.SignalConsulted _ false => Some FLAT
  | FLAT, Backtest.SignalConsulted _ true => Some OPEN
  | OPEN, Backtest.ExitEvaluated _ None => Some OPEN
  | OPEN, Backtest.ExitEvaluated _ (Some _) => Some FLAT
  | _, _ => None
  end.

Definition event_index (e : Backtest.event) : nat :=
  match e with
  | Backtest.SignalConsulted i _ => i
  | Backtest.ExitEvaluated i _ => i
  end.

(** Runs the machine over a trace that must hold exactly one event per
    candle index, starting at index [next]. *)
Fixpoint run_machine (ph : phase) (next : nat) (tr : list Backtest.event)
  : option phase :=
  match tr with
  | [] => Some ph
  | e :: tr' =>
      if (event_index e =? next)%nat
      then match transition ph e with
           | Some ph' => run_machine ph' (S next) tr'
           | None => None
           end
      else None
  end.

(** A trade of the ledger that has not been closed yet. *)
Definition is_open (t : Backtest.trade) : bool :=
  match Backtest.close_date t with
  | None => true
  | Some _ => false
  end.

Definition open_trades (ts : list Backtest.trade) : list Backtest.trade :=
  List.filter is_open ts.

Section Ledger.
Variable ohlcv_data : DataFrame.

(** [t] was entered on candle [i] and closed on candle [j] for [reason]. *)
Definition entered_closed (t : Backtest.trade) (i j : nat)
    (reason : Backtest.close_reason) : Prop :=
  exists ci cj : candle,
    ohlcv_data !! i = Some ci /\ ohlcv_data !! j = Some cj /\
    Backtest.date t = name ci /\
    Backtest.close_date t = Some (name cj) /\
    Backtest.close_price t = Some (close cj) /\
    Backtest.t_close_reason t = Some reason.

(** A trade closed by one of the three closing conditions before candle
    [n]: the closing candle comes strictly after the entry candle. *)
Definition closed_by_rule (n : nat) (t : Backtest.trade) : Prop :=
  exists (i j : nat) (reason : Backtest.close_reason),
    entered_closed t i j reason /\
    reason <> Backtest.EndOfData /\ (i < j)%nat /\ (j < n)%nat.

(** A trade of the final ledger: closed by a rule on a later candle, or
    closed by the end of the data on the last candle, which may be the
    entry candle itself. *)
Definition settled (t : Backtest.trade) : Prop :=
  exists (i j : nat) (reason : Backtest.close_reason),
    entered_closed t i j reason /\
    ((reason <> Backtest.EndOfData /\ (i < j)%nat) \/
     (reason = Backtest.EndOfData /\ (i <= j)%nat /\
      S j = length ohlcv_data)).

(** A trade still open: entered on a candle before [n]. *)
Definition entered_open (n : nat) (p : Backtest.position)
    (t : Backtest.trade) : Prop :=
  exists (i : nat) (ci : candle),
    ohlcv_data !! i = Some ci /\ (80 <= i)%nat /\ (i < n)%nat /\
    Backtest.date t = name ci /\ Backtest.entry_date p = name ci /\
    Backtest.close_date t = None /\ Backtest.t_close_reason t = None.

(** The ledger against the position variable, after the candles before
    [n]: without a position every trade is closed; with one, exactly the
    last trade is open. *)
Definition ledger_matches (n : nat) (st : Backtest.sim) : Prop :=
  match Backtest.pos st with
  | None => Forall (closed_by_rule n) (Backtest.trades st)
  | Some p =>
      exists (ts : list Backtest.trade) (t : Backtest.trade),
        Backtest.trades st = ts ++ [t] /\
        Forall (closed_by_rule n) ts /\ entered_open n p t
  end.

(** The loop invariant after [k] iterations. *)
Record invariant (k : nat) (st : Backtest.sim) : Prop := mkInvariant {
  inv_machine : run_machine FLAT 80 (Backtest.trace st) = Some (phase_of st);
  inv_events : length (Backtest.trace st) = k;
  inv_curve : length (Backtest.equity_curve st) = k;
  inv_ledger : ledger_matches (80 + k) st
}.

End Ledger.

End Spec.

(** ** Sample data, for evaluating the embedding *)

Module Samples.

(** [n] hourly candles whose prices all equal [p + i * slope] at index [i]. *)
Definition ramp (n : nat) (p slope : Q) : DataFrame :=
  map (fun i =>
         let v := p + inject_Z (Z.of_nat i) * slope in
         mkCandle (Z.of_nat i) v v v v 1)
      (seq 0 n).

(** The series [close_i = 100 + i] over 200 candles. *)
Definition rising_series : DataFrame := ramp 200 100 1.

(** A series that never moves. *)
Definition flat_series (n : nat) : DataFrame := ramp n 100 0.

(** Three USDT pairs and one pair quoted in another currency. *)
Definition small_snapshot : list MarketAnalyzer.ticker :=
  [ MarketAnalyzer.mkTicker "AAA/USDT" (Some 5) (Some 100) 1;
    MarketAnalyzer.mkTicker "BBB/USDT" (Some (-3)) (Some 900) 2;
    MarketAnalyzer.mkTicker "CCC/BTC" (Some 50) (Some 5000) 3;
    MarketAnalyzer.mkTicker "DDD/USDT" None (Some 300) 4 ].

(** Requests to the back-test endpoint: a well-formed one, one naming no
    registered strategy, one with the dates in the wrong order, and two
    with a capital that is not positive. *)
Definition good_request : Backtest.BacktestRequest :=
  Backtest.mkRequest "bollinger_breakout_v1" 1704067200 1706745600 10000 "1h".

Definition unknown_strategy_request : Backtest.BacktestRequest :=
  Backtest.mkRequest "no_such_strategy" 1704067200 1706745600 10000 "1h".

Definition reversed_dates_request : Backtest.BacktestRequest :=
  Backtest.mkRequest "momentum_v1" 1706745600 1704067200 10000 "1h".

Definition zero_capital_request : Backtest.BacktestRequest :=
  Backtest.mkRequest "bollinger_breakout_v1" 1704067200 1706745600 0 "1h".

Definition negative_capital_request : Backtest.BacktestRequest :=
  Backtest.mkRequest "bollinger_breakout_v1" 1704067200 1706745600 (-1000) "1h".

(** A closed trade of the ledger with a given realized pnl. *)
Definition closed_trade (realized : Q) : Backtest.trade :=
  Backtest.mkTrade 0 "BTC/USDT" "BUY" "LONG" 100 1000 realized 97 300
    (Some 1%Z) (Some (100 + realized / 10)) (Some Backtest.TrailingStop)
    (Some 100) (Some 0).

(** A ledger with one winner of 1 and one loser of 3, and one with two
    winners. *)
Definition one_win_one_loss : list Backtest.trade :=
  [closed_trade 1; closed_trade (-3)].

Definition winners_only : list Backtest.trade :=
  [closed_trade 470; closed_trade 25].

(** The scenario of the specification: a long position entered at 100 with
    a size of 1000 whose running high is 150, and a candle closing at 147. *)
Definition scenario_position : Backtest.position :=
  Backtest.mkPosition 10 100 1000 "LONG" 150.

Definition scenario_state : Backtest.sim :=
  Backtest.mkSim [Backtest.new_trade 10 100 1000] 5000
    [Backtest.mkEquity 79 5000] (Some scenario_position) [].

Definition scenario_candle : candle := mkCandle 80 148 149 146 147 1.

Definition scenario_series : DataFrame := flat_series 80 ++ [scenario_candle].

(** A run with two trades.  Eighty quiet candles; candle 80 opens below the
    bands and spikes through them (entry); candle 81 closes at 150; candle
    82 closes at 147 (trailing stop); candle 83 gives no signal; candle 84,
    the last one, is another breakout (entry, closed by the end of the
    data on the same candle). *)
Definition breakout_series : DataFrame :=
  flat_series 80 ++
  [ mkCandle 80 90 250 90 100 1;
    mkCandle 81 100 151 100 150 1;
    mkCandle 82 150 150 146 147 1;
    mkCandle 83 147 148 145 146 1;
    mkCandle 84 1 100000 1 2 1 ].

(** Stand-ins for the random simulation and for [str(e)]. *)
Definition no_random_result (_ : Backtest.BacktestRequest)
  : result Backtest.backtest_result :=
  Ok (Backtest.mkResult [] [Backtest.mkEquity 0 10000] 0).

Definition exn_text (e : exn) : string :=
  match e with
  | ValueError => "ValueError"
  | IndexError => "IndexError"
  | HTTPException _ => "HTTPException"
  end.

(** A server that has seen no request yet. *)
Definition fresh_server : Backtest.server :=
  Backtest.mkServer [] ∅ [].

End Samples.

(** ** The books of a run: what the ledger and the equity curve record *)

Module Books.

Section Books.
Variable ohlcv_data : DataFrame.
Variable initial_capital : Q.

(** The terms written on entry: the trade is dated by its entry candle and
    priced 0.5% under that candle's close; its stop and target fields are
    3% under and 200% over that price. *)
Definition entry_terms (t : Backtest.trade) : Prop :=
  exists (i : nat) (ci : candle),
    (80 <= i)%nat /\ ohlcv_data !! i = Some ci /\
    Backtest.date t = name ci /\
    Backtest.price t = close ci * 0.995 /\
    Backtest.t_stop_loss t = Backtest.price t * 0.97 /\
    Backtest.t_max_profit_target t = Backtest.price t * 3.00 /\
    Backtest.t_direction t = "LONG"%string.

(** The pnl a trade carries: 0 while it is open, and the return on its own
    price and size once it has a close price. *)
Definition pnl_recorded (t : Backtest.trade) : Prop :=
  match Backtest.close_price t with
  | Some cp =>
      Backtest.pnl t
        = (cp - Backtest.price t) * Backtest.t_size t / Backtest.price t
  | None => Backtest.pnl t = 0
  end.

(** Every trade was sized at 30% of the capital realized before it: the
    initial capital plus the pnl of the trades entered earlier. *)
Definition sized_from_capital (ts : list Backtest.trade) : Prop :=
  forall (n : nat) (t : Backtest.trade),
    ts !! n = Some t ->
    Backtest.t_size t
      == (initial_capital + py_sum (map Backtest.pnl (firstn n ts))) * 0.3.

(** The open trade mirrors the position that is held. *)
Definition position_mirrored (st : Backtest.sim) : Prop :=
  forall p : Backtest.position,
    Backtest.pos st = Some p ->
    exists (ts : list Backtest.trade) (t : Backtest.trade),
      Backtest.trades st = ts ++ [t] /\
      Backtest.price t = Backtest.entry_price p /\
      Backtest.t_size t = Backtest.pos_size p /\
      Backtest.pnl t = 0 /\ Backtest.close_price t = None /\
      Backtest.entry_price p <= Backtest.highest_price p /\
      Backtest.pos_size p == Backtest.current_capital st * 0.3.

(** The equity curve ends on the current capital. *)
Definition curve_ends_on_capital (st : Backtest.sim) : Prop :=
  match last (Backtest.equity_curve st) with
  | Some e => Backtest.equity e = Backtest.current_capital st
  | None => True
  end.

(** The books after [k] iterations of the loop. *)
Record books (k : nat) (st : Backtest.sim) : Prop := mkBooks {
  bk_capital :
    Backtest.current_capital st
      == initial_capital + py_sum (map Backtest.pnl (Backtest.trades st));
  bk_dates :
    map Backtest.e_date (Backtest.equity_curve st)
      = map name (firstn k (skipn 80 ohlcv_data));
  bk_curve : curve_ends_on_capital st;
  bk_terms : Forall entry_terms (Backtest.trades st);
  bk_pnl : Forall pnl_recorded (Backtest.trades st);
  bk_sized : sized_from_capital (Backtest.trades st);
  bk_position : position_mirrored st
}.

(** A closed trade states its own pnl. *)
Definition pnl_closed (t : Backtest.trade) : Prop :=
  exists cp : Q,
    Backtest.close_price t = Some cp /\
    Backtest.pnl t
      = (cp - Backtest.price t) * Backtest.t_size t / Backtest.price t.

(** The books of the state a run returns. *)
Record final_books (fin : Backtest.sim) : Prop := mkFinalBooks {
  fb_capital :
    Backtest.current_capital fin
      == initial_capital + py_sum (map Backtest.pnl (Backtest.trades fin));
  fb_dates :
    map Backtest.e_date (Backtest.equity_curve fin)
      = map name (skipn 80 ohlcv_data);
  fb_curve : curve_ends_on_capital fin;
  fb_terms : Forall entry_terms (Backtest.trades fin);
  fb_pnl : Forall pnl_closed (Backtest.trades fin);
  fb_sized : sized_from_capital (Backtest.trades fin)
}.

(** The bound each closing reason puts on the realized pnl of a trade, as
    a share of its size: a stop loss loses at least 3%, the take profit
    gains at least 200%, a trailing stop lands strictly in between; and no
    trade loses its whole size. *)
Definition pnl_bounded (t : Backtest.trade) : Prop :=
  0 < Backtest.price t /\ 0 < Backtest.t_size t /\
  - Backtest.t_size t < Backtest.pnl t /\
  match Backtest.t_close_reason t with
  | Some Backtest.StopLoss => Backtest.pnl t <= - (0.03 * Backtest.t_size t)
  | Some Backtest.TakeProfit => 2 * Backtest.t_size t <= Backtest.pnl t
  | Some Backtest.TrailingStop =>
      - (0.03 * Backtest.t_size t) < Backtest.pnl t /\
      Backtest.pnl t < 2 * Backtest.t_size t
  | _ => True
  end.

(** The run is solvent: the capital is positive and every trade is
    bounded. *)
Record solvent (st : Backtest.sim) : Prop := mkSolvent {
  sv_capital : 0 < Backtest.current_capital st;
  sv_trades : Forall pnl_bounded (Backtest.trades st)
}.

End Books.

(** The capital the engine holds after the trades [ts]: the initial
    capital with the pnl of each trade added in ledger order, which is the
    sequence of additions [current_capital += pnl] the loop performs (an
    open trade carries the pnl 0).  The summary's [final_capital], the
    initial capital plus [sum(pnl)], adds in another order. *)
Definition running_capital (initial_capital : Q) (ts : list Backtest.trade)
  : Q :=
  fold_left Qplus (map Backtest.pnl ts) initial_capital.

End Books.

(** ** api/backtest.py: the life of a job *)

Module Jobs.
Import Strategy Backtest.

(** What leaves a function of this module: an exception of the kinds met
    so far, or the [KeyError] of [backtest_jobs[job_id]] on a missing id. *)
Inductive raised : Type :=
| KeyError (key : string)
| Exn (e : exn).

Definition with_status (status : string) (j : job) : job :=
  {| job_request := job_request j; job_status := status;
     created_at := created_at j; results := results j; error := error j |}.

Definition with_results (r : backtest_result) (j : job) : job :=
  {| job_request := job_request j; job_status := job_status j;
     created_at := created_at j; results := Some r; error := error j |}.

Definition with_error (msg : string) (j : job) : job :=
  {| job_request := job_request j; job_status := job_status j;
     created_at := created_at j; results := results j; error := Some msg |}.

Definition with_jobs (jobs : gmap string job) (sv : server) : server :=
  {| db := db sv; backtest_jobs := jobs;
     background_tasks := background_tasks sv |}.

Section RunBacktest.
(** [np.sqrt], the candles [generate_test_ohlcv_data] drew for the request,
    the outcome of the random simulation that serves the other strategies,
    and [str(e)]. *)
Variable sqrt : Q -> Q.
Variable ohlcv_data : DataFrame.
Variable random_simulation : BacktestRequest -> result backtest_result.
Variable str : exn -> string.

(** [simulate_backtest]: the Bollinger strategy is replayed over the
    candles, every other strategy gets the random simulation. *)
Definition simulate_backtest (strategy : strategy_class)
    (request : BacktestRequest) : result backtest_result :=
  if String.eqb (strategy_id request) "bollinger_breakout_v1"
  then run_bollinger_breakout_backtest sqrt ohlcv_data
         (initial_capital request)
  else random_simulation request.

(** The [except Exception as e] handler of [run_backtest]. *)
Definition mark_failed (job_id : string) (e : exn) (sv : server) : server :=
  with_jobs
    (alter (fun j => with_error (str e) (with_status "FAILED" j)) job_id
       (backtest_jobs sv)) sv.

(** [run_backtest(job_id, request)], the background task.  The first
    statement of the [try] block indexes the dict; when the id is missing
    the handler indexes it again, and that second [KeyError] leaves the
    task. *)
Definition run_backtest (job_id : string) (request : BacktestRequest)
    (sv : server) : option raised * server :=
  match backtest_jobs sv !! job_id with
  | None => (Some (KeyError job_id), sv)
  | Some _ =>
      let sv := with_jobs (alter (with_status "RUNNING") job_id
                             (backtest_jobs sv)) sv in
      match get_strategy (strategy_id request) with
      | Raise e => (None, mark_failed job_id e sv)
      | Ok strategy =>
          match simulate_backtest strategy request with
          | Raise e => (None, mark_failed job_id e sv)
          | Ok r =>
              (None,
               with_jobs
                 (alter (fun j => with_results r (with_status "COMPLETED" j))
                    job_id (backtest_jobs sv)) sv)
          end
      end
  end.
End RunBacktest.

(** What [get_backtest_result] answers, by status of the job. *)
Inductive job_view : Type :=
| ViewPending (job_id : string) (created : Z)
| ViewRunning (job_id : string) (created : Z)
| ViewFailed (job_id : string) (err : option string) (created : Z)
| ViewCompleted (job_id : string) (request : BacktestRequest) (created : Z)
    (res : option backtest_result).

Definition get_backtest_result (job_id : string) (sv : server)
  : result job_view :=
  match backtest_jobs sv !! job_id with
  | None => Raise (HTTPException 404)
  | Some j =>
      if String.eqb (job_status j) "PENDING"
      then Ok (ViewPending job_id (created_at j))
      else if String.eqb (job_status j) "RUNNING"
      then Ok (ViewRunning job_id (created_at j))
      else if String.eqb (job_status j) "FAILED"
      then Ok (ViewFailed job_id (error j) (created_at j))
      else Ok (ViewCompleted job_id (job_request j) (created_at j) (results j))
  end.

(** [delete_backtest_job]: removes the job from the dict only. *)
Definition delete_backtest_job (job_id : string) (sv : server)
  : result string * server :=
  match backtest_jobs sv !! job_id with
  | None => (Raise (HTTPException 404), sv)
  | Some _ => (Ok job_id, with_jobs (delete job_id (backtest_jobs sv)) sv)
  end.

(** How [run_backtest] leaves a job it found: the request and the
    creation time are kept, and the job is either COMPLETED with results or
    FAILED with an error text. *)
Definition settled_job (before after : job) : Prop :=
  job_request after = job_request before /\
  created_at after = created_at before /\
  ((job_status after = "COMPLETED"%string /\
    (exists r : backtest_result, results after = Some r) /\
    error after = error before) \/
   (job_status after = "FAILED"%string /\
    (exists msg : string, error after = Some msg) /\
    results after = results before)).

End Jobs.

(** ** core/strategy_base.py: the rest of the strategy classes *)

Module Policy.
Import Strategy.


(** The [leverage_map] dict of each [determine_leverage]. *)
Definition leverage_map (cls : strategy_class) : gmap string Q :=
  match cls with
  | MomentumStrategy =>
      <["UPTREND"%string := 2.0]>
        (<["DOWNTREND"%string := 1.5]> (<["SIDEWAYS"%string := 1.0]> ∅))
  | MeanReversionStrategy =>
      <["UPTREND"%string := 1.5]>
        (<["DOWNTREND"%string := 1.0]> (<["SIDEWAYS"%string := 2.0]> ∅))
  | BollingerBandBreakoutStrategy =>
      <["UPTREND"%string := 1.5]>
        (<["DOWNTREND"%string := 1.0]> (<["SIDEWAYS"%string := 1.2]> ∅))
  end.

(** [determine_leverage]: [leverage_map.get(market_regime, 1.0)]. *)
Definition determine_leverage (cls : strategy_class) (market_regime : string)
  : Q :=
  default 1.0 (leverage_map cls !! market_regime).

(** [set_trailing_stop] of each class.  The momentum and mean-reversion
    dicts have no ['max_profit_target'] key; for the Bollinger class it
    equals ['take_profit']. *)
Definition set_trailing_stop (cls : strategy_class) (entry_price : Q)
  : Q * Q * Q :=
  match cls with
  | MomentumStrategy =>
      (entry_price * 0.95, entry_price * 1.15, entry_price * 0.98)
  | MeanReversionStrategy =>
      (entry_price * 0.97, entry_price * 1.10, entry_price * 0.99)
  | BollingerBandBreakoutStrategy =>
      let stops := Bollinger.set_trailing_stop entry_price in
      (stop_loss stops, take_profit stops, trailing_stop stops)
  end.

(** The [strategy_id] each constructor passes to [BaseStrategy.__init__]. *)
Definition strategy_id_of (cls : strategy_class) : string :=
  match cls with
  | MomentumStrategy => "momentum_v1"
  | MeanReversionStrategy => "mean_reversion_v1"
  | BollingerBandBreakoutStrategy => "bollinger_breakout_v1"
  end.

(** The [name] of each class. *)
Definition name_of (cls : strategy_class) : string :=
  match cls with
  | MomentumStrategy => "모멘텀 전략 v1"
  | MeanReversionStrategy => "평균회귀 전략 v1"
  | BollingerBandBreakoutStrategy => "볼린저 밴드 돌파 매수전략 v1"
  end.

(** [StrategyFactory.get_available_strategies]:
    [{strategy_id: strategy().name for strategy_id, strategy in ...}]. *)
Definition get_available_strategies : gmap string string :=
  name_of <$> _strategies.

(** The minimum number of candles below which each [check_entry_signal]
    answers [False] at once. *)
Definition lookback (cls : strategy_class) : nat :=
  match cls with
  | MomentumStrategy => 50
  | MeanReversionStrategy => 20
  | BollingerBandBreakoutStrategy => 80
  end.

Definition check_entry_signal (sqrt : Q -> Q) (cls : strategy_class)
    (ohlcv_df : DataFrame) : result bool :=
  match cls with
  | MomentumStrategy => Momentum.check_entry_signal ohlcv_df
  | MeanReversionStrategy => MeanReversion.check_entry_signal sqrt ohlcv_df
  | BollingerBandBreakoutStrategy => Bollinger.check_entry_signal sqrt ohlcv_df
  end.

End Policy.

(** ** api/regime.py: the regime endpoints *)

Module RegimeApi.
Import Pandas MarketAnalyzer.

(** [except Exception as e: raise HTTPException(status_code=500, ...)]:
    the handler the endpoints of [regime.py] and [universe.py] wrap their
    whole body in. *)
Definition http_500 {A : Type} (r : result A) : result A :=
  match r with
  | Ok a => Ok a
  | Raise _ => Raise (HTTPException 500)
  end.

(** [s.iloc[i]] for [i >= 0]. *)
Definition iloc {A : Type} (i : nat) (s : list A) : result A :=
  match s !! i with
  | Some x => Ok x
  | None => Raise IndexError
  end.

(** [s.iloc[-n]] for [n >= 1]. *)
Definition iloc_back {A : Type} (n : nat) (s : list A) : result A :=
  if (length s <? n)%nat then Raise IndexError else iloc (length s - n) s.

(** [round(x, ndigits)] on a double: infinities and NaN are returned as
    they are. *)
Definition round_float (x : float64) (ndigits : nat) : float64 :=
  match x with
  | Fin q => Fin (py_round q ndigits)
  | other => other
  end.

(** ["above" if a > b else "below"] *)
Definition above_or_below (a b : float64) : string :=
  if F.gt a b then "above" else "below".

(** The answers of the three endpoints.  Their ["timestamp"] entry, a
    reading of the clock, and the constant ["period"] text of the
    statistics are left out. *)
Record analysis : Type := mkAnalysis {
  current_price_vs_sma20 : string;
  sma20_vs_sma60 : string;
  sma60_vs_sma120 : string
}.

Record regime_response : Type := mkRegimeResponse {
  regime : string;
  btc_price : float64;
  r_sma20 : float64;
  r_sma60 : float64;
  r_sma120 : float64;
  change_24h : float64;
  r_analysis : analysis
}.

Record history_entry : Type := mkHistoryEntry {
  h_timestamp : Z;
  h_regime : string;
  h_price : float64;
  h_sma20 : float64;
  h_sma60 : float64;
  h_sma120 : float64
}.

Record history_summary : Type := mkHistorySummary {
  total_periods : nat;
  uptrend_periods : nat;
  downtrend_periods : nat;
  sideways_periods : nat
}.

Record history_response : Type := mkHistoryResponse {
  history : list history_entry;
  summary : history_summary
}.

Record share : Type := mkShare {
  count : nat;
  percentage : Q
}.

Record statistics : Type := mkStatistics {
  s_total_periods : nat;
  uptrend : share;
  downtrend : share;
  sideways : share;
  current_regime : string
}.

(** [len([r for r in regime_history if r['regime'] == label])] *)
Definition periods (label : string) (regime_history : list history_entry)
  : nat :=
  length (List.filter (fun r => String.eqb (h_regime r) label) regime_history).

(** [regimes.count(label)] *)
Definition list_count (label : string) (regimes : list string) : nat :=
  length (List.filter (fun r => String.eqb r label) regimes).

(** [round((count / total_periods) * 100, 2)] on two ints that passed the
    division. *)
Definition percent (n total : nat) : Q :=
  py_round (inject_Z (Z.of_nat n) / inject_Z (Z.of_nat total) * 100) 2.

Section Endpoints.
(** [market_analyzer.get_btc_ohlcv(timeframe='1h', limit=limit)]: what the
    exchange answers for a limit, a frame or an exception.  The
    ['timestamp'] column of these frames is the field [name] of a row. *)
Variable get_btc_ohlcv : Z -> result DataFrame.

(** [get_market_regime()] *)
Definition get_market_regime : result regime_response :=
  http_500 (
    btc_df ← get_btc_ohlcv 200;
    regime ← analyze_market_regime btc_df;
    current_price ← iloc_last (close_column btc_df);
    sma20 ← iloc_last (rolling 20 mean (close_column btc_df));
    sma60 ← iloc_last (rolling 60 mean (close_column btc_df));
    sma120 ← iloc_last (rolling 120 mean (close_column btc_df));
    price_24h_ago ←
      (if (24 <=? length btc_df)%nat
       then iloc_back 24 (close_column btc_df)
       else iloc 0 (close_column btc_df));
    let change :=
      F.mul (F.div (F.sub current_price price_24h_ago) price_24h_ago)
            (Fin 100) in
    Ok {| regime := regime;
          btc_price := current_price;
          r_sma20 := sma20; r_sma60 := sma60; r_sma120 := sma120;
          change_24h := round_float change 2;
          r_analysis :=
            {| current_price_vs_sma20 := above_or_below current_price sma20;
               sma20_vs_sma60 := above_or_below sma20 sma60;
               sma60_vs_sma120 := above_or_below sma60 sma120 |} |}).

(** The body of the loop of [get_regime_history]. *)
Definition history_step (btc_df : DataFrame) (SMA20 SMA60 SMA120 : Series)
    (i : nat) (regime_history : list history_entry)
  : result (list history_entry) :=
  current_price ← iloc i (close_column btc_df);
  sma20 ← iloc i SMA20;
  sma60 ← iloc i SMA60;
  sma120 ← iloc i SMA120;
  let regime :=
    if F.gt current_price sma20 && F.gt sma20 sma60 && F.gt sma60 sma120
    then "UPTREND"%string
    else if F.lt current_price sma20 && F.lt sma20 sma60 && F.lt sma60 sma120
    then "DOWNTREND"%string
    else "SIDEWAYS"%string in
  timestamp ← iloc i (map name btc_df);
  Ok (regime_history
        ++ [mkHistoryEntry timestamp regime current_price sma20 sma60 sma120]).

(** [get_regime_history(days)] *)
Definition get_regime_history (days : Z) : result history_response :=
  http_500 (
    let limit := (days * 24)%Z in
    btc_df ← get_btc_ohlcv limit;
    let SMA20 := rolling 20 mean (close_column btc_df) in
    let SMA60 := rolling 60 mean (close_column btc_df) in
    let SMA120 := rolling 120 mean (close_column btc_df) in
    regime_history ←
      for_each (history_step btc_df SMA20 SMA60 SMA120)
               (seq 120 (length btc_df - 120)) [];
    Ok {| history := regime_history;
          summary :=
            {| total_periods := length regime_history;
               uptrend_periods := periods "UPTREND" regime_history;
               downtrend_periods := periods "DOWNTREND" regime_history;
               sideways_periods := periods "SIDEWAYS" regime_history |} |}).

(** The body of the loop of [get_regime_statistics]. *)
Definition statistics_step (btc_df : DataFrame) (SMA20 SMA60 SMA120 : Series)
    (i : nat) (regimes : list string) : result (list string) :=
  current_price ← iloc i (close_column btc_df);
  sma20 ← iloc i SMA20;
  sma60 ← iloc i SMA60;
  sma120 ← iloc i SMA120;
  if F.gt current_price sma20 && F.gt sma20 sma60 && F.gt sma60 sma120
  then Ok (regimes ++ ["UPTREND"%string])
  else if F.lt current_price sma20 && F.lt sma20 sma60 && F.lt sma60 sma120
  then Ok (regimes ++ ["DOWNTREND"%string])
  else Ok (regimes ++ ["SIDEWAYS"%string]).

(** [get_regime_statistics()].  The three percentages divide two ints:
    with no period the first of them raises [ZeroDivisionError], which the
    handler turns into the 500 like any other exception; the dict entry
    ["current_regime"] comes after them. *)
Definition get_regime_statistics : result statistics :=
  http_500 (
    btc_df ← get_btc_ohlcv 720;
    let SMA20 := rolling 20 mean (close_column btc_df) in
    let SMA60 := rolling 60 mean (close_column btc_df) in
    let SMA120 := rolling 120 mean (close_column btc_df) in
    regimes ←
      for_each (statistics_step btc_df SMA20 SMA60 SMA120)
               (seq 120 (length btc_df - 120)) [];
    let total_periods := length regimes in
    let uptrend_count := list_count "UPTREND" regimes in
    let downtrend_count := list_count "DOWNTREND" regimes in
    let sideways_count := list_count "SIDEWAYS" regimes in
    if (total_periods =? 0)%nat
    then Raise (HTTPException 500)
    else
      Ok {| s_total_periods := total_periods;
            uptrend := mkShare uptrend_count
                         (percent uptrend_count total_periods);
            downtrend := mkShare downtrend_count
                           (percent downtrend_count total_periods);
            sideways := mkShare sideways_count
                          (percent sideways_count total_periods);
            current_regime := default "UNKNOWN"%string (last regimes) |}).

End Endpoints.

End RegimeApi.

(** ** The [scores] dict of the universe ranker *)

Module Ranking.
Import MarketAnalyzer.

(** The dict is keyed by the symbol of the ticker it stores under
    ['data'], holds each key once, and stores tickers of a given pool
    only. *)
Definition keyed (pool : ticker -> Prop) (scores : list score_item) : Prop :=
  NoDup (map s_symbol scores) /\
  Forall (fun e => symbol (s_data e) = s_symbol e /\ pool (s_data e)) scores.

(** The tickers [scan_universe] ranks: the USDT pairs of the snapshot. *)
Definition usdt_pair (all_tickers_data : list ticker) (t : ticker) : Prop :=
  In t all_tickers_data /\ endswith (symbol t) "/USDT" = true.

End Ranking.

(** ** api/live.py: live trading *)

Module Live.
Import Strategy.

(** A row of the [live_trading_status] table. *)
Record LiveTradingStatus : Type := mkStatus {
  is_active : bool;
  strategy_id : option string;
  risk_per_trade : Q;
  total_pnl : Q;
  daily_pnl : Q;
  last_updated : Z
}.

(** The request body of [/start]. *)
Record LiveTradingRequest : Type := mkLiveRequest {
  req_strategy_id : string;
  req_risk_per_trade : Q
}.

(** The module-level dict [live_trading_state].  Its ['current_positions']
    entry is never written by the module. *)
Record trading_state : Type := mkState {
  st_is_active : bool;
  st_strategy_id : option string;
  st_risk_per_trade : Q;
  st_total_pnl : Q;
  st_daily_pnl : Q;
  st_last_updated : Z;
  st_current_positions : list string;
  st_start_time : option Z
}.

(** What the endpoints read and write: the rows of the status table, of
    which [db.query(LiveTradingStatus).first()] is the head, and the dict.
    The database session itself is taken to work: a failing query or
    commit is not modelled. *)
Record backend : Type := mkBackend {
  status_rows : list LiveTradingStatus;
  live_trading_state : trading_state
}.

Record status_response : Type := mkStatusResponse {
  sr_is_active : bool;
  sr_strategy_id : option string;
  sr_risk_per_trade : Q;
  sr_total_pnl : Q;
  sr_daily_pnl : Q;
  sr_last_updated : Z
}.

Record start_reply : Type := mkStartReply {
  started_message : string;
  started_strategy_id : string;
  started_strategy_name : string;
  started_risk_per_trade : Q;
  start_time : Z
}.

Record stop_reply : Type := mkStopReply {
  stopped_message : string;
  stop_time : Z;
  stopped_total_pnl : Q;
  stopped_daily_pnl : Q
}.

(** [strategy.name] *)
Definition strategy_name (cls : strategy_class) : string :=
  match cls with
  | MomentumStrategy => "모멘텀 전략 v1"
  | MeanReversionStrategy => "평균회귀 전략 v1"
  | BollingerBandBreakoutStrategy => "볼린저 밴드 돌파 매수전략 v1"
  end.

(** [get_live_status]: the first row, or the defaults when the table is
    empty.  [now] stands for [datetime.now()]. *)
Definition get_live_status (now : Z) (w : backend) : status_response :=
  match status_rows w with
  | db_status :: _ =>
      mkStatusResponse (is_active db_status) (strategy_id db_status)
        (risk_per_trade db_status) (total_pnl db_status)
        (daily_pnl db_status) (last_updated db_status)
  | [] => mkStatusResponse false None 0.05 0.0 0.0 now
  end.

(** [live_trading_state.update({...})] of [/start]. *)
Definition state_started (request : LiveTradingRequest) (now : Z)
    (s : trading_state) : trading_state :=
  {| st_is_active := true;
     st_strategy_id := Some (req_strategy_id request);
     st_risk_per_trade := req_risk_per_trade request;
     st_total_pnl := st_total_pnl s;
     st_daily_pnl := st_daily_pnl s;
     st_last_updated := st_last_updated s;
     st_current_positions := st_current_positions s;
     st_start_time := Some now |}.

(** [live_trading_state.update({...})] of [/stop]. *)
Definition state_stopped (s : trading_state) : trading_state :=
  {| st_is_active := false;
     st_strategy_id := None;
     st_risk_per_trade := st_risk_per_trade s;
     st_total_pnl := st_total_pnl s;
     st_daily_pnl := st_daily_pnl s;
     st_last_updated := st_last_updated s;
     st_current_positions := st_current_positions s;
     st_start_time := None |}.

(** [start_live_trading(request)]: 400 for an unknown strategy, 400 when
    the first row is active; otherwise the first row is switched on (or a
    first row is inserted) and the dict is updated. *)
Definition start_live_trading (request : LiveTradingRequest) (now : Z)
    (w : backend) : result start_reply * backend :=
  match get_strategy (req_strategy_id request) with
  | Raise _ => (Raise (HTTPException 400), w)
  | Ok strategy =>
      let reply :=
        mkStartReply "실시간 매매가 시작되었습니다."
          (req_strategy_id request) (strategy_name strategy)
          (req_risk_per_trade request) now in
      match status_rows w with
      | current_status :: rest =>
          if is_active current_status
          then (Raise (HTTPException 400), w)
          else
            (Ok reply,
             {| status_rows :=
                  {| is_active := true;
                     strategy_id := Some (req_strategy_id request);
                     risk_per_trade := req_risk_per_trade request;
                     total_pnl := total_pnl current_status;
                     daily_pnl := daily_pnl current_status;
                     last_updated := now |} :: rest;
                live_trading_state :=
                  state_started request now (live_trading_state w) |})
      | [] =>
          (Ok reply,
           {| status_rows :=
                [ {| is_active := true;
                     strategy_id := Some (req_strategy_id request);
                     risk_per_trade := req_risk_per_trade request;
                     total_pnl := 0.0;
                     daily_pnl := 0.0;
                     last_updated := now |} ];
              live_trading_state :=
                state_started request now (live_trading_state w) |})
      end
  end.

(** [stop_live_trading()]: 400 when there is no row or the first row is
    not active; otherwise the row is switched off (it keeps its
    [strategy_id]) and the dict forgets the strategy. *)
Definition stop_live_trading (now : Z) (w : backend)
  : result stop_reply * backend :=
  match status_rows w with
  | [] => (Raise (HTTPException 400), w)
  | current_status :: rest =>
      if negb (is_active current_status)
      then (Raise (HTTPException 400), w)
      else
        (Ok (mkStopReply "실시간 매매가 중단되었습니다." now
               (total_pnl current_status) (daily_pnl current_status)),
         {| status_rows :=
              {| is_active := false;
                 strategy_id := strategy_id current_status;
                 risk_per_trade := risk_per_trade current_status;
                 total_pnl := total_pnl current_status;
                 daily_pnl := daily_pnl current_status;
                 last_updated := now |} :: rest;
            live_trading_state := state_stopped (live_trading_state w) |})
  end.

(** A row of the [trade_logs] table, as far as the endpoints read it. *)
Record TradeLog : Type := mkTradeLog {
  log_timestamp : Z;
  log_symbol : string;
  log_action : string;
  log_direction : string;
  log_price : Q;
  log_size : Q;
  log_pnl : Q
}.

(** A value of the [position_map] dict of [get_current_positions]. *)
Record position : Type := mkLivePosition {
  pos_symbol : string;
  pos_direction : string;
  pos_entry_price : Q;
  pos_size : Q;
  pos_pnl : Q;
  last_trade : Z
}.

(** One iteration of [for trade in recent_trades].  The dict keeps
    insertion order, which the answer exposes, so it is an association
    list. *)
Fixpoint record_trade (trade : TradeLog) (position_map : list position)
  : list position :=
  match position_map with
  | [] =>
      [ {| pos_symbol := log_symbol trade;
           pos_direction := log_direction trade;
           pos_entry_price := log_price trade;
           pos_size := log_size trade;
           pos_pnl := 0.0;
           last_trade := log_timestamp trade |} ]
  | pos :: rest =>
      if String.eqb (pos_symbol pos) (log_symbol trade)
      then
        (if String.eqb (log_action trade) "CLOSE"
         then {| pos_symbol := pos_symbol pos;
                 pos_direction := pos_direction pos;
                 pos_entry_price := pos_entry_price pos;
                 pos_size := pos_size pos;
                 pos_pnl := log_pnl trade;
                 last_trade := last_trade pos |}
         else {| pos_symbol := pos_symbol pos;
                 pos_direction := pos_direction pos;
                 pos_entry_price := pos_entry_price pos;
                 pos_size := pos_size pos + log_size trade;
                 pos_pnl := pos_pnl pos;
                 last_trade := log_timestamp trade |}) :: rest
      else pos :: record_trade trade rest
  end.

(** The answer of [get_current_positions], without its ["timestamp"]
    entry (a reading of the clock). *)
Record positions_reply : Type := mkPositionsReply {
  total_positions : nat;
  positions : list position;
  positions_total_pnl : Q
}.

(** [get_current_positions()], as a function of the rows its query
    returned: the live trades, most recent first, at most 50. *)
Definition get_current_positions (recent_trades : list TradeLog)
  : positions_reply :=
  let position_map :=
    fold_left (fun m trade => record_trade trade m) recent_trades [] in
  let positions := List.filter (fun pos => Qltb 0 (pos_size pos)) position_map in
  {| total_positions := length positions;
     positions := positions;
     positions_total_pnl := py_sum (map pos_pnl positions) |}.

(** Python's [min(a, b)] on two numbers: [b] only when [b < a]. *)
Definition py_min (a b : Q) : Q := if Qltb b a then b else a.

(** [max(xs, default=0)] and [min(xs, default=0)] *)
Definition max_default (xs : list Q) : Q :=
  match xs with
  | [] => 0
  | x :: rest => fold_left py_max rest x
  end.

Definition min_default (xs : list Q) : Q :=
  match xs with
  | [] => 0
  | x :: rest => fold_left py_min rest x
  end.

(** The ["summary"] and ["statistics"] of [get_trading_performance]; the
    ["period"] text, which repeats the argument, is left out. *)
Record performance : Type := mkPerformance {
  total_trades : nat;
  winning_trades : nat;
  losing_trades : nat;
  win_rate : Q;
  perf_total_pnl : Q;
  winning_pnl : Q;
  losing_pnl : Q;
  average_win : Q;
  average_loss : Q;
  profit_factor : float64;
  max_win : Q;
  max_loss : Q
}.

(** [get_trading_performance(days)], as a function of the rows its query
    returned. *)
Definition get_trading_performance (trades : list TradeLog) : performance :=
  let total_trades := length trades in
  let wins := List.filter (fun t => Qltb 0 (log_pnl t)) trades in
  let losses := List.filter (fun t => Qltb (log_pnl t) 0) trades in
  let winning_trades := length wins in
  let losing_trades := length losses in
  let total_pnl := py_sum (map log_pnl trades) in
  let winning_pnl := py_sum (map log_pnl wins) in
  let losing_pnl := py_sum (map log_pnl losses) in
  let win_rate :=
    if (0 <? total_trades)%nat
    then inject_Z (Z.of_nat winning_trades) / inject_Z (Z.of_nat total_trades)
         * 100
    else 0 in
  let avg_win :=
    if (0 <? winning_trades)%nat
    then winning_pnl / inject_Z (Z.of_nat winning_trades) else 0 in
  let avg_loss :=
    if (0 <? losing_trades)%nat
    then losing_pnl / inject_Z (Z.of_nat losing_trades) else 0 in
  {| total_trades := total_trades;
     winning_trades := winning_trades;
     losing_trades := losing_trades;
     win_rate := py_round win_rate 2;
     perf_total_pnl := py_round total_pnl 2;
     winning_pnl := py_round winning_pnl 2;
     losing_pnl := py_round losing_pnl 2;
     average_win := py_round avg_win 2;
     average_loss := py_round avg_loss 2;
     profit_factor :=
       if Qneqb losing_pnl 0
       then Fin (py_round (Qabs (winning_pnl / losing_pnl)) 2)
       else PInf;
     max_win := max_default (map log_pnl trades);
     max_loss := min_default (map log_pnl trades) |}.

End Live.

(** ** Live trading: the state the endpoints keep *)

Module LiveSpec.
Import Live.

(** Whether trading is on according to the database: the flag of the
    first row, off when there is no row. *)
Definition active (w : backend) : bool :=
  match status_rows w with
  | current_status :: _ => is_active current_status
  | [] => false
  end.

(** The dict agrees with the database on whether trading is on. *)
Definition mirrored (w : backend) : Prop :=
  st_is_active (live_trading_state w) = active w.

(** The backend of a freshly started process on an empty table: the
    literal the module binds to [live_trading_state]. *)
Definition fresh_backend (boot : Z) : backend :=
  {| status_rows := [];
     live_trading_state :=
       {| st_is_active := false;
          st_strategy_id := None;
          st_risk_per_trade := 0.05;
          st_total_pnl := 0.0;
          st_daily_pnl := 0.0;
          st_last_updated := boot;
          st_current_positions := [];
          st_start_time := None |} |}.

(** The most recent trade on a symbol among the rows of the query, which
    come most recent first. *)
Definition most_recent (sym : string) (recent_trades : list TradeLog)
  : option TradeLog :=
  List.find (fun t => String.eqb (log_symbol t) sym) recent_trades.

End LiveSpec.

(** ** api/websocket.py: ConnectionManager *)

Module WebSocketApi.

(** A [WebSocket] object, by identity. *)
Definition WebSocket := nat.

(** A value of the [connection_data] dict. *)
Record client : Type := mkClient {
  client_id : string;
  connected_at : Z;
  subscriptions : list string
}.

(** The manager.  [connection_data] is a dict whose [values()] the status
    endpoint lists in insertion order, so it is an association list. *)
Record ConnectionManager : Type := mkManager {
  active_connections : list WebSocket;
  connection_data : list (WebSocket * client)
}.

(** [ConnectionManager()] *)
Definition new_manager : ConnectionManager := mkManager [] [].

(** [d[k] = v]: an existing key keeps its place. *)
Fixpoint dict_set (k : WebSocket) (v : client) (d : list (WebSocket * client))
  : list (WebSocket * client) :=
  match d with
  | [] => [(k, v)]
  | (k', v') :: rest =>
      if Nat.eqb k' k then (k', v) :: rest else (k', v') :: dict_set k v rest
  end.

(** [del d[k]]: [None] is the [KeyError] of a missing key. *)
Fixpoint dict_del (k : WebSocket) (d : list (WebSocket * client))
  : option (list (WebSocket * client)) :=
  match d with
  | [] => None
  | (k', v') :: rest =>
      if Nat.eqb k' k then Some rest
      else option_map (cons (k', v')) (dict_del k rest)
  end.

(** [xs.remove(x)] on a list that holds [x]: the first occurrence goes. *)
Fixpoint list_remove (x : WebSocket) (xs : list WebSocket) : list WebSocket :=
  match xs with
  | [] => []
  | y :: rest => if Nat.eqb y x then rest else y :: list_remove x rest
  end.

(** [x in xs] *)
Definition list_in (x : WebSocket) (xs : list WebSocket) : bool :=
  existsb (Nat.eqb x) xs.

(** [client_id or f"client_{n}"]: [None] and the empty string are both
    falsy. *)
Definition client_name (client_id : option string) (n : nat) : string :=
  let fallback := ("client_" ++ NilZero.string_of_uint (Nat.to_uint n))%string in
  match client_id with
  | Some s => if String.eqb s "" then fallback else s
  | None => fallback
  end.

(** [connect(websocket, client_id)], once [websocket.accept()] has
    returned; [now] stands for [datetime.now()]. *)
Definition connect (websocket : WebSocket) (client_id : option string)
    (now : Z) (m : ConnectionManager) : ConnectionManager :=
  let active := active_connections m ++ [websocket] in
  {| active_connections := active;
     connection_data :=
       dict_set websocket
         (mkClient (client_name client_id (length active)) now [])
         (connection_data m) |}.

(** How a method leaves: normally, or with the [KeyError] of
    [del self.connection_data[websocket]]. *)
Inductive outcome : Type :=
| Returned
| KeyErrorRaised.

(** [disconnect(websocket)] *)
Definition disconnect (websocket : WebSocket) (m : ConnectionManager)
  : outcome * ConnectionManager :=
  if list_in websocket (active_connections m)
  then
    let active := list_remove websocket (active_connections m) in
    match dict_del websocket (connection_data m) with
    | Some data => (Returned, mkManager active data)
    | None => (KeyErrorRaised, mkManager active (connection_data m))
    end
  else (Returned, m).

(** [for connection in disconnected: self.disconnect(connection)] *)
Fixpoint disconnect_each (disconnected : list WebSocket)
    (m : ConnectionManager) : outcome * ConnectionManager :=
  match disconnected with
  | [] => (Returned, m)
  | connection :: rest =>
      match disconnect connection m with
      | (Returned, m') => disconnect_each rest m'
      | (KeyErrorRaised, m') => (KeyErrorRaised, m')
      end
  end.

Section Sending.
(** Whether [send_text] raises on a connection. *)
Variable send_fails : WebSocket -> bool.

(** [send_personal_message(message, websocket)] *)
Definition send_personal_message (websocket : WebSocket)
    (m : ConnectionManager) : outcome * ConnectionManager :=
  if send_fails websocket then disconnect websocket m else (Returned, m).

(** [broadcast(message)]: the connections whose send raised are collected
    first and disconnected afterwards. *)
Definition broadcast (m : ConnectionManager) : outcome * ConnectionManager :=
  let disconnected := List.filter send_fails (active_connections m) in
  disconnect_each disconnected m.
End Sending.

Record connection_info : Type := mkConnectionInfo {
  info_active_connections : nat;
  clients : list client
}.

(** [get_connection_info()] *)
Definition get_connection_info (m : ConnectionManager) : connection_info :=
  {| info_active_connections := length (active_connections m);
     clients := map snd (connection_data m) |}.

(** The manager's books agree: no connection is listed twice, and the
    dict holds exactly the listed connections, in the same order. *)
Definition consistent (m : ConnectionManager) : Prop :=
  NoDup (active_connections m) /\
  map fst (connection_data m) = active_connections m.

(** The manager with the connections that satisfy [keep] only. *)
Definition restrict (keep : WebSocket -> bool) (m : ConnectionManager)
  : ConnectionManager :=
  {| active_connections := List.filter keep (active_connections m);
     connection_data :=
       List.filter (fun entry => keep (fst entry)) (connection_data m) |}.

End WebSocketApi.

(** ** More sample data *)

Module MoreSamples.

(** Fifty candles rising by 10 each, then fourteen candles falling by 1
    each: the short average is still above the long one while the last
    fourteen moves are all losses. *)
Definition dip_series : DataFrame :=
  Samples.ramp 50 100 10 ++
  map (fun i =>
         let v := 590 - inject_Z (Z.of_nat (S i)) in
         mkCandle (Z.of_nat (50 + i)) v v v v 1)
      (seq 0 14).

End MoreSamples.

(* ===================================================================== *)
(** * Part II. Properties                                                 *)
(* ===================================================================== *)

(** ** Comparisons *)

Lemma Qltb_lt (a b : Q) : Qltb a b = true <-> a < b.
Proof. unfold Qltb. rewrite Qlt_alt. destruct (a ?= b); intuition congruence. Qed.

Lemma Qltb_ge (a b : Q) : Qltb a b = false <-> b <= a.
Proof.
  rewrite <- not_true_iff_false, Qltb_lt. split.
  - apply Qnot_lt_le.
  - apply Qle_not_lt.
Qed.

Lemma Qleb_le (a b : Q) : Qleb a b = true <-> a <= b.
Proof. unfold Qleb. rewrite Qle_alt. destruct (a ?= b); intuition congruence. Qed.

Lemma Qleb_gt (a b : Q) : Qleb a b = false <-> b < a.
Proof.
  rewrite <- not_true_iff_false, Qleb_le. split.
  - apply Qnot_le_lt.
  - apply Qlt_not_le.
Qed.

Lemma F_lt_fin (a b : Q) : F.lt (Fin a) (Fin b) = Qltb a b.
Proof. reflexivity. Qed.

Lemma F_gt_fin (a b : Q) : F.gt (Fin a) (Fin b) = Qltb b a.
Proof. reflexivity. Qed.

(** ** Rolling windows *)

Section RollingFacts.
Import Pandas.

Lemma finite_values_fin (qs : list Q) : finite_values (map Fin qs) = Some qs.
Proof.
  induction qs as [|q qs IH]; simpl; [reflexivity|].
  rewrite IH. reflexivity.
Qed.

Lemma window_map {A B : Type} (f : A -> B) (w i : nat) (s : list A) :
  window w i (map f s) = map f (window w i s).
Proof. unfold window. rewrite skipn_map, firstn_map. reflexivity. Qed.

Lemma mean_fin (qs : list Q) : mean (map Fin qs) = Fin (Qmean qs).
Proof. unfold mean. rewrite finite_values_fin. reflexivity. Qed.

(** The last entry of a rolling aggregate over a series that fills the
    window is the aggregate of the last [w] entries. *)
Lemma rolling_last (w : nat) (agg : list float64 -> float64) (s : Series) :
  (0 < length s)%nat -> (w <= length s)%nat ->
  iloc_last (rolling w agg s) = Ok (agg (window w (length s - 1) s)).
Proof.
  intros Hpos Hw. unfold iloc_last, last_item, rolling.
  destruct (length s) as [|n] eqn:Hn; [lia|].
  rewrite seq_S, map_app. simpl. rewrite last_snoc.
  replace (n - 0)%nat with n by lia.
  destruct (Nat.ltb_spec (S n) w); [lia|reflexivity].
Qed.

Lemma last_map {A B : Type} (f : A -> B) (s : list A) :
  last (map f s) = option_map f (last s).
Proof.
  induction s as [|x [|y s] IH]; try reflexivity.
  exact IH.
Qed.

Lemma iloc_last_map {A B : Type} (f : A -> B) (s : list A) (x : A) :
  last s = Some x -> iloc_last (map f s) = Ok (f x).
Proof.
  intros H. unfold iloc_last, last_item.
  rewrite last_map, H. reflexivity.
Qed.

Lemma last_is_Some {A : Type} (s : list A) :
  (0 < length s)%nat -> exists x, last s = Some x.
Proof.
  intros H. destruct (last s) eqn:E; [eauto|].
  apply last_None in E. subst. simpl in H. lia.
Qed.
End RollingFacts.

(** ** The regime classifier *)

Section Regime.
Import Pandas MarketAnalyzer Spec.

Lemma last_sma (w : nat) (df : DataFrame) :
  (0 < w)%nat -> (w <= length df)%nat ->
  iloc_last (rolling w mean (close_column df)) = Ok (Fin (sma w df)).
Proof.
  intros Hw Hlen. unfold close_column.
  rewrite rolling_last by (rewrite length_map; lia).
  rewrite length_map.
  replace (map (fun c => Fin (close c)) df) with (map Fin (map close df))
    by (rewrite map_map; reflexivity).
  rewrite window_map, mean_fin. reflexivity.
Qed.

Lemma last_close_column (df : DataFrame) :
  (0 < length df)%nat ->
  iloc_last (close_column df) = Ok (Fin (last_close df)).
Proof.
  intros H. unfold close_column, last_close.
  destruct (last_is_Some df H) as [c Hc].
  rewrite (iloc_last_map _ _ _ Hc).
  rewrite last_map, Hc. reflexivity.
Qed.

(** What [analyze_market_regime] computes once the guard is passed. *)
Lemma analyze_market_regime_unfold (df : DataFrame) :
  (120 <= length df)%nat ->
  analyze_market_regime df =
    Ok (if Qltb (sma 20 df) (last_close df) && Qltb (sma 60 df) (sma 20 df)
           && Qltb (sma 120 df) (sma 60 df)
        then "UPTREND"%string
        else if Qltb (last_close df) (sma 20 df) && Qltb (sma 20 df) (sma 60 df)
                && Qltb (sma 60 df) (sma 120 df)
        then "DOWNTREND"%string
        else "SIDEWAYS"%string).
Proof.
  intros H. unfold analyze_market_regime.
  destruct (Nat.ltb_spec (length df) 120); [lia|].
  rewrite last_close_column by lia.
  rewrite !last_sma by lia.
  cbn [mbind result_bind].
  rewrite !F_gt_fin, !F_lt_fin.
  repeat match goal with |- context [if ?b then _ else _] => destruct b end;
    reflexivity.
Qed.
End Regime.

Section RegimeClaims.
Import Pandas MarketAnalyzer Spec Samples.

Lemma F_eq_not_lt (x y : float64) :
  F.eq x y = true -> F.lt x y = false /\ F.lt y x = false.
Proof.
  destruct x as [p| | |], y as [q| | |]; cbn [F.eq F.lt];
    try discriminate; try (split; reflexivity).
  intros H. apply Qeq_bool_iff in H.
  change (Qltb p q = false /\ Qltb q p = false).
  split; apply Qltb_ge; lra.
Qed.

Lemma F_lt_trans (x y z : float64) :
  F.lt x y = true -> F.lt y z = true -> F.lt x z = true.
Proof.
  destruct x as [p| | |], y as [q| | |], z as [r| | |]; cbn [F.lt];
    try discriminate; try reflexivity.
  change (Qltb p q = true -> Qltb q r = true -> Qltb p r = true).
  rewrite !Qltb_lt. lra.
Qed.

Lemma F_lt_asym (x y : float64) : F.lt x y = true -> F.lt y x = false.
Proof.
  destruct x as [p| | |], y as [q| | |]; cbn [F.lt];
    try discriminate; try reflexivity.
  change (Qltb p q = true -> Qltb q p = false).
  rewrite Qltb_lt. intros H. apply Qltb_ge. lra.
Qed.

(** What follows from the comparisons at hand: [<] is asymmetric and
    transitive, and equal values are not ordered. *)
Ltac order_facts :=
  repeat match goal with
         | H : F.lt ?x ?y = true |- _ =>
             lazymatch goal with
             | _ : F.lt y x = false |- _ => fail
             | _ => pose proof (F_lt_asym _ _ H)
             end
         | H1 : F.lt ?x ?y = true, H2 : F.lt ?y ?z = true |- _ =>
             lazymatch goal with
             | _ : F.lt x z = true |- _ => fail
             | _ => pose proof (F_lt_trans _ _ _ H1 H2)
             end
         end.

Ltac settle_order :=
  intros; repeat split; repeat intro;
  repeat match goal with
         | H : _ /\ _ |- _ => destruct H
         | H : _ \/ _ |- _ => destruct H
         | H : F.eq _ _ = true |- _ => apply F_eq_not_lt in H
         end;
  try discriminate; try reflexivity; try congruence.

Lemma iloc_last_defined {A : Type} (s : list A) :
  (0 < length s)%nat -> exists x : A, iloc_last s = Ok x.
Proof.
  intros H. destruct (last_is_Some s H) as [x Hx].
  exists x. unfold iloc_last, last_item. rewrite Hx. reflexivity.
Qed.

(** The classifier with the exact mean is an instance of the classifier
    with the rolling mean left open. *)
Lemma analyze_market_regime_instance (df : DataFrame) :
  analyze_market_regime df
    = analyze_market_regime_with (fun w => rolling w mean) df.
Proof. reflexivity. Qed.

(** C3.  For every series of at least 120 candles the regime classifier
    returns a label, and the label is decided by the four values it holds,
    the last close and the last SMA20, SMA60 and SMA120 as they were
    computed: UPTREND exactly when [lastClose > SMA20 > SMA60 > SMA120]
    holds strictly, DOWNTREND exactly when
    [lastClose < SMA20 < SMA60 < SMA120] holds strictly, and SIDEWAYS in
    every other case, in particular whenever two of the four values are
    equal; the label is always one of the three.  This holds for every
    rolling mean that returns a column as long as its series, so for the
    float64 running mean of pandas as for the exact mean: nothing is
    asserted about averages that would be equal in exact arithmetic. *)
Theorem regime_strict_chains
    (rolling_mean : nat -> Series -> Series) (df : DataFrame) :
  (forall (w : nat) (s : Series), length (rolling_mean w s) = length s) ->
  (120 <= length df)%nat ->
  exists (r : string) (c a b d : float64),
    analyze_market_regime_with rolling_mean df = Ok r /\
    iloc_last (close_column df) = Ok c /\
    iloc_last (rolling_mean 20%nat (close_column df)) = Ok a /\
    iloc_last (rolling_mean 60%nat (close_column df)) = Ok b /\
    iloc_last (rolling_mean 120%nat (close_column df)) = Ok d /\
    (r = "UPTREND"%string <-> uptrend_chain c a b d) /\
    (r = "DOWNTREND"%string <-> downtrend_chain c a b d) /\
    (r = "SIDEWAYS"%string <->
       ~ uptrend_chain c a b d /\ ~ downtrend_chain c a b d) /\
    (some_tie c a b d -> r = "SIDEWAYS"%string) /\
    (r = "UPTREND"%string \/ r = "DOWNTREND"%string \/ r = "SIDEWAYS"%string).
Proof.
  intros Hroll Hlen. unfold analyze_market_regime_with.
  destruct (Nat.ltb_spec (length df) 120); [lia|].
  assert (Hcol : length (close_column df) = length df)
    by (unfold close_column; apply length_map).
  destruct (iloc_last_defined (close_column df)) as [c Hc]; [lia|].
  destruct (iloc_last_defined (rolling_mean 20%nat (close_column df)))
    as [a Ha]; [rewrite Hroll; lia|].
  destruct (iloc_last_defined (rolling_mean 60%nat (close_column df)))
    as [b Hb]; [rewrite Hroll; lia|].
  destruct (iloc_last_defined (rolling_mean 120%nat (close_column df)))
    as [d Hd]; [rewrite Hroll; lia|].
  rewrite Hc, Ha, Hb, Hd. cbn [mbind result_bind].
  unfold uptrend_chain, downtrend_chain, some_tie, F.gt.
  destruct (F.lt a c) eqn:E1, (F.lt b a) eqn:E2, (F.lt d b) eqn:E3,
           (F.lt c a) eqn:E4, (F.lt a b) eqn:E5, (F.lt b d) eqn:E6;
    cbn [andb]; order_facts; try congruence;
    eexists _, c, a, b, d; (split; [reflexivity|]);
    do 4 (split; [reflexivity|]);
    repeat split; try (left; reflexivity); try (right; left; reflexivity);
    try (right; right; reflexivity); settle_order; try tauto.
Qed.

Lemma regime_strict_chains_witness :
  analyze_market_regime rising_series = Ok "UPTREND"%string /\
  exists c a b d : float64,
    iloc_last (close_column rising_series) = Ok c /\
    iloc_last (rolling 20 mean (close_column rising_series)) = Ok a /\
    iloc_last (rolling 60 mean (close_column rising_series)) = Ok b /\
    iloc_last (rolling 120 mean (close_column rising_series)) = Ok d /\
    uptrend_chain c a b d /\ ~ downtrend_chain c a b d /\
    ~ some_tie c a b d.
Proof.
  destruct (regime_strict_chains (fun w => rolling w mean) rising_series)
    as (r & c & a & b & d & Hr & Hc & Ha & Hb & Hd & Hup & Hdown & _ & Htie
        & _).
  - intros w s. unfold rolling. rewrite length_map, length_seq. reflexivity.
  - vm_compute. lia.
  - assert (Hlabel : r = "UPTREND"%string).
    { rewrite <- analyze_market_regime_instance in Hr.
      vm_compute in Hr. injection Hr as <-. reflexivity. }
    split; [rewrite analyze_market_regime_instance, Hr, Hlabel; reflexivity|].
    exists c, a, b, d. do 4 (split; [assumption|]).
    split; [apply Hup; exact Hlabel|]. split.
    + intros H. apply Hdown in H. rewrite Hlabel in H. discriminate H.
    + intros H. apply Htie in H. rewrite Hlabel in H. discriminate H.
Defined.

End RegimeClaims.

Section RegimeExamples.
Import MarketAnalyzer Samples.

(** The rising series of 200 candles is an uptrend; a series that never
    moves is sideways: all four values are equal. *)
Example rising_series_uptrend :
  analyze_market_regime rising_series = Ok "UPTREND"%string.
Proof. vm_compute. reflexivity. Qed.

Example flat_series_sideways :
  analyze_market_regime (flat_series 150) = Ok "SIDEWAYS"%string.
Proof. vm_compute. reflexivity. Qed.

End RegimeExamples.

(** ** Series below the minimum lookback *)

Section ShortSeries.
Import Pandas MarketAnalyzer Strategy Samples.

(** C4, as the code has it.  Below 120 candles the regime classifier raises
    [ValueError] and returns nothing.  Below 80 candles the Bollinger
    breakout entry signal does not fail: it answers [False] (no entry),
    whatever the candles are. *)
Theorem short_series_regime_raises_bollinger_declines
    (sqrt : Q -> Q) (df : DataFrame) :
  ((length df < 120)%nat -> analyze_market_regime df = Raise ValueError) /\
  ((length df < 80)%nat -> Bollinger.check_entry_signal sqrt df = Ok false).
Proof.
  split; intros H.
  - unfold analyze_market_regime.
    destruct (Nat.ltb_spec (length df) 120); [reflexivity|lia].
  - unfold Bollinger.check_entry_signal.
    destruct (Nat.ltb_spec (length df) 80); [reflexivity|lia].
Qed.

Lemma short_series_witness :
  analyze_market_regime (flat_series 79) = Raise ValueError /\
  Bollinger.check_entry_signal sqrt6 (flat_series 79) = Ok false.
Proof.
  split.
  - apply (short_series_regime_raises_bollinger_declines sqrt6 (flat_series 79)).
    vm_compute. lia.
  - apply (short_series_regime_raises_bollinger_declines sqrt6 (flat_series 79)).
    vm_compute. lia.
Defined.

(** C4 as stated fails for the Bollinger breakout signal: on 79 candles it
    returns a value, [False], and raises nothing. *)
Lemma bollinger_short_series_returns_false :
  (length (flat_series 79) < 80)%nat /\
  Bollinger.check_entry_signal sqrt6 (flat_series 79) = Ok false /\
  ~ (exists e : exn,
       Bollinger.check_entry_signal sqrt6 (flat_series 79) = Raise e).
Proof.
  split; [vm_compute; lia|].
  split; [vm_compute; reflexivity|].
  intros [e He]. vm_compute in He. discriminate He.
Qed.

End ShortSeries.

(** ** The universe ranker *)

Section Universe.
Import MarketAnalyzer Spec Samples.

Lemma as_picks_length (dir : string) (l : list ticker) :
  length (as_picks dir l) = length l.
Proof. unfold as_picks. apply length_map. Qed.

Lemma as_picks_direction (dir : string) (l : list ticker) :
  all_direction dir (as_picks dir l).
Proof.
  unfold all_direction, as_picks. apply List.Forall_forall.
  intros p Hp. apply in_map_iff in Hp. destruct Hp as [t [<- _]]. reflexivity.
Qed.

Lemma top5_length (dir : string) (l : list ticker) :
  (length (as_picks dir (firstn 5 l)) <= 5)%nat.
Proof. rewrite as_picks_length. apply firstn_le_length. Qed.

Lemma insert_sorted_length {A : Type} (key : A -> Q) (rev : bool) (x : A)
    (l : list A) :
  length (insert_sorted key rev x l) = S (length l).
Proof.
  induction l as [|y l IH]; simpl; [reflexivity|].
  destruct (stays_in_front key rev y x); simpl; [rewrite IH|]; reflexivity.
Qed.

Lemma sorted_length {A : Type} (key : A -> Q) (rev : bool) (l : list A) :
  length (sorted key rev l) = length l.
Proof.
  induction l as [|x l IH]; simpl; [reflexivity|].
  rewrite insert_sorted_length, IH. reflexivity.
Qed.

Lemma last_n_length {A : Type} (n : nat) (l : list A) :
  length (last_n n l) = Nat.min n (length l).
Proof. unfold last_n. rewrite length_skipn. lia. Qed.

Lemma scan_universe_else (regime : string) (tickers : list ticker) :
  String.eqb regime "UPTREND" = false ->
  String.eqb regime "DOWNTREND" = false ->
  long_short_split (scan_universe regime tickers).
Proof.
  intros Hu Hd. unfold scan_universe. rewrite Hu, Hd.
  eexists _, _. split; [reflexivity|].
  split; [apply top5_length|]. split; [apply top5_length|].
  split; apply as_picks_direction.
Qed.

(** C8.  Whatever the ticker snapshot: under UPTREND the ranked universe has
    at most 5 entries, all long; under DOWNTREND at most 5, all short; under
    SIDEWAYS it is at most 5 long entries followed by at most 5 short ones,
    so at most 10.  The ranker is a total function, and the candidate
    windows [sorted(...)[:10]] and [sorted(...)[-10:]] hold
    [min(10, number of pairs)] entries: they are clipped to what is
    available. *)
Theorem scan_universe_bounds (tickers : list ticker) :
  ((length (scan_universe "UPTREND" tickers) <= 5)%nat /\
   all_direction "long" (scan_universe "UPTREND" tickers)) /\
  ((length (scan_universe "DOWNTREND" tickers) <= 5)%nat /\
   all_direction "short" (scan_universe "DOWNTREND" tickers)) /\
  (long_short_split (scan_universe "SIDEWAYS" tickers) /\
   (length (scan_universe "SIDEWAYS" tickers) <= 10)%nat) /\
  (forall (key : ticker -> Q) (rev : bool),
     length (firstn 10 (sorted key rev tickers))
       = Nat.min 10 (length tickers) /\
     length (last_n 10 (sorted key rev tickers))
       = Nat.min 10 (length tickers)).
Proof.
  repeat split.
  - apply top5_length.
  - apply as_picks_direction.
  - apply top5_length.
  - apply as_picks_direction.
  - apply scan_universe_else; reflexivity.
  - destruct (scan_universe_else "SIDEWAYS" tickers eq_refl eq_refl)
      as (longs & shorts & -> & Hl & Hs & _).
    rewrite length_app. lia.
  - rewrite length_firstn, sorted_length. reflexivity.
  - rewrite last_n_length, sorted_length. reflexivity.
Qed.

(** A snapshot with three USDT pairs: every window is clipped to three. *)
Example small_snapshot_sideways :
  scan_universe "SIDEWAYS" small_snapshot =
    [ mkPick "AAA/USDT" "long"; mkPick "DDD/USDT" "long";
      mkPick "BBB/USDT" "long";
      mkPick "AAA/USDT" "short"; mkPick "DDD/USDT" "short";
      mkPick "BBB/USDT" "short" ].
Proof. vm_compute. reflexivity. Qed.

End Universe.

(** ** Validation of a back-test request *)

Section Validation.
Import Strategy Backtest Spec Samples.

Lemma get_strategy_unknown (id : string) :
  _strategies !! id = None -> get_strategy id = Raise ValueError.
Proof. intros H. unfold get_strategy. rewrite H. reflexivity. Qed.

Lemma get_strategy_known (id : string) (cls : strategy_class) :
  _strategies !! id = Some cls -> get_strategy id = Ok cls.
Proof. intros H. unfold get_strategy. rewrite H. reflexivity. Qed.

(** C5, as the code has it.  A request whose strategy id is unknown or whose
    start date is not before its end date is answered with HTTP 400 and
    leaves the server exactly as it was: no database row, no job, no
    background task.  Every other request is accepted, whatever its initial
    capital: a pending job is stored under the new id and the simulation is
    queued. *)
Theorem create_backtest_validation
    (request : BacktestRequest) (job_id : string) (now : Z) (sv : server) :
  (malformed request ->
     create_backtest request job_id now sv = (Raise (HTTPException 400), sv)) /\
  (~ malformed request ->
     exists cls : strategy_class,
       fst (create_backtest request job_id now sv)
         = Ok (mkResponse job_id cls "PENDING") /\
       backtest_jobs (snd (create_backtest request job_id now sv)) !! job_id
         = Some (mkJob request "PENDING" now None None) /\
       db (snd (create_backtest request job_id now sv))
         = db sv ++ [mkJobRow request "PENDING"] /\
       background_tasks (snd (create_backtest request job_id now sv))
         = background_tasks sv ++ [(job_id, request)]).
Proof.
  unfold malformed, create_backtest. split.
  - intros [Hid | Hdates].
    + rewrite (get_strategy_unknown _ Hid). reflexivity.
    + destruct (get_strategy (strategy_id request)); [|reflexivity].
      destruct (Z.geb_spec (start_date request) (end_date request));
        [reflexivity|lia].
  - intros Hok.
    destruct (_strategies !! strategy_id request) as [cls|] eqn:Hid;
      [|exfalso; apply Hok; left; reflexivity].
    rewrite (get_strategy_known _ _ Hid).
    destruct (Z.geb_spec (start_date request) (end_date request)) as [Hge|Hlt];
      [exfalso; apply Hok; right; lia|].
    exists cls. cbn [fst snd backtest_jobs db background_tasks].
    rewrite lookup_insert_eq. repeat split; reflexivity.
Qed.

Lemma create_backtest_validation_witness :
  create_backtest unknown_strategy_request "job-1" 1700000000 fresh_server
    = (Raise (HTTPException 400), fresh_server) /\
  create_backtest reversed_dates_request "job-1" 1700000000 fresh_server
    = (Raise (HTTPException 400), fresh_server) /\
  exists cls : strategy_class,
    fst (create_backtest good_request "job-1" 1700000000 fresh_server)
      = Ok (mkResponse "job-1" cls "PENDING") /\
    backtest_jobs
      (snd (create_backtest good_request "job-1" 1700000000 fresh_server))
      !! "job-1"%string
      = Some (mkJob good_request "PENDING" 1700000000 None None) /\
    db (snd (create_backtest good_request "job-1" 1700000000 fresh_server))
      = db fresh_server ++ [mkJobRow good_request "PENDING"] /\
    background_tasks
      (snd (create_backtest good_request "job-1" 1700000000 fresh_server))
      = background_tasks fresh_server ++ [("job-1"%string, good_request)].
Proof.
  split; [|split].
  - apply (create_backtest_validation
             unknown_strategy_request "job-1" 1700000000 fresh_server).
    left. vm_compute. reflexivity.
  - apply (create_backtest_validation
             reversed_dates_request "job-1" 1700000000 fresh_server).
    right. vm_compute. discriminate.
  - apply (create_backtest_validation
             good_request "job-1" 1700000000 fresh_server).
    intros [H | H]; vm_compute in H; [discriminate H | apply H; reflexivity].
Defined.

(** C5 as stated fails on the capital: a request with a capital of 0, or of
    -1000, a registered strategy and ordered dates is accepted, and its job
    is created and queued. *)
Lemma nonpositive_capital_is_accepted :
  (initial_capital zero_capital_request <= 0 /\
   fst (create_backtest zero_capital_request "job-1" 1700000000 fresh_server)
     = Ok (mkResponse "job-1" BollingerBandBreakoutStrategy "PENDING") /\
   background_tasks
     (snd (create_backtest zero_capital_request "job-1" 1700000000 fresh_server))
     = [("job-1"%string, zero_capital_request)]) /\
  (initial_capital negative_capital_request <= 0 /\
   fst (create_backtest negative_capital_request "job-1" 1700000000 fresh_server)
     = Ok (mkResponse "job-1" BollingerBandBreakoutStrategy "PENDING") /\
   background_tasks
     (snd (create_backtest negative_capital_request "job-1" 1700000000
             fresh_server))
     = [("job-1"%string, negative_capital_request)]).
Proof.
  repeat split; try (vm_compute; reflexivity); vm_compute; discriminate.
Qed.

End Validation.

(** ** The profit factor *)

Section ProfitFactor.
Import Backtest Spec Samples.

Lemma fold_left_Qplus_nonpos (l : list Q) (a : Q) :
  Forall (fun x => x < 0) l -> fold_left Qplus l a <= a.
Proof.
  revert a. induction l as [|x l IH]; intros a H; simpl.
  - apply Qle_refl.
  - inversion H as [|? ? Hx Hl]; subst.
    specialize (IH (a + x) Hl). lra.
Qed.

(** A non-empty list of negative numbers has a negative sum. *)
Lemma py_sum_negative (l : list Q) :
  Forall (fun x => x < 0) l -> l <> [] -> py_sum l < 0.
Proof.
  intros H Hne. destruct l as [|x l]; [congruence|].
  unfold py_sum. simpl. inversion H as [|? ? Hx Hl]; subst.
  pose proof (fold_left_Qplus_nonpos l (0 + x) Hl). lra.
Qed.

Lemma losing_pnls_negative (ts : list trade) :
  Forall (fun x => x < 0) (losing_pnls ts).
Proof.
  unfold losing_pnls. apply List.Forall_forall. intros x Hx.
  apply filter_In in Hx. destruct Hx as [_ Hx]. apply Qltb_lt. exact Hx.
Qed.

Lemma losing_pnls_nil (ts : list trade) :
  no_losing_trade ts -> losing_pnls ts = [].
Proof.
  unfold no_losing_trade, losing_pnls. induction ts as [|t ts IH]; intros H.
  - reflexivity.
  - inversion H as [|? ? Ht Hts]; subst. simpl.
    destruct (Qltb (pnl t) 0) eqn:E.
    + apply Qltb_lt in E. lra.
    + apply IH. exact Hts.
Qed.

Lemma losing_pnls_nil_inv (ts : list trade) :
  losing_pnls ts = [] -> no_losing_trade ts.
Proof.
  unfold no_losing_trade, losing_pnls. induction ts as [|t ts IH]; intros H.
  - constructor.
  - simpl in H. destruct (Qltb (pnl t) 0) eqn:E; [discriminate H|].
    constructor; [apply Qltb_ge in E; exact E | apply IH; exact H].
Qed.

(** The sum of the losing pnls is 0 exactly when no trade lost. *)
Lemma gross_loss_zero_iff (ts : list trade) :
  gross_loss ts == 0 <-> no_losing_trade ts.
Proof.
  change (gross_loss ts) with (py_sum (losing_pnls ts)). split.
  - intros H. apply losing_pnls_nil_inv.
    destruct (losing_pnls ts) as [|x l] eqn:E; [reflexivity|].
    exfalso.
    assert (Hneg : py_sum (losing_pnls ts) < 0).
    { apply py_sum_negative; [apply losing_pnls_negative|].
      rewrite E. discriminate. }
    rewrite E in Hneg. lra.
  - intros H. rewrite (losing_pnls_nil ts H). reflexivity.
Qed.

(** Rounding to the nearest integer moves a number by at most one half. *)
Lemma round_half_even_near (x : Q) :
  Qabs (inject_Z (round_half_even x) - x) <= 1 # 2.
Proof.
  unfold round_half_even.
  pose proof (Qfloor_le x) as Hlo. pose proof (Qlt_floor x) as Hhi.
  set (n := Qfloor x) in *.
  assert (Hn1 : inject_Z (n + 1) == inject_Z n + 1)
    by (rewrite inject_Z_plus; reflexivity).
  apply Qabs_Qle_condition.
  destruct (Qcompare (x - inject_Z n) (1 # 2)) eqn:E.
  - apply Qeq_alt in E. destruct (Z.even n); [|rewrite Hn1]; split; lra.
  - apply Qlt_alt in E. split; lra.
  - apply Qgt_alt in E. rewrite Hn1. split; lra.
Qed.

Lemma py_round_2_near (x : Q) : Qabs (py_round x 2 - x) <= 1 # 200.
Proof.
  unfold py_round. change (inject_Z (10 ^ Z.of_nat 2)) with 100.
  pose proof (round_half_even_near (x * 100)) as H.
  apply Qabs_Qle_condition in H. apply Qabs_Qle_condition.
  set (r := inject_Z (round_half_even (x * 100))) in *.
  unfold Qdiv. change (/ 100) with (1 # 100).
  destruct H as [H1 H2]. split; lra.
Qed.

(** C7, as the code has it.  With no losing trade (equivalently, when the
    losing pnls sum to 0) the profit factor is exactly 0.  Otherwise it is
    the sum of the winning pnls divided by the absolute value of the sum of
    the losing pnls, rounded to two decimals, hence within 0.005 of that
    quotient.  The profit factor a run reports is the one of the ledger it
    returns. *)
Theorem profit_factor_convention (ts : list trade) :
  (no_losing_trade ts -> profit_factor ts = 0) /\
  (~ no_losing_trade ts ->
     profit_factor ts = py_round (gross_win ts / Qabs (gross_loss ts)) 2 /\
     Qabs (profit_factor ts - gross_win ts / Qabs (gross_loss ts)) <= 1 # 200) /\
  (forall (sqrt : Q -> Q) (ohlcv_data : DataFrame) (capital : Q)
          (r : backtest_result),
     run_bollinger_breakout_backtest sqrt ohlcv_data capital = Ok r ->
     r_profit_factor r = profit_factor (r_trades r)).
Proof.
  split; [|split].
  - intros H. apply gross_loss_zero_iff in H.
    unfold profit_factor, Qneqb.
    change (py_sum (losing_pnls ts)) with (gross_loss ts).
    apply Qeq_bool_iff in H. rewrite H. reflexivity.
  - intros H.
    assert (Hne : Qeq_bool (gross_loss ts) 0 = false).
    { destruct (Qeq_bool (gross_loss ts) 0) eqn:E; [|reflexivity].
      exfalso. apply H. apply gross_loss_zero_iff.
      apply Qeq_bool_iff. exact E. }
    assert (Hpf : profit_factor ts
                  = py_round (gross_win ts / Qabs (gross_loss ts)) 2).
    { unfold profit_factor, Qneqb.
      change (py_sum (losing_pnls ts)) with (gross_loss ts).
      change (py_sum (winning_pnls ts)) with (gross_win ts).
      rewrite Hne. reflexivity. }
    split; [exact Hpf|]. rewrite Hpf. apply py_round_2_near.
  - intros sqrt ohlcv_data capital r Hrun.
    unfold run_bollinger_breakout_backtest in Hrun.
    destruct (simulate sqrt ohlcv_data capital) as [st|e];
      cbn [mbind result_bind] in Hrun; [|discriminate Hrun].
    destruct (equity_curve st); [discriminate Hrun|].
    injection Hrun as <-. reflexivity.
Qed.

Lemma profit_factor_convention_witness :
  profit_factor winners_only = 0 /\
  profit_factor one_win_one_loss
    = py_round (gross_win one_win_one_loss
                  / Qabs (gross_loss one_win_one_loss)) 2 /\
  Qabs (profit_factor one_win_one_loss
          - gross_win one_win_one_loss / Qabs (gross_loss one_win_one_loss))
    <= 1 # 200.
Proof.
  split.
  - apply (profit_factor_convention winners_only).
    repeat constructor; vm_compute; discriminate.
  - apply (profit_factor_convention one_win_one_loss).
    intros H. inversion H as [|? ? _ H2]; subst.
    inversion H2 as [|? ? H3 _]; subst.
    vm_compute in H3. apply H3. reflexivity.
Defined.

(** C7 as stated fails on the rounding: one winner of 1 and one loser of 3
    give the profit factor 0.33, which is not the quotient 1/3. *)
Lemma profit_factor_is_rounded :
  gross_win one_win_one_loss == 1 /\
  gross_loss one_win_one_loss == -3 /\
  profit_factor one_win_one_loss == 0.33 /\
  ~ profit_factor one_win_one_loss
      == gross_win one_win_one_loss / Qabs (gross_loss one_win_one_loss).
Proof.
  repeat split; try (vm_compute; reflexivity).
  vm_compute. discriminate.
Qed.

End ProfitFactor.

(** ** The RSI *)

Section RSI.
Import Pandas Strategy Samples.

Lemma last_zip_with {A B C : Type} (f : A -> B -> C) (a : list A) (b : list B) :
  length a = length b ->
  last (zip_with f a b) =
    match last a, last b with
    | Some x, Some y => Some (f x y)
    | _, _ => None
    end.
Proof.
  revert b. induction a as [|x a IH]; intros [|y b] H;
    simpl in H; try discriminate H; [reflexivity|].
  destruct a as [|x' a], b as [|y' b]; simpl in H; try discriminate H;
    [reflexivity|].
  change (zip_with f (x :: x' :: a) (y :: y' :: b))
    with (f x y :: zip_with f (x' :: a) (y' :: b)).
  change (zip_with f (x' :: a) (y' :: b))
    with (f x' y' :: zip_with f a b).
  rewrite !last_cons_cons.
  change (f x' y' :: zip_with f a b) with (zip_with f (x' :: a) (y' :: b)).
  apply IH. simpl. lia.
Qed.

Lemma diff_length (s : Series) : length (diff s) = length s.
Proof.
  destruct s as [|x s]; [reflexivity|]. simpl.
  rewrite length_zip_with. simpl. lia.
Qed.

Lemma rolling_length (w : nat) agg (s : Series) :
  length (rolling w agg s) = length s.
Proof. unfold rolling. rewrite length_map, length_seq. reflexivity. Qed.

Lemma gain_loss_same_length (period : nat) (closes : Series) :
  length (gain_series period closes) = length (loss_series period closes).
Proof.
  unfold gain_series, loss_series, where_.
  rewrite !rolling_length, !length_map. reflexivity.
Qed.

Lemma iloc_last_inv {A : Type} (s : list A) (x : A) :
  iloc_last s = Ok x -> last s = Some x.
Proof.
  unfold iloc_last, last_item. destruct (last s); intros H;
    [injection H as ->; reflexivity | discriminate H].
Qed.

(** The last RSI is [rsi_of] the last average gain and average loss. *)
Lemma rsi_series_last (period : nat) (closes : Series) (g l : float64) :
  iloc_last (gain_series period closes) = Ok g ->
  iloc_last (loss_series period closes) = Ok l ->
  iloc_last (rsi_series period closes) = Ok (rsi_of g l).
Proof.
  intros Hg Hl. apply iloc_last_inv in Hg. apply iloc_last_inv in Hl.
  unfold iloc_last, last_item, rsi_series.
  rewrite last_zip_with by apply gain_loss_same_length.
  rewrite Hg, Hl. reflexivity.
Qed.

Lemma sgn_zero (z : Q) : z == 0 -> F.sgn z = Eq.
Proof. intros H. unfold F.sgn. apply Qeq_alt. exact H. Qed.

Lemma sgn_pos (q : Q) : 0 < q -> F.sgn q = Gt.
Proof. intros H. unfold F.sgn. apply Qgt_alt. exact H. Qed.

(** A positive average gain over a zero average loss: the quotient is
    [+inf] and the RSI is 100. *)
Lemma rsi_of_gain_only (q z : Q) :
  0 < q -> z == 0 -> F.equiv (rsi_of (Fin q) (Fin z)) (Fin 100).
Proof.
  intros Hq Hz. unfold rsi_of. cbn [F.div].
  rewrite (sgn_zero z Hz), (sgn_pos q Hq). cbn. lra.
Qed.

(** No gain and no loss: the quotient is [0/0], the RSI is NaN. *)
Lemma rsi_of_no_move (q z : Q) :
  q == 0 -> z == 0 -> rsi_of (Fin q) (Fin z) = NaN.
Proof.
  intros Hq Hz. unfold rsi_of. cbn [F.div].
  rewrite (sgn_zero z Hz), (sgn_zero q Hq). reflexivity.
Qed.

Lemma iloc_last_nonempty {A : Type} (s : list A) :
  (0 < length s)%nat -> exists x : A, iloc_last s = Ok x.
Proof.
  intros H. destruct (last_is_Some s H) as [x Hx].
  exists x. unfold iloc_last, last_item. rewrite Hx. reflexivity.
Qed.

(** A NaN RSI makes [current_rsi < rsi_oversold] false: no entry. *)
Lemma momentum_declines_on_nan (df : DataFrame) :
  (50 <= length df)%nat ->
  iloc_last (rsi_series Momentum.rsi_period (close_column df)) = Ok NaN ->
  Momentum.check_entry_signal df = Ok false.
Proof.
  intros Hlen Hrsi. unfold Momentum.check_entry_signal.
  destruct (Nat.ltb_spec (length df) 50); [lia|].
  rewrite Hrsi.
  unfold Momentum.sma_short, Momentum.sma_long.
  rewrite !last_sma by lia.
  reflexivity.
Qed.

Lemma mean_reversion_declines_on_nan (sqrt : Q -> Q) (df : DataFrame) :
  (20 <= length df)%nat ->
  iloc_last (rsi_series MeanReversion.rsi_period (close_column df)) = Ok NaN ->
  MeanReversion.check_entry_signal sqrt df = Ok false.
Proof.
  intros Hlen Hrsi. unfold MeanReversion.check_entry_signal.
  destruct (Nat.ltb_spec (length df) 20); [lia|].
  rewrite Hrsi.
  assert (Hcol : length (close_column df) = length df)
    by (unfold close_column; apply length_map).
  rewrite last_close_column by lia.
  destruct (iloc_last_nonempty
              (zip_with F.add
                 (rolling MeanReversion.bb_period mean (close_column df))
                 (map (fun s => F.mul s (Fin MeanReversion.bb_std))
                    (rolling MeanReversion.bb_period (std sqrt)
                       (close_column df))))) as [u Hu].
  { rewrite length_zip_with, length_map, !rolling_length. lia. }
  destruct (iloc_last_nonempty
              (zip_with F.sub
                 (rolling MeanReversion.bb_period mean (close_column df))
                 (map (fun s => F.mul s (Fin MeanReversion.bb_std))
                    (rolling MeanReversion.bb_period (std sqrt)
                       (close_column df))))) as [w Hw].
  { rewrite length_zip_with, length_map, !rolling_length. lia. }
  rewrite Hu, Hw. cbn [mbind result_bind].
  change (F.lt NaN (Fin MeanReversion.rsi_oversold)) with false.
  rewrite andb_false_r. reflexivity.
Qed.

(** C6, as the code has it.  Take the average gain [g] and the average loss
    [l] at the evaluated (last) index, with [l] equal to 0.  The source has
    no guard: it divides.  If [g] is positive the quotient is [+inf] and the
    RSI is exactly 100.  If [g] is 0 as well the quotient is [0/0] and the
    RSI is NaN, not 100; the comparison [rsi < rsi_oversold] is then false,
    so both the momentum and the mean-reversion entry signals answer
    [False]. *)
Theorem rsi_at_zero_average_loss
    (sqrt : Q -> Q) (df : DataFrame) (period : nat) (g l : float64) :
  iloc_last (gain_series period (close_column df)) = Ok g ->
  iloc_last (loss_series period (close_column df)) = Ok l ->
  F.equiv l (Fin 0) ->
  exists rsi : float64,
    iloc_last (rsi_series period (close_column df)) = Ok rsi /\
    (F.lt (Fin 0) g = true -> F.equiv rsi (Fin 100)) /\
    (F.equiv g (Fin 0) ->
       rsi = NaN /\
       (period = 14%nat -> (50 <= length df)%nat ->
          Momentum.check_entry_signal df = Ok false) /\
       (period = 14%nat -> (20 <= length df)%nat ->
          MeanReversion.check_entry_signal sqrt df = Ok false)).
Proof.
  intros Hg Hl Hzero.
  pose proof (rsi_series_last period _ g l Hg Hl) as Hrsi.
  exists (rsi_of g l). split; [exact Hrsi|].
  destruct l as [z| | |]; try contradiction. cbn in Hzero.
  split.
  - destruct g as [q| | |]; cbn; try discriminate.
    + intros Hq. apply Qltb_lt in Hq. apply rsi_of_gain_only; assumption.
    + intros _. unfold rsi_of. cbn [F.div].
      destruct (F.sgn z); cbn; lra.
  - intros Hgz. destruct g as [q| | |]; try contradiction. cbn in Hgz.
    rewrite (rsi_of_no_move q z Hgz Hzero) in *.
    split; [reflexivity|]. split; intros -> Hlen.
    + apply momentum_declines_on_nan; assumption.
    + apply mean_reversion_declines_on_nan; assumption.
Qed.

Lemma rsi_at_zero_average_loss_witness :
  (exists rsi : float64,
     iloc_last (rsi_series 14 (close_column rising_series)) = Ok rsi /\
     F.equiv rsi (Fin 100)) /\
  (exists rsi : float64,
     iloc_last (rsi_series 14 (close_column (flat_series 50))) = Ok rsi /\
     rsi = NaN /\
     Momentum.check_entry_signal (flat_series 50) = Ok false /\
     MeanReversion.check_entry_signal sqrt6 (flat_series 50) = Ok false).
Proof.
  split.
  - destruct (rsi_at_zero_average_loss sqrt6 rising_series 14
                (Fin (14 # 14)) (Fin (0 # 14)))
      as (rsi & Hrsi & Hup & _).
    + vm_compute. reflexivity.
    + vm_compute. reflexivity.
    + vm_compute. reflexivity.
    + exists rsi. split; [exact Hrsi|]. apply Hup. vm_compute. reflexivity.
  - destruct (rsi_at_zero_average_loss sqrt6 (flat_series 50) 14
                (Fin (0 # 14)) (Fin (0 # 14)))
      as (rsi & Hrsi & _ & Hflat).
    + vm_compute. reflexivity.
    + vm_compute. reflexivity.
    + vm_compute. reflexivity.
    + destruct Hflat as (Hnan & Hmom & Hrev); [vm_compute; reflexivity|].
      exists rsi. split; [exact Hrsi|]. split; [exact Hnan|].
      split; [apply Hmom | apply Hrev]; try reflexivity; vm_compute; lia.
Defined.

(** C6 as stated fails when nothing moves: over 50 equal closes the average
    loss and the average gain are both 0 and the RSI is NaN, not 100. *)
Lemma flat_series_rsi_is_nan :
  iloc_last (loss_series 14 (close_column (flat_series 50))) = Ok (Fin (0 # 14)) /\
  iloc_last (gain_series 14 (close_column (flat_series 50))) = Ok (Fin (0 # 14)) /\
  iloc_last (rsi_series 14 (close_column (flat_series 50))) = Ok NaN /\
  ~ (exists rsi : float64,
       iloc_last (rsi_series 14 (close_column (flat_series 50))) = Ok rsi /\
       F.equiv rsi (Fin 100)).
Proof.
  repeat split; try (vm_compute; reflexivity).
  intros (rsi & Hrsi & Heq). vm_compute in Hrsi.
  injection Hrsi as <-. exact Heq.
Qed.

End RSI.

(** ** The simulation engine, one candle at a time *)

Section StepFacts.
Import Pandas Strategy Backtest Spec.
Variable sqrt : Q -> Q.
Variable ohlcv_data : DataFrame.

Lemma update_last_snoc {A : Type} (f : A -> A) (l : list A) (x : A) :
  update_last f (l ++ [x]) = Ok (l ++ [f x]).
Proof.
  induction l as [|y l IH]; [reflexivity|].
  change ((y :: l) ++ [x]) with (y :: (l ++ [x])).
  destruct (l ++ [x]) as [|z r] eqn:E.
  - destruct l; discriminate E.
  - simpl. simpl in IH. rewrite IH. reflexivity.
Qed.

Lemma current_candle_at (i : nat) (c : candle) :
  ohlcv_data !! i = Some c ->
  iloc_last (firstn (S i) ohlcv_data) = Ok c.
Proof.
  intros H. unfold iloc_last, last_item.
  rewrite (take_S_r _ _ _ H), last_snoc. reflexivity.
Qed.

Lemma get_entry_price_at (i : nat) (c : candle) :
  ohlcv_data !! i = Some c ->
  Bollinger.get_entry_price (firstn (S i) ohlcv_data) = Ok (close c * 0.995).
Proof.
  intros H. unfold Bollinger.get_entry_price.
  rewrite (current_candle_at i c H). reflexivity.
Qed.

(** The entry signal never raises. *)
Lemma check_entry_signal_total (df : DataFrame) :
  exists b : bool, Bollinger.check_entry_signal sqrt df = Ok b.
Proof.
  unfold Bollinger.check_entry_signal.
  destruct (Nat.ltb_spec (length df) 80) as [|Hlen]; [eauto|].
  unfold Bollinger.calculate_bollinger_bands.
  assert (Hcol : length (close_column df) = length df)
    by (unfold close_column; apply length_map).
  destruct (iloc_last_nonempty df) as [c ->]; [lia|].
  cbn [mbind result_bind].
  repeat match goal with
  | |- context [iloc_last (zip_with ?f ?a ?b)] =>
      let x := fresh "x" in
      destruct (iloc_last_nonempty (zip_with f a b)) as [x ->];
      [ rewrite length_zip_with, length_map, !rolling_length; lia
      | cbn [mbind result_bind] ]
  end.
  eauto.
Qed.

(** The candle on which nothing is held and the signal says no. *)
Lemma step_flat_idle (i : nat) (c : candle) (st : sim) :
  ohlcv_data !! i = Some c -> pos st = None ->
  Bollinger.check_entry_signal sqrt (firstn (S i) ohlcv_data) = Ok false ->
  step sqrt ohlcv_data i st =
    Ok (mkSim (trades st) (current_capital st)
              (equity_curve st ++ [mkEquity (name c) (current_capital st)])
              None
              (trace st ++ [SignalConsulted i false])).
Proof.
  intros Hc Hpos Hsig. unfold step.
  rewrite (current_candle_at i c Hc). cbn [mbind result_bind].
  rewrite Hpos, Hsig.
  cbn [mbind result_bind log pos trades current_capital equity_curve trace].
  rewrite Hpos. reflexivity.
Qed.

(** The candle on which nothing is held and the signal says yes. *)
Lemma step_flat_entry (i : nat) (c : candle) (st : sim) :
  ohlcv_data !! i = Some c -> pos st = None ->
  Bollinger.check_entry_signal sqrt (firstn (S i) ohlcv_data) = Ok true ->
  step sqrt ohlcv_data i st =
    Ok (mkSim (trades st ++
                 [new_trade (name c) (close c * 0.995)
                            (current_capital st * Bollinger.get_position_size_ratio)])
              (current_capital st)
              (equity_curve st ++ [mkEquity (name c) (current_capital st)])
              (Some (new_position (name c) (close c * 0.995)
                       (current_capital st * Bollinger.get_position_size_ratio)))
              (trace st ++ [SignalConsulted i true])).
Proof.
  intros Hc Hpos Hsig. unfold step.
  rewrite (current_candle_at i c Hc). cbn [mbind result_bind].
  rewrite Hpos, Hsig. cbn [mbind result_bind]. unfold enter.
  rewrite (get_entry_price_at i c Hc). reflexivity.
Qed.

(** The candle on which a position is held. *)
Lemma step_held (i : nat) (c : candle) (st : sim) (p : position)
    (ts : list trade) (t : trade) :
  ohlcv_data !! i = Some c -> pos st = Some p -> trades st = ts ++ [t] ->
  step sqrt ohlcv_data i st =
    let hp := py_max (highest_price p) (close c) in
    match closing_condition (close c) (entry_price p) hp with
    | Some reason =>
        Ok (mkSim (ts ++ [close_trade (pnl_at p (close c)) (name c) (close c)
                            reason (with_highest hp p) t])
                  (current_capital st + pnl_at p (close c))
                  (equity_curve st ++
                     [mkEquity (name c) (current_capital st + pnl_at p (close c))])
                  None
                  (trace st ++ [ExitEvaluated i (Some reason)]))
    | None =>
        Ok (mkSim (trades st) (current_capital st)
                  (equity_curve st ++ [mkEquity (name c) (current_capital st)])
                  (Some (with_highest hp p))
                  (trace st ++ [ExitEvaluated i None]))
    end.
Proof.
  intros Hc Hpos Hts. unfold step.
  rewrite (current_candle_at i c Hc). cbn [mbind result_bind].
  rewrite Hpos. unfold manage, pnl_at.
  cbn [with_highest highest_price entry_price pos_size].
  destruct (closing_condition (close c) (entry_price p)
              (py_max (highest_price p) (close c))) as [reason|].
  - cbn [log trades]. rewrite Hts, update_last_snoc. reflexivity.
  - reflexivity.
Qed.

End StepFacts.

(** ** The closing conditions *)

Section ClosingConditions.
Import Pandas Strategy Backtest Spec Samples.

(** The [if / elif / elif] chain, read as propositions. *)
Lemma closing_condition_cases (current_price entry highest : Q) :
  let stops := Bollinger.set_trailing_stop entry in
  (current_price <= stop_loss stops ->
     closing_condition current_price entry highest = Some StopLoss) /\
  (~ current_price <= stop_loss stops ->
   max_profit_target stops <= current_price ->
     closing_condition current_price entry highest = Some TakeProfit) /\
  (~ current_price <= stop_loss stops ->
   ~ max_profit_target stops <= current_price ->
   current_price <= 0.985 * highest /\ entry * 1.02 < highest ->
     closing_condition current_price entry highest = Some TrailingStop) /\
  (~ current_price <= stop_loss stops ->
   ~ max_profit_target stops <= current_price ->
   ~ (current_price <= 0.985 * highest /\ entry * 1.02 < highest) ->
     closing_condition current_price entry highest = None).
Proof.
  cbv zeta. unfold closing_condition.
  set (stops := Bollinger.set_trailing_stop entry).
  destruct (Qleb current_price (stop_loss stops)) eqn:E1;
    [apply Qleb_le in E1 | apply Qleb_gt in E1].
  { repeat split; intros; try reflexivity; exfalso; auto. }
  destruct (Qleb (max_profit_target stops) current_price) eqn:E2;
    [apply Qleb_le in E2 | apply Qleb_gt in E2].
  { repeat split; intros; try reflexivity; exfalso; auto.
    apply Qlt_not_le in E1. auto. }
  destruct (Qleb current_price (highest * 0.985)) eqn:E3;
    [apply Qleb_le in E3 | apply Qleb_gt in E3];
  (destruct (Qltb (entry * 1.02) highest) eqn:E4;
    [apply Qltb_lt in E4 | apply Qltb_ge in E4]);
  cbn [andb]; repeat split; intros; try reflexivity; exfalso;
    repeat match goal with
           | H : ~ (_ /\ _) |- _ => apply H; split; lra
           | H : _ /\ _ |- _ => destruct H
           end; try lra.
Qed.

Section OneCandle.
Variable sqrt : Q -> Q.
Variable ohlcv_data : DataFrame.

Lemma step_held_closes (i : nat) (c : candle) (st : sim) (p : position)
    (ts : list trade) (t : trade) (reason : close_reason) :
  ohlcv_data !! i = Some c -> pos st = Some p -> trades st = ts ++ [t] ->
  closing_condition (close c) (entry_price p)
    (py_max (highest_price p) (close c)) = Some reason ->
  exists st' : sim,
    step sqrt ohlcv_data i st = Ok st' /\ closes_with reason i c p st st'.
Proof.
  intros Hc Hpos Hts Hcc.
  rewrite (step_held sqrt ohlcv_data i c st p ts t Hc Hpos Hts).
  cbv zeta. rewrite Hcc. eexists. split; [reflexivity|].
  unfold closes_with. cbn [pos trades current_capital trace].
  split; [reflexivity|]. split; [|split; reflexivity].
  eexists ts, t, _. split; [exact Hts|]. split; [reflexivity|].
  repeat split; reflexivity.
Qed.

Lemma step_held_stays (i : nat) (c : candle) (st : sim) (p : position)
    (ts : list trade) (t : trade) :
  ohlcv_data !! i = Some c -> pos st = Some p -> trades st = ts ++ [t] ->
  closing_condition (close c) (entry_price p)
    (py_max (highest_price p) (close c)) = None ->
  exists st' : sim,
    step sqrt ohlcv_data i st = Ok st' /\
    stays_open i (py_max (highest_price p) (close c)) p st st'.
Proof.
  intros Hc Hpos Hts Hcc.
  rewrite (step_held sqrt ohlcv_data i c st p ts t Hc Hpos Hts).
  cbv zeta. rewrite Hcc. eexists. split; [reflexivity|].
  unfold stays_open. cbn [pos trades current_capital trace].
  repeat split; reflexivity.
Qed.

End OneCandle.

(** C1.  On a candle processed while a position is held, the engine updates
    the running high to [max(high, close)] and then: if
    [close <= stopLoss] it closes with stop_loss; otherwise if
    [close >= maxProfitTarget] it closes with take_profit; otherwise if
    [close <= 0.985 * high] and [high > entryPrice * 1.02] it closes with
    trailing_stop; otherwise the position stays open.  Each case logs one
    evaluation and closes at most the one open trade: the first matching
    condition wins. *)
Theorem closing_conditions_priority
    (sqrt : Q -> Q) (ohlcv_data : DataFrame) (i : nat) (c : candle) (st : sim)
    (p : position) (ts : list trade) (t : trade) :
  ohlcv_data !! i = Some c -> pos st = Some p -> trades st = ts ++ [t] ->
  let stops := Bollinger.set_trailing_stop (entry_price p) in
  let highest := py_max (highest_price p) (close c) in
  exists st' : sim,
    step sqrt ohlcv_data i st = Ok st' /\
    (close c <= stop_loss stops -> closes_with StopLoss i c p st st') /\
    (~ close c <= stop_loss stops ->
     max_profit_target stops <= close c ->
       closes_with TakeProfit i c p st st') /\
    (~ close c <= stop_loss stops ->
     ~ max_profit_target stops <= close c ->
     close c <= 0.985 * highest /\ entry_price p * 1.02 < highest ->
       closes_with TrailingStop i c p st st') /\
    (~ close c <= stop_loss stops ->
     ~ max_profit_target stops <= close c ->
     ~ (close c <= 0.985 * highest /\ entry_price p * 1.02 < highest) ->
       stays_open i highest p st st').
Proof.
  intros Hc Hpos Hts stops highest.
  destruct (closing_condition_cases (close c) (entry_price p) highest)
    as (Hstop & Htarget & Htrail & Hnone).
  fold stops in Hstop, Htarget, Htrail, Hnone.
  destruct (closing_condition (close c) (entry_price p) highest)
    as [reason|] eqn:Hcc.
  - destruct (step_held_closes sqrt ohlcv_data i c st p ts t reason
                Hc Hpos Hts Hcc) as (st' & Hstep & Hclosed).
    exists st'. split; [exact Hstep|].
    split; [|split; [|split]].
    + intros H. specialize (Hstop H). injection Hstop as <-. exact Hclosed.
    + intros H1 H2. specialize (Htarget H1 H2).
      injection Htarget as <-. exact Hclosed.
    + intros H1 H2 H3. specialize (Htrail H1 H2 H3).
      injection Htrail as <-. exact Hclosed.
    + intros H1 H2 H3. specialize (Hnone H1 H2 H3). discriminate Hnone.
  - destruct (step_held_stays sqrt ohlcv_data i c st p ts t
                Hc Hpos Hts Hcc) as (st' & Hstep & Hopen).
    exists st'. split; [exact Hstep|].
    split; [|split; [|split]].
    + intros H. specialize (Hstop H). discriminate Hstop.
    + intros H1 H2. specialize (Htarget H1 H2). discriminate Htarget.
    + intros H1 H2 H3. specialize (Htrail H1 H2 H3). discriminate Htrail.
    + intros _ _ _. exact Hopen.
Qed.

Lemma closing_conditions_priority_witness :
  exists st' : sim,
    step sqrt6 scenario_series 80 scenario_state = Ok st' /\
    closes_with TrailingStop 80 scenario_candle scenario_position
      scenario_state st'.
Proof.
  destruct (closing_conditions_priority sqrt6 scenario_series 80
              scenario_candle scenario_state scenario_position
              [] (new_trade 10 100 1000))
    as (st' & Hstep & _ & _ & Htrail & _).
  - vm_compute. reflexivity.
  - reflexivity.
  - reflexivity.
  - exists st'. split; [exact Hstep|]. apply Htrail.
    + vm_compute. intros H. apply H. reflexivity.
    + vm_compute. intros H. apply H. reflexivity.
    + split; vm_compute; [discriminate | reflexivity].
Defined.

(** The forced close at the end of the data. *)
Lemma close_at_end_held (ohlcv_data : DataFrame) (last_candle : candle)
    (st : sim) (p : position) (ts : list trade) (t : trade)
    (es : list equity_point) (e : equity_point) :
  last ohlcv_data = Some last_candle ->
  pos st = Some p -> trades st = ts ++ [t] -> equity_curve st = es ++ [e] ->
  close_at_end ohlcv_data st =
    Ok (mkSim (ts ++ [close_trade (pnl_at p (close last_candle))
                        (name last_candle) (close last_candle) EndOfData p t])
              (current_capital st + pnl_at p (close last_candle))
              (es ++ [mkEquity (e_date e)
                        (current_capital st + pnl_at p (close last_candle))])
              (Some p) (trace st)).
Proof.
  intros Hlast Hpos Hts Hes. unfold close_at_end.
  rewrite Hpos. unfold iloc_last, last_item. rewrite Hlast.
  cbn [mbind result_bind].
  rewrite Hts, update_last_snoc. cbn [mbind result_bind].
  rewrite Hes, update_last_snoc. reflexivity.
Qed.

(** C2, as the code has it.  In the engine, which opens long positions
    only, the pnl realized when a closing condition fires or when the data
    ends is [(closePrice - entryPrice) * size / entryPrice], and the capital
    grows by it.  [BaseStrategy.calculate_pnl] is the direction-aware
    function: short is the opposite of long, but it multiplies the price
    difference by the size as a number of units, with no division by the
    entry price.  In the scenario (entry 100, size 1000, running high 150,
    close 147) the engine closes with trailing_stop and the pnl is 470. *)
Theorem realized_pnl_of_the_engine
    (sqrt : Q -> Q) (ohlcv_data : DataFrame) (i : nat) (c : candle) (st : sim)
    (p : position) (ts : list trade) (t : trade) :
  ohlcv_data !! i = Some c -> pos st = Some p -> trades st = ts ++ [t] ->
  (forall reason : close_reason,
     closing_condition (close c) (entry_price p)
       (py_max (highest_price p) (close c)) = Some reason ->
     exists st' : sim,
       step sqrt ohlcv_data i st = Ok st' /\
       closes_with reason i c p st st') /\
  (forall (es : list equity_point) (e : equity_point) (last_candle : candle),
     last ohlcv_data = Some last_candle -> equity_curve st = es ++ [e] ->
     exists (st' : sim) (t' : trade),
       close_at_end ohlcv_data st = Ok st' /\
       trades st' = ts ++ [t'] /\
       t_close_reason t' = Some EndOfData /\
       pnl t' = pnl_at p (close last_candle) /\
       current_capital st'
         = current_capital st + pnl_at p (close last_candle)) /\
  (forall entry current size_ : Q,
     calculate_pnl entry current size_ "long" = (current - entry) * size_ /\
     calculate_pnl entry current size_ "short" = (entry - current) * size_ /\
     calculate_pnl entry current size_ "short"
       == - calculate_pnl entry current size_ "long") /\
  (entry_price p = 100 -> pos_size p = 1000 -> highest_price p = 150 ->
   close c = 147 ->
     exists st' : sim,
       step sqrt ohlcv_data i st = Ok st' /\
       closes_with TrailingStop i c p st st' /\
       pnl_at p (close c) == 470).
Proof.
  intros Hc Hpos Hts. split; [|split; [|split]].
  - intros reason Hcc.
    exact (step_held_closes sqrt ohlcv_data i c st p ts t reason
             Hc Hpos Hts Hcc).
  - intros es e last_candle Hlast Hes.
    rewrite (close_at_end_held ohlcv_data last_candle st p ts t es e
               Hlast Hpos Hts Hes).
    eexists _, _. split; [reflexivity|].
    cbn [trades current_capital]. split; [reflexivity|].
    repeat split; reflexivity.
  - intros entry current size_. unfold calculate_pnl. cbn.
    repeat split; try reflexivity. ring.
  - intros He Hs Hh Hcl.
    destruct (step_held_closes sqrt ohlcv_data i c st p ts t TrailingStop
                Hc Hpos Hts) as (st' & Hstep & Hclosed).
    { rewrite He, Hh, Hcl. vm_compute. reflexivity. }
    exists st'. split; [exact Hstep|]. split; [exact Hclosed|].
    unfold pnl_at. rewrite He, Hs, Hcl. vm_compute. reflexivity.
Qed.

Lemma realized_pnl_of_the_engine_witness :
  exists st' : sim,
    step sqrt6 scenario_series 80 scenario_state = Ok st' /\
    closes_with TrailingStop 80 scenario_candle scenario_position
      scenario_state st' /\
    pnl_at scenario_position (close scenario_candle) == 470.
Proof.
  apply (realized_pnl_of_the_engine sqrt6 scenario_series 80 scenario_candle
           scenario_state scenario_position [] (new_trade 10 100 1000)).
  - vm_compute. reflexivity.
  - reflexivity.
  - reflexivity.
  - reflexivity.
  - reflexivity.
  - reflexivity.
  - reflexivity.
Defined.

(** C2 as stated fails on the direction-aware pnl of the code: for entry
    100, price 147 and size 1000, [calculate_pnl] gives 47000 long and
    -47000 short, not 470 and -470. *)
Lemma calculate_pnl_is_per_unit :
  calculate_pnl 100 147 1000 "long" == 47000 /\
  ~ calculate_pnl 100 147 1000 "long" == (147 - 100) * 1000 / 100 /\
  calculate_pnl 100 147 1000 "short" == - 47000 /\
  ~ calculate_pnl 100 147 1000 "short" == - ((147 - 100) * 1000 / 100).
Proof.
  repeat split; try (vm_compute; reflexivity); vm_compute; discriminate.
Qed.

End ClosingConditions.

(** ** The simulation engine over a whole run *)

Section RunFacts.
Import Pandas Strategy Backtest Spec.
Variable sqrt : Q -> Q.
Variable ohlcv_data : DataFrame.

Lemma for_each_app {A S : Type} (body : A -> S -> result S)
    (xs ys : list A) (s : S) :
  for_each body (xs ++ ys) s = s' ← for_each body xs s; for_each body ys s'.
Proof.
  revert s. induction xs as [|x xs IH]; intros s; [reflexivity|].
  simpl. destruct (body x s) as [s'|e]; [apply IH|reflexivity].
Qed.

Lemma loop_upto_S (k : nat) (capital : Q) :
  loop_upto sqrt ohlcv_data (S k) capital =
    st ← loop_upto sqrt ohlcv_data k capital; step sqrt ohlcv_data (80 + k) st.
Proof.
  unfold loop_upto. rewrite seq_S, for_each_app.
  destruct (for_each (step sqrt ohlcv_data) (seq 80 k) (initial capital))
    as [st|e]; [|reflexivity].
  cbn [mbind result_bind for_each].
  destruct (step sqrt ohlcv_data (80 + k) st); reflexivity.
Qed.

(** One more event at the end of an accepted trace. *)
Lemma run_machine_snoc (ph : phase) (next : nat) (tr : list event) (e : event) :
  run_machine ph next (tr ++ [e]) =
    match run_machine ph next tr with
    | Some ph' =>
        if (event_index e =? next + length tr)%nat then transition ph' e
        else None
    | None => None
    end.
Proof.
  revert ph next. induction tr as [|e0 tr IH]; intros ph next.
  - simpl. rewrite Nat.add_0_r.
    destruct (event_index e =? next)%nat; [|reflexivity].
    destruct (transition ph e); reflexivity.
  - simpl. destruct (event_index e0 =? next)%nat; [|reflexivity].
    destruct (transition ph e0) as [ph'|]; [|reflexivity].
    rewrite IH. replace (S next + length tr)%nat
      with (next + S (length tr))%nat by lia.
    reflexivity.
Qed.

Lemma machine_step (st : sim) (k : nat) (e : event) (ph : phase) :
  run_machine FLAT 80 (trace st) = Some (phase_of st) ->
  length (trace st) = k ->
  event_index e = (80 + k)%nat ->
  transition (phase_of st) e = Some ph ->
  run_machine FLAT 80 (trace st ++ [e]) = Some ph.
Proof.
  intros Hm Hlen Hidx Htr. rewrite run_machine_snoc, Hm, Hlen, Hidx.
  rewrite Nat.eqb_refl. exact Htr.
Qed.

Lemma closed_by_rule_mono (n m : nat) (t : trade) :
  (n <= m)%nat -> closed_by_rule ohlcv_data n t -> closed_by_rule ohlcv_data m t.
Proof.
  intros Hnm (i & j & reason & He & Hr & Hij & Hj).
  exists i, j, reason. repeat split; try assumption. lia.
Qed.

Lemma ledger_closed_mono (n m : nat) (ts : list trade) :
  (n <= m)%nat ->
  Forall (closed_by_rule ohlcv_data n) ts ->
  Forall (closed_by_rule ohlcv_data m) ts.
Proof.
  intros Hnm. apply List.Forall_impl. intros t. apply closed_by_rule_mono.
  exact Hnm.
Qed.

Lemma closing_condition_not_end (current_price entry highest : Q)
    (reason : close_reason) :
  closing_condition current_price entry highest = Some reason ->
  reason <> EndOfData.
Proof.
  unfold closing_condition. intros H.
  repeat match type of H with
         | (if ?b then _ else _) = _ => destruct b
         end; congruence.
Qed.

Lemma invariant_initial (capital : Q) : invariant ohlcv_data 0 (initial capital).
Proof.
  split; try reflexivity. unfold ledger_matches. cbn. constructor.
Qed.

(** The part of the invariant that every branch re-establishes the same
    way: one more accepted event, one more equity point.  What is left is
    the ledger. *)
Ltac one_more_candle st k Hm He Hcurve Hpos :=
  eexists; split; [reflexivity|];
  split; cbn [trace equity_curve pos trades];
  [ apply (machine_step st k); try assumption; try reflexivity;
    unfold phase_of; rewrite Hpos; reflexivity
  | rewrite length_app, He; simpl; lia
  | rewrite length_app, Hcurve; simpl; lia
  | unfold ledger_matches; cbn [pos trades] ].

(** Every iteration succeeds and keeps the invariant. *)
Lemma invariant_step (k : nat) (st : sim) :
  invariant ohlcv_data k st -> (80 + k < length ohlcv_data)%nat ->
  exists st' : sim,
    step sqrt ohlcv_data (80 + k) st = Ok st' /\
    invariant ohlcv_data (S k) st'.
Proof.
  intros [Hm He Hcurve Hl] Hlt.
  destruct (lookup_lt_is_Some_2 ohlcv_data (80 + k) Hlt) as [c Hc].
  unfold ledger_matches in Hl.
  destruct (pos st) as [p|] eqn:Hpos.
  - (* a position is held: the closing conditions are evaluated *)
    destruct Hl as (ts & t & Hts & Hclosed & Hopen).
    destruct Hopen as (i0 & ci & Hci & H80 & Hi & Hdate & Hed & Hcd & Hcr).
    rewrite (step_held sqrt ohlcv_data (80 + k) c st p ts t Hc Hpos Hts).
    cbv zeta.
    destruct (closing_condition (close c) (entry_price p)
                (py_max (highest_price p) (close c))) as [reason|] eqn:Hcc;
      one_more_candle st k Hm He Hcurve Hpos.
    + apply Forall_app. split.
      { apply (ledger_closed_mono (80 + k)); [lia|exact Hclosed]. }
      constructor; [|constructor].
      exists i0, (80 + k)%nat, reason. split; [|split; [|split]].
      * exists ci, c.
        cbn [close_trade date close_date close_price t_close_reason].
        repeat split; try assumption; reflexivity.
      * exact (closing_condition_not_end _ _ _ _ Hcc).
      * lia.
      * lia.
    + exists ts, t. split; [exact Hts|]. split.
      { apply (ledger_closed_mono (80 + k)); [lia|exact Hclosed]. }
      exists i0, ci. cbn [with_highest entry_date].
      repeat split; try assumption; lia.
  - (* no position: the entry signal is consulted *)
    destruct (check_entry_signal_total sqrt (firstn (S (80 + k)) ohlcv_data))
      as [[|] Hsig].
    + rewrite (step_flat_entry sqrt ohlcv_data (80 + k) c st Hc Hpos Hsig).
      one_more_candle st k Hm He Hcurve Hpos.
      eexists _, _. split; [reflexivity|]. split.
      { apply (ledger_closed_mono (80 + k)); [lia|exact Hl]. }
      exists (80 + k)%nat, c.
      cbn [new_trade new_position date entry_date close_date t_close_reason].
      repeat split; try assumption; try reflexivity; lia.
    + rewrite (step_flat_idle sqrt ohlcv_data (80 + k) c st Hc Hpos Hsig).
      one_more_candle st k Hm He Hcurve Hpos.
      apply (ledger_closed_mono (80 + k)); [lia|exact Hl].
Qed.

(** The loop never raises, and the invariant holds after every iteration. *)
Lemma loop_upto_invariant (capital : Q) (k : nat) :
  (k <= length ohlcv_data - 80)%nat ->
  exists st : sim,
    loop_upto sqrt ohlcv_data k capital = Ok st /\ invariant ohlcv_data k st.
Proof.
  induction k as [|k IH]; intros Hk.
  - exists (initial capital). split; [reflexivity|apply invariant_initial].
  - destruct IH as (st & Hloop & Hinv); [lia|].
    destruct (invariant_step k st Hinv) as (st' & Hstep & Hinv'); [lia|].
    exists st'. split; [|exact Hinv'].
    rewrite loop_upto_S, Hloop. exact Hstep.
Qed.

Lemma closed_by_rule_not_open (n : nat) (t : trade) :
  closed_by_rule ohlcv_data n t -> is_open t = false.
Proof.
  intros (i & j & reason & (ci & cj & _ & _ & _ & Hcd & _) & _).
  unfold is_open. rewrite Hcd. reflexivity.
Qed.

Lemma open_trades_closed (n : nat) (ts : list trade) :
  Forall (closed_by_rule ohlcv_data n) ts -> open_trades ts = [].
Proof.
  unfold open_trades. induction 1 as [|t ts Ht _ IH]; [reflexivity|].
  simpl. rewrite (closed_by_rule_not_open n t Ht). exact IH.
Qed.

Lemma open_trades_app (ts us : list trade) :
  open_trades (ts ++ us) = open_trades ts ++ open_trades us.
Proof. unfold open_trades. apply List.filter_app. Qed.

(** The ledger holds one open trade when a position is held, none
    otherwise. *)
Lemma open_trades_of_ledger (n : nat) (st : sim) :
  ledger_matches ohlcv_data n st ->
  length (open_trades (trades st))
    = match pos st with Some _ => 1%nat | None => 0%nat end.
Proof.
  unfold ledger_matches. destruct (pos st) as [p|].
  - intros (ts & t & -> & Hclosed & (i & ci & _ & _ & _ & _ & _ & Hcd & _)).
    rewrite open_trades_app, (open_trades_closed _ _ Hclosed).
    unfold open_trades, is_open. simpl. rewrite Hcd. reflexivity.
  - intros H. rewrite (open_trades_closed _ _ H). reflexivity.
Qed.

Lemma closed_by_rule_settled (n : nat) (t : trade) :
  closed_by_rule ohlcv_data n t -> settled ohlcv_data t.
Proof.
  intros (i & j & reason & He & Hr & Hij & _).
  exists i, j, reason. split; [exact He|]. left. split; assumption.
Qed.

Lemma settled_not_open (t : trade) : settled ohlcv_data t -> is_open t = false.
Proof.
  intros (i & j & reason & (ci & cj & _ & _ & _ & Hcd & _) & _).
  unfold is_open. rewrite Hcd. reflexivity.
Qed.

Lemma snoc_of_nonempty {A : Type} (l : list A) :
  (0 < length l)%nat -> exists (l' : list A) (x : A), l = l' ++ [x].
Proof.
  intros H. destruct (last_is_Some l H) as [x Hx].
  apply last_Some in Hx. destruct Hx as [l' ->]. eauto.
Qed.

(** What the forced close does to a state the loop has left. *)
Lemma close_at_end_settles (st : sim) :
  invariant ohlcv_data (length ohlcv_data - 80) st ->
  exists fin : sim,
    close_at_end ohlcv_data st = Ok fin /\
    Forall (settled ohlcv_data) (trades fin) /\
    trace fin = trace st /\
    length (equity_curve fin) = length (equity_curve st) /\
    (forall p : position, pos st = Some p ->
       exists (ts : list trade) (t0 t : trade) (last_candle : candle),
         trades st = ts ++ [t0] /\ trades fin = ts ++ [t] /\
         last ohlcv_data = Some last_candle /\
         date t = date t0 /\
         t_close_reason t = Some EndOfData /\
         close_price t = Some (close last_candle) /\
         close_date t = Some (name last_candle) /\
         pnl t = pnl_at p (close last_candle)).
Proof.
  intros [Hm He Hcurve Hl]. unfold ledger_matches in Hl.
  destruct (pos st) as [p|] eqn:Hpos.
  - destruct Hl as (ts & t0 & Hts & Hclosed & Hopen).
    destruct Hopen as (i0 & ci & Hci & H80 & Hi & Hdate & Hed & Hcd & Hcr).
    pose proof (lookup_lt_Some _ _ _ Hci) as Hlen.
    destruct (last_is_Some ohlcv_data) as [lc Hlast]; [lia|].
    destruct (snoc_of_nonempty (equity_curve st)) as (es & e & Hes); [lia|].
    rewrite (close_at_end_held ohlcv_data lc st p ts t0 es e
               Hlast Hpos Hts Hes).
    eexists. split; [reflexivity|]. cbn [trades trace equity_curve].
    split; [|split; [reflexivity|split]].
    + apply Forall_app. split.
      * revert Hclosed. apply List.Forall_impl.
        intros t. apply closed_by_rule_settled.
      * constructor; [|constructor].
        exists i0, (pred (length ohlcv_data)), EndOfData. split.
        { exists ci, lc. rewrite last_lookup in Hlast.
          cbn [close_trade date close_date close_price t_close_reason].
          repeat split; try assumption; reflexivity. }
        right. repeat split; lia.
    + rewrite Hes, !length_app. reflexivity.
    + intros p' Hp'. injection Hp' as <-.
      eexists ts, t0, _, lc. split; [exact Hts|]. split; [reflexivity|].
      repeat split; try assumption; reflexivity.
  - exists st. unfold close_at_end. rewrite Hpos.
    split; [reflexivity|]. split.
    + revert Hl. apply List.Forall_impl.
      intros t. apply closed_by_rule_settled.
    + split; [reflexivity|]. split; [reflexivity|].
      intros p Hp. discriminate Hp.
Qed.

Lemma open_trades_settled (ts : list trade) :
  Forall (settled ohlcv_data) ts -> open_trades ts = [].
Proof.
  unfold open_trades. induction 1 as [|t ts Ht _ IH]; [reflexivity|].
  simpl. rewrite (settled_not_open t Ht). exact IH.
Qed.

(** *** What an accepted trace tells *)

Lemma machine_index_lower (ph ph' : phase) (n : nat) (tr : list event)
    (e : event) :
  run_machine ph n tr = Some ph' -> In e tr -> (n <= event_index e)%nat.
Proof.
  revert ph n. induction tr as [|e0 tr IH]; intros ph n Hrun Hin;
    [destruct Hin|].
  simpl in Hrun.
  destruct (Nat.eqb_spec (event_index e0) n) as [Heq|]; [|discriminate Hrun].
  destruct (transition ph e0) as [ph1|]; [|discriminate Hrun].
  destruct Hin as [<-|Hin]; [lia|].
  specialize (IH ph1 (S n) Hrun Hin). lia.
Qed.

(** One event per candle: two events with the same index are the same. *)
Lemma machine_index_unique (ph ph' : phase) (n : nat) (tr : list event)
    (e1 e2 : event) :
  run_machine ph n tr = Some ph' -> In e1 tr -> In e2 tr ->
  event_index e1 = event_index e2 -> e1 = e2.
Proof.
  revert ph n. induction tr as [|e0 tr IH]; intros ph n Hrun H1 H2 Heq;
    [destruct H1|].
  simpl in Hrun.
  destruct (Nat.eqb_spec (event_index e0) n) as [H0|]; [|discriminate Hrun].
  destruct (transition ph e0) as [ph1|]; [|discriminate Hrun].
  destruct H1 as [<-|H1], H2 as [<-|H2].
  - reflexivity.
  - pose proof (machine_index_lower _ _ _ _ _ Hrun H2). lia.
  - pose proof (machine_index_lower _ _ _ _ _ Hrun H1). lia.
  - exact (IH ph1 (S n) Hrun H1 H2 Heq).
Qed.

(** The event that follows an entry on candle [i] is the first evaluation
    of the closing conditions, on candle [i + 1]. *)
Lemma machine_after_entry (ph ph' : phase) (n i : nat)
    (tr1 tr2 : list event) (e : event) :
  run_machine ph n (tr1 ++ SignalConsulted i true :: e :: tr2) = Some ph' ->
  exists verdict : option close_reason, e = ExitEvaluated (S i) verdict.
Proof.
  revert ph n. induction tr1 as [|e0 tr1 IH]; intros ph n Hrun.
  - simpl in Hrun.
    destruct (Nat.eqb_spec i n) as [->|]; [|discriminate Hrun].
    destruct ph; simpl in Hrun; [|discriminate Hrun].
    destruct (Nat.eqb_spec (event_index e) (S n)) as [He|];
      [|discriminate Hrun].
    destruct e as [j b|j verdict]; simpl in Hrun; [discriminate Hrun|].
    simpl in He. subst j. eauto.
  - simpl in Hrun.
    destruct (event_index e0 =? n)%nat; [|discriminate Hrun].
    destruct (transition ph e0) as [ph1|]; [|discriminate Hrun].
    exact (IH ph1 (S n) Hrun).
Qed.

(** *** Timestamps *)

Lemma names_increase (l : DataFrame) (i j : nat) (a b : candle) :
  StronglySorted Z.lt (map name l) ->
  l !! i = Some a -> l !! j = Some b -> (i < j)%nat -> (name a < name b)%Z.
Proof.
  revert i j. induction l as [|x l IH]; intros i j Hs Ha Hb Hij;
    [discriminate Ha|].
  simpl in Hs. apply StronglySorted_inv in Hs. destruct Hs as [Hs Hx].
  destruct j as [|j]; [lia|]. simpl in Hb.
  destruct i as [|i].
  - simpl in Ha. injection Ha as <-.
    rewrite List.Forall_forall in Hx. apply Hx.
    apply in_map. apply list_elem_of_In. apply list_elem_of_lookup. eauto.
  - simpl in Ha. apply (IH i j); try assumption. lia.
Qed.

Lemma names_injective (l : DataFrame) (i j : nat) (a b : candle) :
  StronglySorted Z.lt (map name l) ->
  l !! i = Some a -> l !! j = Some b -> name a = name b -> i = j.
Proof.
  intros Hs Ha Hb Hab.
  destruct (Nat.lt_trichotomy i j) as [H|[H|H]]; [|exact H|].
  - pose proof (names_increase l i j a b Hs Ha Hb H). lia.
  - pose proof (names_increase l j i b a Hs Hb Ha H). lia.
Qed.

End RunFacts.

(** ** The single position and the entry candle *)

Section RunClaims.
Import Pandas Strategy Backtest Spec Samples.

Lemma simulate_settles (sqrt : Q -> Q) (ohlcv_data : DataFrame) (capital : Q) :
  exists st fin : sim,
    loop sqrt ohlcv_data capital = Ok st /\
    invariant ohlcv_data (length ohlcv_data - 80) st /\
    close_at_end ohlcv_data st = Ok fin /\
    simulate sqrt ohlcv_data capital = Ok fin /\
    Forall (settled ohlcv_data) (trades fin) /\
    trace fin = trace st.
Proof.
  destruct (loop_upto_invariant sqrt ohlcv_data capital
              (length ohlcv_data - 80)) as (st & Hloop & Hinv); [lia|].
  destruct (close_at_end_settles ohlcv_data st Hinv)
    as (fin & Hend & Hsettled & Htrace & _).
  exists st, fin. unfold simulate, loop. rewrite Hloop.
  cbn [mbind result_bind].
  split; [reflexivity|]. split; [exact Hinv|]. split; [exact Hend|].
  split; [exact Hend|]. split; [exact Hsettled|exact Htrace].
Qed.

(** C9.  After any number [k] of candles of a run the loop has not failed
    and the ledger holds exactly one open trade when a position is held and
    none otherwise, so at most one; the trace of the run is accepted by the
    two-state machine: the entry signal is consulted on FLAT candles only,
    and a position is opened from FLAT only.  On the next candle of an OPEN
    state the closing conditions are evaluated, the signal is not consulted
    and the ledger gets no new trade.  When the data ends, the simulation
    returns a ledger without open trade: a position still held is closed at
    the close of the final candle, with reason end_of_data. *)
Theorem one_position_at_a_time
    (sqrt : Q -> Q) (ohlcv_data : DataFrame) (capital : Q) (k : nat) :
  (k <= length ohlcv_data - 80)%nat ->
  exists st : sim,
    loop_upto sqrt ohlcv_data k capital = Ok st /\
    length (open_trades (trades st))
      = match pos st with Some _ => 1%nat | None => 0%nat end /\
    (length (open_trades (trades st)) <= 1)%nat /\
    run_machine FLAT 80 (trace st) = Some (phase_of st) /\
    (forall p : position,
       pos st = Some p -> (80 + k < length ohlcv_data)%nat ->
       exists (st' : sim) (verdict : option close_reason),
         step sqrt ohlcv_data (80 + k) st = Ok st' /\
         trace st' = trace st ++ [ExitEvaluated (80 + k) verdict] /\
         length (trades st') = length (trades st)) /\
    (k = (length ohlcv_data - 80)%nat ->
       exists fin : sim,
         simulate sqrt ohlcv_data capital = Ok fin /\
         open_trades (trades fin) = [] /\
         forall p : position,
           pos st = Some p ->
           exists (ts : list trade) (t : trade) (last_candle : candle),
             trades fin = ts ++ [t] /\
             last ohlcv_data = Some last_candle /\
             t_close_reason t = Some EndOfData /\
             close_price t = Some (close last_candle) /\
             close_date t = Some (name last_candle)).
Proof.
  intros Hk.
  destruct (loop_upto_invariant sqrt ohlcv_data capital k Hk)
    as (st & Hloop & Hinv).
  pose proof (open_trades_of_ledger ohlcv_data _ st
                (inv_ledger _ _ _ Hinv)) as Hopen.
  exists st. split; [exact Hloop|]. split; [exact Hopen|].
  split; [rewrite Hopen; destruct (pos st); lia|].
  split; [exact (inv_machine _ _ _ Hinv)|]. split.
  - intros p Hpos Hlt.
    destruct (lookup_lt_is_Some_2 ohlcv_data (80 + k) Hlt) as [c Hc].
    pose proof (inv_ledger _ _ _ Hinv) as Hl. unfold ledger_matches in Hl.
    rewrite Hpos in Hl. destruct Hl as (ts & t & Hts & _).
    rewrite (step_held sqrt ohlcv_data (80 + k) c st p ts t Hc Hpos Hts).
    cbv zeta.
    destruct (closing_condition (close c) (entry_price p)
                (py_max (highest_price p) (close c))) as [reason|];
      eexists _, _; (split; [reflexivity|]); cbn [trace trades];
      (split; [reflexivity|]); rewrite ?Hts, ?length_app; reflexivity.
  - intros ->.
    destruct (close_at_end_settles ohlcv_data st Hinv)
      as (fin & Hend & Hsettled & _ & _ & Hforced).
    exists fin. split.
    { unfold simulate, loop. rewrite Hloop. exact Hend. }
    split; [exact (open_trades_settled ohlcv_data _ Hsettled)|].
    intros p Hpos.
    destruct (Hforced p Hpos)
      as (ts & t0 & t & lc & _ & Hfin & Hlast & _ & Hr & Hcp & Hcd & _).
    exists ts, t, lc. repeat split; assumption.
Qed.

Lemma one_position_at_a_time_witness :
  (5 <= length breakout_series - 80)%nat /\
  exists st : sim,
    loop_upto sqrt6 breakout_series 5 10000 = Ok st /\
    (length (open_trades (trades st)) <= 1)%nat /\
    run_machine FLAT 80 (trace st) = Some (phase_of st).
Proof.
  split; [vm_compute; lia|].
  destruct (one_position_at_a_time sqrt6 breakout_series 10000 5)
    as (st & Hloop & _ & Hone & Hm & _).
  - vm_compute. lia.
  - exists st. repeat split; assumption.
Defined.

(** C10.  Every run returns, and in the ledger it returns each trade closed
    by stop_loss, take_profit or trailing_stop was closed on a candle
    strictly after its entry candle, while a trade closed by end_of_data was
    closed on the last candle, at or after its entry candle.  On the candle
    of an entry the closing conditions are not evaluated; the event that
    follows an entry on candle [i] is their first evaluation, on candle
    [i + 1].  With strictly increasing timestamps, a trade entered and
    closed on the same candle was closed by end_of_data, and its close
    timestamp is its entry timestamp. *)
Theorem exits_begin_after_the_entry_candle
    (sqrt : Q -> Q) (ohlcv_data : DataFrame) (capital : Q) :
  exists fin : sim,
    simulate sqrt ohlcv_data capital = Ok fin /\
    Forall (settled ohlcv_data) (trades fin) /\
    (forall (i : nat) (verdict : option close_reason),
       In (SignalConsulted i true) (trace fin) ->
       ~ In (ExitEvaluated i verdict) (trace fin)) /\
    (forall (tr1 tr2 : list event) (i : nat) (e : event),
       trace fin = tr1 ++ SignalConsulted i true :: e :: tr2 ->
       exists verdict : option close_reason, e = ExitEvaluated (S i) verdict) /\
    (StronglySorted Z.lt (map name ohlcv_data) ->
     forall (t : trade) (i : nat) (reason : close_reason),
       In t (trades fin) -> entered_closed ohlcv_data t i i reason ->
       reason = EndOfData /\ close_date t = Some (date t)).
Proof.
  destruct (simulate_settles sqrt ohlcv_data capital)
    as (st & fin & _ & Hinv & _ & Hsim & Hsettled & Htrace).
  pose proof (inv_machine _ _ _ Hinv) as Hm. rewrite <- Htrace in Hm.
  exists fin. split; [exact Hsim|]. split; [exact Hsettled|].
  split; [|split].
  - intros i verdict Hentry Hexit.
    pose proof (machine_index_unique _ _ _ _ _ _ Hm Hentry Hexit eq_refl) as E.
    discriminate E.
  - intros tr1 tr2 i e Heq. rewrite Heq in Hm.
    exact (machine_after_entry _ _ _ _ _ _ _ Hm).
  - intros Hsorted t i reason Hin (ci & cj & Hci & Hcj & Hd & Hcd & _ & Hr).
    rewrite Hci in Hcj. injection Hcj as <-.
    split; [|rewrite Hcd, Hd; reflexivity].
    rewrite List.Forall_forall in Hsettled.
    destruct (Hsettled t Hin)
      as (i' & j' & reason' & (ci' & cj' & Hci' & Hcj' & Hd' & Hcd' & _ & Hr')
          & Hcase).
    rewrite Hr in Hr'. injection Hr' as <-.
    destruct Hcase as [[_ Hlt]|[Heod _]]; [|exact Heod].
    exfalso.
    assert (Hi : i' = i).
    { apply (names_injective ohlcv_data i' i ci' ci Hsorted Hci' Hci).
      congruence. }
    assert (Hj : j' = i).
    { apply (names_injective ohlcv_data j' i cj' ci Hsorted Hcj' Hci).
      congruence. }
    lia.
Qed.

(** The run over [breakout_series]: an entry on candle 80, a trailing stop
    on candle 82, and an entry on the last candle, 84, closed there by the
    end of the data. *)
Example breakout_run :
  exists fin : sim,
    simulate sqrt6 breakout_series 10000 = Ok fin /\
    trace fin = [ SignalConsulted 80 true; ExitEvaluated 81 None;
                  ExitEvaluated 82 (Some TrailingStop);
                  SignalConsulted 83 false; SignalConsulted 84 true ] /\
    map (fun t => (date t, close_date t, t_close_reason t)) (trades fin)
      = [ (80%Z, Some 82%Z, Some TrailingStop);
          (84%Z, Some 84%Z, Some EndOfData) ] /\
    length (equity_curve fin) = 5%nat.
Proof.
  destruct (simulate sqrt6 breakout_series 10000) as [fin|e] eqn:Hsim;
    vm_compute in Hsim; [|discriminate Hsim].
  injection Hsim as <-. eexists. split; [reflexivity|].
  repeat split; reflexivity.
Qed.

End RunClaims.

(* ===================================================================== *)
(** * Part III. More of the code                                          *)
(* ===================================================================== *)

(** ** The books of a run *)

Section BooksFacts.
Import Pandas Strategy Backtest Spec Books.
Variable sqrt : Q -> Q.
Variable ohlcv_data : DataFrame.
Variable initial_capital : Q.

Lemma py_sum_snoc (l : list Q) (x : Q) : py_sum (l ++ [x]) = py_sum l + x.
Proof. unfold py_sum. rewrite fold_left_app. reflexivity. Qed.

Lemma pnl_sum_snoc (ts : list trade) (t : trade) :
  py_sum (map pnl (ts ++ [t])) = py_sum (map pnl ts) + pnl t.
Proof. rewrite map_app. apply py_sum_snoc. Qed.

Lemma py_max_ge_l (a b : Q) : a <= py_max a b.
Proof.
  unfold py_max. destruct (Qltb a b) eqn:E.
  - apply Qltb_lt in E. apply Qlt_le_weak. exact E.
  - apply Qle_refl.
Qed.

Lemma py_max_ge_r (a b : Q) : b <= py_max a b.
Proof.
  unfold py_max. destruct (Qltb a b) eqn:E.
  - apply Qle_refl.
  - apply Qltb_ge in E. exact E.
Qed.

Lemma processed_candles_S (k : nat) (c : candle) :
  ohlcv_data !! (80 + k)%nat = Some c ->
  firstn (S k) (skipn 80 ohlcv_data) = firstn k (skipn 80 ohlcv_data) ++ [c].
Proof.
  intros Hc. apply take_S_r. rewrite lookup_drop. exact Hc.
Qed.

(** Closing a trade keeps the terms written on entry. *)
Lemma entry_terms_close_trade (x : Q) (when : Z) (cp : Q)
    (reason : close_reason) (p : position) (t : trade) :
  entry_terms ohlcv_data t ->
  entry_terms ohlcv_data (close_trade x when cp reason p t).
Proof.
  intros (i & ci & H80 & Hci & Hd & Hp & Hs & Ht & Hdir).
  exists i, ci. cbn. repeat split; assumption.
Qed.

(** Replacing the last trade by one of the same size keeps the sizing. *)
Lemma sized_replace_last (ts : list trade) (t t' : trade) :
  t_size t' = t_size t ->
  sized_from_capital initial_capital (ts ++ [t]) ->
  sized_from_capital initial_capital (ts ++ [t']).
Proof.
  intros Hsize H n u Hu.
  destruct (Nat.lt_trichotomy n (length ts)) as [Hn|[Hn|Hn]].
  - rewrite lookup_app_l in Hu by exact Hn.
    rewrite take_app_le by lia.
    specialize (H n u). rewrite lookup_app_l in H by exact Hn.
    rewrite take_app_le in H by lia. exact (H Hu).
  - subst n. rewrite list_lookup_middle in Hu by reflexivity.
    injection Hu as <-. rewrite Hsize.
    rewrite take_app_length.
    specialize (H (length ts) t).
    rewrite list_lookup_middle in H by reflexivity.
    rewrite take_app_length in H. exact (H eq_refl).
  - rewrite lookup_ge_None_2 in Hu; [discriminate Hu|].
    rewrite length_app. simpl. lia.
Qed.

(** Appending a trade sized at 30% of the capital keeps the sizing. *)
Lemma sized_append (ts : list trade) (t : trade) :
  t_size t == (initial_capital + py_sum (map pnl ts)) * 0.3 ->
  sized_from_capital initial_capital ts ->
  sized_from_capital initial_capital (ts ++ [t]).
Proof.
  intros Hsize H n u Hu.
  destruct (Nat.lt_trichotomy n (length ts)) as [Hn|[Hn|Hn]].
  - rewrite lookup_app_l in Hu by exact Hn.
    rewrite take_app_le by lia. exact (H n u Hu).
  - subst n. rewrite list_lookup_middle in Hu by reflexivity.
    injection Hu as <-. rewrite take_app_length. exact Hsize.
  - rewrite lookup_ge_None_2 in Hu; [discriminate Hu|].
    rewrite length_app. simpl. lia.
Qed.

Lemma books_initial : books ohlcv_data initial_capital 0 (initial initial_capital).
Proof.
  split; cbn.
  - unfold py_sum. simpl. lra.
  - reflexivity.
  - exact I.
  - constructor.
  - constructor.
  - intros n t Hn. rewrite lookup_nil in Hn. discriminate Hn.
  - intros p Hp. discriminate Hp.
Qed.

(** Every iteration keeps the books. *)
Lemma books_step (k : nat) (st : sim) :
  books ohlcv_data initial_capital k st ->
  (80 + k < length ohlcv_data)%nat ->
  exists st' : sim,
    step sqrt ohlcv_data (80 + k) st = Ok st' /\
    books ohlcv_data initial_capital (S k) st'.
Proof.
  intros [Hcap Hdates Hcurve Hterms Hpnl Hsized Hpos] Hlt.
  destruct (lookup_lt_is_Some_2 ohlcv_data (80 + k) Hlt) as [c Hc].
  destruct (pos st) as [p|] eqn:Hp.
  - destruct (Hpos p Hp)
      as (ts & t & Hts & Hprice & Hsize & Hzero & Hopen & Hhigh & Hshare).
    rewrite (step_held sqrt ohlcv_data (80 + k) c st p ts t Hc Hp Hts).
    cbv zeta. rewrite Hts in Hcap, Hterms, Hpnl, Hsized.
    apply Forall_app in Hterms. destruct Hterms as [Hterms Hterm].
    apply Forall_app in Hpnl. destruct Hpnl as [Hpnl _].
    rewrite pnl_sum_snoc, Hzero in Hcap.
    destruct (closing_condition (close c) (entry_price p)
                (py_max (highest_price p) (close c))) as [reason|].
    + eexists. split; [reflexivity|]. split; cbn [trades current_capital
        equity_curve pos].
      * rewrite pnl_sum_snoc. cbn [close_trade pnl]. lra.
      * rewrite map_app, Hdates, (processed_candles_S k c Hc), map_app.
        reflexivity.
      * unfold curve_ends_on_capital. cbn [equity_curve current_capital].
        rewrite last_snoc. reflexivity.
      * apply Forall_app. split; [exact Hterms|].
        constructor; [|constructor].
        apply entry_terms_close_trade.
        inversion Hterm; assumption.
      * apply Forall_app. split; [exact Hpnl|].
        constructor; [|constructor].
        unfold pnl_recorded, pnl_at.
        cbn [close_trade close_price pnl price t_size with_highest
             entry_price pos_size].
        rewrite Hprice, Hsize. reflexivity.
      * apply (sized_replace_last ts t); [reflexivity|exact Hsized].
      * intros p' Hp'. discriminate Hp'.
    + eexists. split; [reflexivity|]. split; cbn [trades current_capital
        equity_curve pos].
      * rewrite Hts, pnl_sum_snoc, Hzero. exact Hcap.
      * rewrite map_app, Hdates, (processed_candles_S k c Hc), map_app.
        reflexivity.
      * unfold curve_ends_on_capital. cbn [equity_curve current_capital].
        rewrite last_snoc. reflexivity.
      * rewrite Hts. apply Forall_app. split; assumption.
      * rewrite Hts. apply Forall_app. split; [exact Hpnl|].
        constructor; [|constructor].
        unfold pnl_recorded. rewrite Hopen. exact Hzero.
      * rewrite Hts. exact Hsized.
      * intros p' Hp'. injection Hp' as <-.
        exists ts, t. cbn [with_highest entry_price pos_size highest_price
                            trades current_capital].
        repeat split; try assumption.
        apply (Qle_trans _ (highest_price p)); [exact Hhigh|].
        apply py_max_ge_l.
  - destruct (check_entry_signal_total sqrt (firstn (S (80 + k)) ohlcv_data))
      as [[|] Hsig].
    + rewrite (step_flat_entry sqrt ohlcv_data (80 + k) c st Hc Hp Hsig).
      eexists. split; [reflexivity|]. split; cbn [trades current_capital
        equity_curve pos].
      * rewrite pnl_sum_snoc. cbn [new_trade pnl]. lra.
      * rewrite map_app, Hdates, (processed_candles_S k c Hc), map_app.
        reflexivity.
      * unfold curve_ends_on_capital. cbn [equity_curve current_capital].
        rewrite last_snoc. reflexivity.
      * apply Forall_app. split; [exact Hterms|].
        constructor; [|constructor].
        exists (80 + k)%nat, c. cbn. repeat split; try assumption; lia.
      * apply Forall_app. split; [exact Hpnl|].
        constructor; [|constructor]. reflexivity.
      * apply sized_append; [|exact Hsized].
        cbn [new_trade t_size]. unfold Bollinger.get_position_size_ratio.
        rewrite Hcap. reflexivity.
      * intros p' Hp'. injection Hp' as <-.
        eexists _, _. split; [reflexivity|].
        cbn [new_trade new_position price t_size pnl close_price entry_price
             pos_size highest_price current_capital].
        unfold Bollinger.get_position_size_ratio.
        repeat split; try reflexivity. apply Qle_refl.
    + rewrite (step_flat_idle sqrt ohlcv_data (80 + k) c st Hc Hp Hsig).
      eexists. split; [reflexivity|]. split; cbn [trades current_capital
        equity_curve pos]; try assumption.
      * rewrite map_app, Hdates, (processed_candles_S k c Hc), map_app.
        reflexivity.
      * unfold curve_ends_on_capital. cbn [equity_curve current_capital].
        rewrite last_snoc. reflexivity.
      * intros p' Hp'. discriminate Hp'.
Qed.

Lemma loop_upto_books (k : nat) :
  (k <= length ohlcv_data - 80)%nat ->
  exists st : sim,
    loop_upto sqrt ohlcv_data k initial_capital = Ok st /\
    books ohlcv_data initial_capital k st.
Proof.
  induction k as [|k IH]; intros Hk.
  - exists (initial initial_capital). split; [reflexivity|apply books_initial].
  - destruct IH as (st & Hloop & Hb); [lia|].
    destruct (books_step k st Hb) as (st' & Hstep & Hb'); [lia|].
    exists st'. split; [|exact Hb'].
    rewrite loop_upto_S, Hloop. exact Hstep.
Qed.

Lemma settled_has_close_price (t : trade) :
  settled ohlcv_data t -> exists cp : Q, close_price t = Some cp.
Proof.
  intros (i & j & reason & (ci & cj & _ & _ & _ & _ & Hcp & _) & _). eauto.
Qed.

Lemma pnl_closed_of_recorded (ts : list trade) :
  Forall (settled ohlcv_data) ts -> Forall pnl_recorded ts ->
  Forall pnl_closed ts.
Proof.
  intros Hs Hr. induction ts as [|t ts IH]; [constructor|].
  inversion Hs as [|? ? Ht Hts]; subst. inversion Hr as [|? ? Hrt Hrts]; subst.
  constructor; [|exact (IH Hts Hrts)].
  destruct (settled_has_close_price t Ht) as [cp Hcp].
  exists cp. split; [exact Hcp|]. unfold pnl_recorded in Hrt.
  rewrite Hcp in Hrt. exact Hrt.
Qed.

(** The books of the state [simulate] returns. *)
Lemma simulate_books :
  exists fin : sim,
    simulate sqrt ohlcv_data initial_capital = Ok fin /\
    final_books ohlcv_data initial_capital fin.
Proof.
  destruct (loop_upto_books (length ohlcv_data - 80)) as (st & Hloop & Hb);
    [lia|].
  destruct (simulate_settles sqrt ohlcv_data initial_capital)
    as (st0 & fin & Hloop0 & _ & Hend & Hsim & Hsettled & _).
  unfold loop in Hloop0. rewrite Hloop in Hloop0. injection Hloop0 as <-.
  exists fin. split; [exact Hsim|].
  destruct Hb as [Hcap Hdates Hcurve Hterms Hpnl Hsized Hpos].
  destruct (pos st) as [p|] eqn:Hp.
  - destruct (Hpos p Hp)
      as (ts & t & Hts & Hprice & Hsize & Hzero & Hopen & Hhigh & Hshare).
    rewrite Hts in Hcap, Hterms, Hpnl, Hsized.
    apply Forall_app in Hterms. destruct Hterms as [Hterms Hterm].
    apply Forall_app in Hpnl. destruct Hpnl as [Hpnl _].
    rewrite pnl_sum_snoc, Hzero in Hcap.
    assert (Hlen : (80 < length ohlcv_data)%nat).
    { inversion Hterm as [|? ? (i & ci & H80 & Hci & _) _]; subst.
      pose proof (lookup_lt_Some _ _ _ Hci). lia. }
    destruct (last_is_Some ohlcv_data) as [lc Hlast]; [lia|].
    destruct (snoc_of_nonempty (equity_curve st)) as (es & e & Hes).
    { rewrite <- (length_map e_date), Hdates, length_map, length_take,
        length_drop. lia. }
    rewrite (close_at_end_held ohlcv_data lc st p ts t es e
               Hlast Hp Hts Hes) in Hend.
    injection Hend as <-.
    assert (Hall : firstn (length ohlcv_data - 80) (skipn 80 ohlcv_data)
                   = skipn 80 ohlcv_data).
    { apply firstn_all2. rewrite length_drop. lia. }
    split; cbn [trades current_capital equity_curve].
    + rewrite pnl_sum_snoc. cbn [close_trade pnl]. lra.
    + rewrite <- Hall, <- Hdates, Hes, !map_app. reflexivity.
    + unfold curve_ends_on_capital. cbn [equity_curve current_capital].
      rewrite last_snoc. reflexivity.
    + apply Forall_app. split; [exact Hterms|].
      constructor; [|constructor]. apply entry_terms_close_trade.
      inversion Hterm; assumption.
    + apply pnl_closed_of_recorded; [exact Hsettled|].
      apply Forall_app. split; [exact Hpnl|].
      constructor; [|constructor].
      unfold pnl_recorded, pnl_at.
      cbn [close_trade close_price pnl price t_size].
      rewrite Hprice, Hsize. reflexivity.
    + apply (sized_replace_last ts t); [reflexivity|exact Hsized].
  - unfold close_at_end in Hend. rewrite Hp in Hend. injection Hend as <-.
    assert (Hall : firstn (length ohlcv_data - 80) (skipn 80 ohlcv_data)
                   = skipn 80 ohlcv_data).
    { apply firstn_all2. rewrite length_drop. lia. }
    split; try assumption.
    + rewrite <- Hall. exact Hdates.
    + apply pnl_closed_of_recorded; assumption.
Qed.

End BooksFacts.

(** ** Solvency of a run *)

Section Solvency.
Import Pandas Strategy Backtest Spec Books.
Variable sqrt : Q -> Q.
Variable ohlcv_data : DataFrame.
Variable initial_capital : Q.
Hypothesis positive_closes : Forall (fun c => 0 < close c) ohlcv_data.
Hypothesis positive_capital : 0 < initial_capital.

Lemma close_positive (i : nat) (c : candle) :
  ohlcv_data !! i = Some c -> 0 < close c.
Proof.
  intros H. rewrite List.Forall_forall in positive_closes.
  apply positive_closes. apply list_elem_of_In.
  apply list_elem_of_lookup. eauto.
Qed.

(** What a verdict of the closing conditions says about the price. *)
Lemma closing_condition_inv (cl e hp : Q) (reason : close_reason) :
  closing_condition cl e hp = Some reason ->
  match reason with
  | StopLoss => cl <= e * 0.97
  | TakeProfit => e * 0.97 < cl /\ e * 3 <= cl
  | TrailingStop =>
      e * 0.97 < cl /\ cl < e * 3 /\ cl <= hp * 0.985 /\ e * 1.02 < hp
  | EndOfData => False
  end.
Proof.
  unfold closing_condition. cbn [Bollinger.set_trailing_stop stop_loss
                                 max_profit_target].
  destruct (Qleb cl (e * 0.97)) eqn:E1;
    [apply Qleb_le in E1 | apply Qleb_gt in E1].
  { intros H. injection H as <-. exact E1. }
  destruct (Qleb (e * 3.00) cl) eqn:E2;
    [apply Qleb_le in E2 | apply Qleb_gt in E2].
  { intros H. injection H as <-. split; [exact E1|]. lra. }
  destruct (Qleb cl (hp * 0.985)) eqn:E3; cbn [andb];
    [apply Qleb_le in E3 | intros H; discriminate H].
  destruct (Qltb (e * 1.02) hp) eqn:E4;
    [apply Qltb_lt in E4 | intros H; discriminate H].
  intros H. injection H as <-. repeat split; try assumption. lra.
Qed.

Lemma return_le (e sz cl m : Q) :
  0 < e -> 0 < sz -> cl - e <= m * e -> (cl - e) * sz / e <= m * sz.
Proof. intros He Hs H. apply Qle_shift_div_r; [exact He|]. nra. Qed.

Lemma return_lt (e sz cl m : Q) :
  0 < e -> 0 < sz -> cl - e < m * e -> (cl - e) * sz / e < m * sz.
Proof. intros He Hs H. apply Qlt_shift_div_r; [exact He|]. nra. Qed.

Lemma return_ge (e sz cl m : Q) :
  0 < e -> 0 < sz -> m * e <= cl - e -> m * sz <= (cl - e) * sz / e.
Proof. intros He Hs H. apply Qle_shift_div_l; [exact He|]. nra. Qed.

Lemma return_gt (e sz cl m : Q) :
  0 < e -> 0 < sz -> m * e < cl - e -> m * sz < (cl - e) * sz / e.
Proof. intros He Hs H. apply Qlt_shift_div_l; [exact He|]. nra. Qed.

(** The bounds on the pnl of a position closed at a positive price. *)
Lemma close_trade_bounded (p : position) (t : trade) (when : Z) (cl hp : Q)
    (reason : close_reason) :
  price t = entry_price p -> t_size t = pos_size p ->
  0 < entry_price p -> 0 < pos_size p -> 0 < cl ->
  (reason = EndOfData \/
   closing_condition cl (entry_price p) hp = Some reason) ->
  pnl_bounded (close_trade (pnl_at p cl) when cl reason (with_highest hp p) t).
Proof.
  intros Hprice Hsize He Hs Hcl Hreason. unfold pnl_bounded, pnl_at.
  cbn [close_trade price t_size pnl t_close_reason].
  rewrite Hprice, Hsize.
  set (e := entry_price p) in *. set (sz := pos_size p) in *.
  pose proof (return_gt e sz cl (-1) He Hs) as Hloss.
  split; [exact He|]. split; [exact Hs|]. split; [lra|].
  destruct Hreason as [->|Hcc]; [exact I|].
  apply closing_condition_inv in Hcc.
  destruct reason.
  - pose proof (return_le e sz cl (-0.03) He Hs). lra.
  - destruct Hcc as [_ H3]. pose proof (return_ge e sz cl 2 He Hs). lra.
  - destruct Hcc as (H1 & H2 & _).
    pose proof (return_gt e sz cl (-0.03) He Hs).
    pose proof (return_lt e sz cl 2 He Hs). lra.
  - exact I.
Qed.

Lemma solvent_initial : solvent (initial initial_capital).
Proof. split; cbn; [exact positive_capital|constructor]. Qed.

(** Every iteration keeps the run solvent. *)
Lemma solvent_step (k : nat) (st st' : sim) :
  books ohlcv_data initial_capital k st -> solvent st ->
  step sqrt ohlcv_data (80 + k) st = Ok st' ->
  (80 + k < length ohlcv_data)%nat ->
  solvent st'.
Proof.
  intros Hb [Hcap Htrades] Hstep Hlt.
  destruct (lookup_lt_is_Some_2 ohlcv_data (80 + k) Hlt) as [c Hc].
  pose proof (close_positive _ _ Hc) as Hclose.
  destruct (pos st) as [p|] eqn:Hp.
  - destruct (bk_position _ _ _ _ Hb p Hp)
      as (ts & t & Hts & Hprice & Hsize & Hzero & Hopen & Hhigh & Hshare).
    rewrite (step_held sqrt ohlcv_data (80 + k) c st p ts t Hc Hp Hts) in Hstep.
    cbv zeta in Hstep. rewrite Hts in Htrades.
    apply Forall_app in Htrades. destruct Htrades as [Hprev Hlast].
    inversion Hlast as [|? ? (Hpt & Hst & _) _]; subst.
    rewrite Hprice in Hpt. rewrite Hsize in Hst.
    destruct (closing_condition (close c) (entry_price p)
                (py_max (highest_price p) (close c))) as [reason|] eqn:Hcc;
      injection Hstep as <-; split; cbn [trades current_capital].
    + pose proof (close_trade_bounded p t (name c) (close c)
                    (py_max (highest_price p) (close c)) reason
                    Hprice Hsize Hpt Hst Hclose (or_intror Hcc))
        as (_ & _ & Hloss & _).
      cbn [close_trade pnl t_size] in Hloss. rewrite Hsize in Hloss. lra.
    + apply Forall_app. split; [exact Hprev|].
      constructor; [|constructor].
      apply close_trade_bounded; try assumption. right. exact Hcc.
    + exact Hcap.
    + rewrite Hts. apply Forall_app. split; assumption.
  - destruct (check_entry_signal_total sqrt (firstn (S (80 + k)) ohlcv_data))
      as [[|] Hsig].
    + rewrite (step_flat_entry sqrt ohlcv_data (80 + k) c st Hc Hp Hsig)
        in Hstep.
      injection Hstep as <-. split; cbn [trades current_capital];
        [exact Hcap|].
      apply Forall_app. split; [exact Htrades|].
      constructor; [|constructor].
      unfold pnl_bounded. cbn [new_trade price t_size pnl t_close_reason].
      unfold Bollinger.get_position_size_ratio.
      repeat split; lra.
    + rewrite (step_flat_idle sqrt ohlcv_data (80 + k) c st Hc Hp Hsig)
        in Hstep.
      injection Hstep as <-. split; assumption.
Qed.

Lemma loop_upto_solvent (k : nat) :
  (k <= length ohlcv_data - 80)%nat ->
  exists st : sim,
    loop_upto sqrt ohlcv_data k initial_capital = Ok st /\
    books ohlcv_data initial_capital k st /\ solvent st.
Proof.
  induction k as [|k IH]; intros Hk.
  - exists (initial initial_capital).
    split; [reflexivity|]. split; [apply books_initial|apply solvent_initial].
  - destruct IH as (st & Hloop & Hb & Hs); [lia|].
    destruct (books_step sqrt ohlcv_data initial_capital k st Hb)
      as (st' & Hstep & Hb'); [lia|].
    exists st'. split; [rewrite loop_upto_S, Hloop; exact Hstep|].
    split; [exact Hb'|].
    apply (solvent_step k st st' Hb Hs Hstep). lia.
Qed.

(** The state [simulate] returns is solvent. *)
Lemma simulate_solvent :
  exists fin : sim,
    simulate sqrt ohlcv_data initial_capital = Ok fin /\ solvent fin.
Proof.
  destruct (loop_upto_solvent (length ohlcv_data - 80))
    as (st & Hloop & Hb & [Hcap Htrades]); [lia|].
  destruct (simulate_settles sqrt ohlcv_data initial_capital)
    as (st0 & fin & Hloop0 & _ & Hend & Hsim & _ & _).
  unfold loop in Hloop0. rewrite Hloop in Hloop0. injection Hloop0 as <-.
  exists fin. split; [exact Hsim|].
  destruct (pos st) as [p|] eqn:Hp.
  - destruct (bk_position _ _ _ _ Hb p Hp)
      as (ts & t & Hts & Hprice & Hsize & Hzero & Hopen & Hhigh & Hshare).
    assert (Hlen : (80 < length ohlcv_data)%nat).
    { pose proof (bk_terms _ _ _ _ Hb) as Hterms. rewrite Hts in Hterms.
      apply Forall_app in Hterms. destruct Hterms as [_ Hterm].
      inversion Hterm as [|? ? (i & ci & H80 & Hci & _) _]; subst.
      pose proof (lookup_lt_Some _ _ _ Hci). lia. }
    destruct (last_is_Some ohlcv_data) as [lc Hlast]; [lia|].
    destruct (snoc_of_nonempty (equity_curve st)) as (es & e & Hes).
    { rewrite <- (length_map e_date), (bk_dates _ _ _ _ Hb), length_map,
        length_take, length_drop. lia. }
    rewrite (close_at_end_held ohlcv_data lc st p ts t es e
               Hlast Hp Hts Hes) in Hend.
    injection Hend as <-.
    assert (Hlc : 0 < close lc).
    { rewrite last_lookup in Hlast. exact (close_positive _ _ Hlast). }
    rewrite Hts in Htrades.
    apply Forall_app in Htrades. destruct Htrades as [Hprev Hlastt].
    inversion Hlastt as [|? ? (Hpt & Hst & _) _]; subst.
    rewrite Hprice in Hpt. rewrite Hsize in Hst.
    pose proof (close_trade_bounded p t (name lc) (close lc) (highest_price p)
                  EndOfData Hprice Hsize Hpt Hst Hlc (or_introl eq_refl))
      as Hbound.
    replace (with_highest (highest_price p) p) with p in Hbound
      by (destruct p; reflexivity).
    split; cbn [trades current_capital].
    + destruct Hbound as (_ & _ & Hloss & _).
      cbn [close_trade pnl t_size] in Hloss. rewrite Hsize in Hloss. lra.
    + apply Forall_app. split; [exact Hprev|].
      constructor; [exact Hbound|constructor].
  - unfold close_at_end in Hend. rewrite Hp in Hend. injection Hend as <-.
    split; assumption.
Qed.

End Solvency.

(** ** What a run's books guarantee *)

Section BooksTheorems.
Import Pandas Strategy Backtest Spec Books Samples.

(** X1.  The equity curve of a run holds exactly one point per processed
    candle, in order, each dated by its candle: the candles from index 80
    on.  Its last point carries the final capital (the forced close
    rewrites it). *)
Theorem equity_curve_follows_the_candles
    (sqrt : Q -> Q) (ohlcv_data : DataFrame) (capital : Q) :
  exists fin : sim,
    simulate sqrt ohlcv_data capital = Ok fin /\
    map e_date (equity_curve fin) = map name (skipn 80 ohlcv_data) /\
    length (equity_curve fin) = (length ohlcv_data - 80)%nat /\
    (forall e : equity_point,
       last (equity_curve fin) = Some e -> equity e = current_capital fin).
Proof.
  destruct (simulate_books sqrt ohlcv_data capital) as (fin & Hsim & Hb).
  exists fin. split; [exact Hsim|].
  pose proof (fb_dates _ _ _ Hb) as Hdates.
  split; [exact Hdates|]. split.
  - rewrite <- (length_map e_date), Hdates, length_map, length_drop.
    reflexivity.
  - intros e He. pose proof (fb_curve _ _ _ Hb) as Hc.
    unfold curve_ends_on_capital in Hc. rewrite He in Hc. exact Hc.
Qed.

Lemma running_capital_sum (capital : Q) (ts : list trade) :
  running_capital capital ts == capital + py_sum (map pnl ts).
Proof.
  unfold running_capital, py_sum. generalize (map pnl ts). intros l.
  revert capital. induction l as [|x l IH]; intros capital; cbn [fold_left].
  - lra.
  - pose proof (IH (capital + x)) as H1. pose proof (IH (0 + x)) as H2. lra.
Qed.

(** X2.  The capital is the running sum of the realized pnl: after any
    number of candles the capital is the initial capital with the pnl of
    each trade of the ledger added in ledger order (an open trade counting
    for 0), which are the additions the loop performs; the last equity
    point equals it, and the same holds for the state the run returns. *)
Theorem capital_is_the_running_sum_of_realized_pnl
    (sqrt : Q -> Q) (ohlcv_data : DataFrame) (capital : Q) (k : nat) :
  (k <= length ohlcv_data - 80)%nat ->
  (exists st : sim,
     loop_upto sqrt ohlcv_data k capital = Ok st /\
     current_capital st == running_capital capital (trades st) /\
     (forall e : equity_point,
        last (equity_curve st) = Some e -> equity e = current_capital st)) /\
  (exists fin : sim,
     simulate sqrt ohlcv_data capital = Ok fin /\
     current_capital fin == running_capital capital (trades fin)).
Proof.
  intros Hk. split.
  - destruct (loop_upto_books sqrt ohlcv_data capital k Hk) as (st & Hl & Hb).
    exists st. split; [exact Hl|]. split.
    + rewrite running_capital_sum. exact (bk_capital _ _ _ _ Hb).
    + intros e He. pose proof (bk_curve _ _ _ _ Hb) as Hc.
      unfold curve_ends_on_capital in Hc. rewrite He in Hc. exact Hc.
  - destruct (simulate_books sqrt ohlcv_data capital) as (fin & Hsim & Hb).
    exists fin. split; [exact Hsim|].
    rewrite running_capital_sum. exact (fb_capital _ _ _ Hb).
Qed.

Lemma capital_is_the_running_sum_of_realized_pnl_witness :
  (3 <= length breakout_series - 80)%nat /\
  exists st : sim,
    loop_upto sqrt6 breakout_series 3 10000 = Ok st /\
    current_capital st == running_capital 10000 (trades st).
Proof.
  split; [vm_compute; lia|].
  destruct (capital_is_the_running_sum_of_realized_pnl sqrt6 breakout_series
              10000 3)
    as ((st & Hl & Hc & _) & _).
  - vm_compute. lia.
  - exists st. split; assumption.
Defined.

(** X3.  Every trade of the ledger a run returns keeps the terms of its
    entry (dated by a candle of index 80 or more, priced 0.5% under that
    candle's close, stop field 3% under the price, target field 200% over
    it, direction LONG) and is closed with a pnl equal to
    [(close_price - price) * size / price] on its own fields. *)
Theorem ledger_trades_are_self_consistent
    (sqrt : Q -> Q) (ohlcv_data : DataFrame) (capital : Q) :
  exists fin : sim,
    simulate sqrt ohlcv_data capital = Ok fin /\
    Forall (entry_terms ohlcv_data) (trades fin) /\
    Forall pnl_closed (trades fin).
Proof.
  destruct (simulate_books sqrt ohlcv_data capital) as (fin & Hsim & Hb).
  exists fin. split; [exact Hsim|].
  split; [exact (fb_terms _ _ _ Hb)|exact (fb_pnl _ _ _ Hb)].
Qed.

(** X4.  Position sizes compound: the [n]-th trade of the returned ledger
    has a size of 0.3 times the capital held when it was entered, which is
    the initial capital with the pnl of the [n] trades before it added in
    ledger order. *)
Theorem sizes_are_thirty_percent_of_realized_capital
    (sqrt : Q -> Q) (ohlcv_data : DataFrame) (capital : Q) :
  exists fin : sim,
    simulate sqrt ohlcv_data capital = Ok fin /\
    forall (n : nat) (t : trade),
      trades fin !! n = Some t ->
      t_size t == running_capital capital (firstn n (trades fin)) * 0.3.
Proof.
  destruct (simulate_books sqrt ohlcv_data capital) as (fin & Hsim & Hb).
  exists fin. split; [exact Hsim|].
  intros n t Ht. rewrite running_capital_sum.
  exact (fb_sized _ _ _ Hb n t Ht).
Qed.

(** X5.  With positive closes and a positive initial capital a run never
    loses its capital: the capital is positive after every candle and at
    the end, every trade has a positive price and size and loses less than
    its size, a stop loss loses at least 3% of the size, the take profit
    gains at least 200% of it and a trailing stop lands strictly between
    the two. *)
Theorem run_stays_solvent
    (sqrt : Q -> Q) (ohlcv_data : DataFrame) (capital : Q) (k : nat) :
  Forall (fun c => 0 < close c) ohlcv_data ->
  0 < capital ->
  (k <= length ohlcv_data - 80)%nat ->
  (exists st : sim,
     loop_upto sqrt ohlcv_data k capital = Ok st /\
     0 < current_capital st /\ Forall pnl_bounded (trades st)) /\
  (exists fin : sim,
     simulate sqrt ohlcv_data capital = Ok fin /\
     0 < current_capital fin /\ Forall pnl_bounded (trades fin)).
Proof.
  intros Hprices Hcap Hk. split.
  - destruct (loop_upto_solvent sqrt ohlcv_data capital Hprices Hcap k Hk)
      as (st & Hl & _ & [Hc Ht]).
    exists st. repeat split; assumption.
  - destruct (simulate_solvent sqrt ohlcv_data capital Hprices Hcap)
      as (fin & Hsim & [Hc Ht]).
    exists fin. repeat split; assumption.
Qed.

Lemma run_stays_solvent_witness :
  exists fin : sim,
    simulate sqrt6 breakout_series 10000 = Ok fin /\
    0 < current_capital fin /\ Forall pnl_bounded (trades fin).
Proof.
  apply (run_stays_solvent sqrt6 breakout_series 10000 5).
  - unfold breakout_series, flat_series, ramp.
    apply Forall_app. split.
    + apply List.Forall_forall. intros c Hc. apply in_map_iff in Hc.
      destruct Hc as (i & <- & _). cbn. lra.
    + repeat constructor.
  - reflexivity.
  - vm_compute. lia.
Defined.

End BooksTheorems.

(** ** The life of a back-test job *)

Section JobFacts.
Import Pandas Strategy Backtest Jobs Samples.

Section Task.
Variable sqrt : Q -> Q.
Variable ohlcv_data : DataFrame.
Variable random_simulation : BacktestRequest -> result backtest_result.
Variable str : exn -> string.

Lemma run_backtest_present (job_id : string) (request : BacktestRequest)
    (sv : server) (j : job) :
  backtest_jobs sv !! job_id = Some j ->
  exists j' : job,
    run_backtest sqrt ohlcv_data random_simulation str job_id request sv
      = (None, with_jobs (<[job_id := j']> (backtest_jobs sv)) sv) /\
    settled_job j j'.
Proof.
  intros Hj. unfold run_backtest. rewrite Hj.
  assert (Halter : forall f : job -> job,
            alter f job_id
              (backtest_jobs
                 (with_jobs (alter (with_status "RUNNING") job_id
                               (backtest_jobs sv)) sv))
            = <[job_id := f (with_status "RUNNING" j)]> (backtest_jobs sv)).
  { intros f. cbn [with_jobs backtest_jobs]. apply map_eq. intros i.
    destruct (decide (job_id = i)) as [<-|Hne].
    - rewrite lookup_insert_eq, !lookup_alter_eq, Hj. reflexivity.
    - rewrite lookup_insert_ne, !lookup_alter_ne by exact Hne. reflexivity. }
  destruct (get_strategy (strategy_id request)) as [strategy|e].
  - destruct (simulate_backtest sqrt ohlcv_data random_simulation strategy
                request) as [r|e].
    + eexists. rewrite Halter. split; [reflexivity|].
      unfold settled_job. cbn. repeat split. left. eauto.
    + eexists. unfold mark_failed. rewrite Halter. split; [reflexivity|].
      unfold settled_job. cbn. repeat split. right. eauto.
  - eexists. unfold mark_failed. rewrite Halter. split; [reflexivity|].
    unfold settled_job. cbn. repeat split. right. eauto.
Qed.

(** X6.  The background task on a job of the dict returns normally and
    settles that job: COMPLETED with results, or FAILED with an error text,
    request and creation time kept; every other job, the database rows and
    the task queue are untouched.  On an id that is not in the dict the
    [KeyError] leaves the task and nothing is written. *)
Theorem run_backtest_settles_the_job
    (job_id : string) (request : BacktestRequest) (sv : server) :
  let after :=
    run_backtest sqrt ohlcv_data random_simulation str job_id request sv in
  (forall j : job,
     backtest_jobs sv !! job_id = Some j ->
     fst after = None /\
     (exists j' : job,
        backtest_jobs (snd after) !! job_id = Some j' /\ settled_job j j') /\
     (forall other : string,
        other <> job_id ->
        backtest_jobs (snd after) !! other = backtest_jobs sv !! other) /\
     db (snd after) = db sv /\
     background_tasks (snd after) = background_tasks sv) /\
  (backtest_jobs sv !! job_id = None ->
     after = (Some (KeyError job_id), sv)).
Proof.
  cbv zeta. split.
  - intros j Hj.
    destruct (run_backtest_present job_id request sv j Hj) as (j' & -> & Hs).
    cbn [fst snd with_jobs backtest_jobs db background_tasks].
    split; [reflexivity|]. split.
    + exists j'. split; [apply lookup_insert_eq|exact Hs].
    + split; [|split; reflexivity].
      intros other Hne. apply lookup_insert_ne. congruence.
  - intros Hnone. unfold run_backtest. rewrite Hnone. reflexivity.
Qed.

(** A Bollinger replay over at most 80 candles processes nothing and then
    fails on the statistics of an empty equity curve. *)
Lemma short_replay_raises (capital : Q) :
  (length ohlcv_data <= 80)%nat ->
  run_bollinger_breakout_backtest sqrt ohlcv_data capital = Raise ValueError.
Proof.
  intros Hlen. unfold run_bollinger_breakout_backtest, simulate, loop, loop_upto.
  replace (length ohlcv_data - 80)%nat with 0%nat by lia. reflexivity.
Qed.

(** X7.  A Bollinger breakout job whose data holds at most 80 candles
    always ends FAILED: the replay has nothing to process and the
    statistics raise, which the task records on the job. *)
Theorem short_bollinger_job_fails
    (job_id : string) (request : BacktestRequest) (sv : server) (j : job) :
  (length ohlcv_data <= 80)%nat ->
  strategy_id request = "bollinger_breakout_v1"%string ->
  backtest_jobs sv !! job_id = Some j ->
  exists j' : job,
    backtest_jobs
      (snd (run_backtest sqrt ohlcv_data random_simulation str job_id
              request sv)) !! job_id = Some j' /\
    job_status j' = "FAILED"%string /\ results j' = results j /\
    exists msg : string, error j' = Some msg.
Proof.
  intros Hlen Hid Hj. unfold run_backtest. rewrite Hj, Hid.
  assert (Hget : get_strategy "bollinger_breakout_v1"
                 = Ok BollingerBandBreakoutStrategy)
    by (vm_compute; reflexivity).
  rewrite Hget. unfold simulate_backtest.
  rewrite Hid, String.eqb_refl, (short_replay_raises _ Hlen).
  unfold mark_failed. cbn [snd with_jobs backtest_jobs].
  rewrite !lookup_alter_eq, Hj. cbn. eexists. split; [reflexivity|].
  repeat split. eauto.
Qed.

End Task.

Lemma short_bollinger_job_fails_witness :
  exists j' : job,
    backtest_jobs
      (snd (run_backtest sqrt6 (flat_series 80) no_random_result exn_text
              "job-1" good_request
              (snd (create_backtest good_request "job-1" 1700000000
                      fresh_server)))) !! "job-1"%string = Some j' /\
    job_status j' = "FAILED"%string /\ results j' = None /\
    exists msg : string, error j' = Some msg.
Proof.
  apply (short_bollinger_job_fails sqrt6 (flat_series 80) no_random_result
           exn_text "job-1" good_request
           (snd (create_backtest good_request "job-1" 1700000000 fresh_server))
           (mkJob good_request "PENDING" 1700000000 None None)).
  - vm_compute. lia.
  - reflexivity.
  - cbn. apply lookup_insert_eq.
Defined.

(** X8.  From request to result: once [create_backtest] has accepted a
    request under a job id and the background task has run, asking for the
    result of that id no longer answers 404, PENDING or RUNNING: it answers
    COMPLETED with results, or FAILED with an error text. *)
Theorem accepted_job_ends_completed_or_failed
    (sqrt : Q -> Q) (ohlcv_data : DataFrame)
    (random_simulation : BacktestRequest -> result backtest_result)
    (str : exn -> string)
    (request : BacktestRequest) (job_id : string) (now : Z) (sv : server)
    (reply : response) :
  fst (create_backtest request job_id now sv) = Ok reply ->
  let created := snd (create_backtest request job_id now sv) in
  let ran :=
    snd (run_backtest sqrt ohlcv_data random_simulation str job_id request
           created) in
  get_backtest_result job_id created = Ok (ViewPending job_id now) /\
  ((exists r : backtest_result,
      get_backtest_result job_id ran
        = Ok (ViewCompleted job_id request now (Some r))) \/
   (exists msg : string,
      get_backtest_result job_id ran
        = Ok (ViewFailed job_id (Some msg) now))).
Proof.
  intros Hok. cbv zeta.
  assert (Hcreated :
    backtest_jobs (snd (create_backtest request job_id now sv)) !! job_id
      = Some (mkJob request "PENDING" now None None)).
  { unfold create_backtest in *.
    destruct (get_strategy (strategy_id request)); [|discriminate Hok].
    destruct (start_date request >=? end_date request)%Z;
      [discriminate Hok|].
    cbn. apply lookup_insert_eq. }
  split.
  - unfold get_backtest_result. rewrite Hcreated. reflexivity.
  - destruct (run_backtest_present sqrt ohlcv_data random_simulation str
                job_id request _ _ Hcreated) as (j' & -> & Hs).
    unfold get_backtest_result. cbn [snd with_jobs backtest_jobs].
    rewrite lookup_insert_eq.
    destruct Hs as (Hreq & Hat & [(Hst & (r & Hr) & _)|(Hst & (msg & Hm) & _)]);
      rewrite Hst; cbn in Hreq, Hat; cbn [String.eqb].
    + left. exists r. rewrite Hreq, Hat, Hr. reflexivity.
    + right. exists msg. rewrite Hat, Hm. reflexivity.
Qed.

Lemma accepted_job_ends_completed_or_failed_witness :
  get_backtest_result "job-1"
    (snd (create_backtest good_request "job-1" 1700000000 fresh_server))
    = Ok (ViewPending "job-1" 1700000000) /\
  ((exists r : backtest_result,
      get_backtest_result "job-1"
        (snd (run_backtest sqrt6 breakout_series no_random_result exn_text
                "job-1" good_request
                (snd (create_backtest good_request "job-1" 1700000000
                        fresh_server))))
        = Ok (ViewCompleted "job-1" good_request 1700000000 (Some r))) \/
   (exists msg : string,
      get_backtest_result "job-1"
        (snd (run_backtest sqrt6 breakout_series no_random_result exn_text
                "job-1" good_request
                (snd (create_backtest good_request "job-1" 1700000000
                        fresh_server))))
        = Ok (ViewFailed "job-1" (Some msg) 1700000000))).
Proof.
  apply (accepted_job_ends_completed_or_failed sqrt6 breakout_series
           no_random_result exn_text good_request "job-1" 1700000000
           fresh_server
           (mkResponse "job-1" BollingerBandBreakoutStrategy "PENDING")).
  vm_compute. reflexivity.
Defined.

(** X9.  Deleting a job.  An id that is not in the dict is answered with
    404 and changes nothing.  A job that is there is removed: its result is
    404 from then on and a second delete is 404 too, while the results of
    all other ids, the database rows and the task queue stay as they
    were. *)
Theorem delete_backtest_job_forgets_one_job (job_id : string) (sv : server) :
  (backtest_jobs sv !! job_id = None ->
     delete_backtest_job job_id sv = (Raise (HTTPException 404), sv)) /\
  (forall j : job,
     backtest_jobs sv !! job_id = Some j ->
     let after := snd (delete_backtest_job job_id sv) in
     fst (delete_backtest_job job_id sv) = Ok job_id /\
     get_backtest_result job_id after = Raise (HTTPException 404) /\
     fst (delete_backtest_job job_id after) = Raise (HTTPException 404) /\
     (forall other : string,
        other <> job_id ->
        get_backtest_result other after = get_backtest_result other sv) /\
     db after = db sv /\ background_tasks after = background_tasks sv).
Proof.
  split.
  - intros H. unfold delete_backtest_job. rewrite H. reflexivity.
  - intros j Hj. cbv zeta.
    assert (Hdel : delete_backtest_job job_id sv
                   = (Ok job_id,
                      with_jobs (delete job_id (backtest_jobs sv)) sv))
      by (unfold delete_backtest_job; rewrite Hj; reflexivity).
    rewrite Hdel. cbn [fst snd].
    split; [reflexivity|]. split; [|split; [|split]].
    + unfold get_backtest_result. cbn [with_jobs backtest_jobs].
      rewrite lookup_delete_eq. reflexivity.
    + unfold delete_backtest_job. cbn [with_jobs backtest_jobs].
      rewrite lookup_delete_eq. reflexivity.
    + intros other Hne. unfold get_backtest_result.
      cbn [with_jobs backtest_jobs].
      rewrite lookup_delete_ne by congruence. reflexivity.
    + split; reflexivity.
Qed.

Lemma delete_backtest_job_forgets_one_job_witness :
  delete_backtest_job "job-1" fresh_server
    = (Raise (HTTPException 404), fresh_server) /\
  get_backtest_result "job-1"
    (snd (delete_backtest_job "job-1"
            (snd (create_backtest good_request "job-1" 1700000000
                    fresh_server))))
    = Raise (HTTPException 404).
Proof.
  split.
  - apply (delete_backtest_job_forgets_one_job "job-1" fresh_server).
    reflexivity.
  - destruct (delete_backtest_job_forgets_one_job "job-1"
                (snd (create_backtest good_request "job-1" 1700000000
                        fresh_server))) as [_ Hpresent].
    destruct (Hpresent (mkJob good_request "PENDING" 1700000000 None None))
      as (_ & Hgone & _).
    + cbn. apply lookup_insert_eq.
    + exact Hgone.
Defined.

(** X10.  Deleting forgets in memory only.  After a request was accepted
    under a fresh id and its job deleted, the dict is what it was before
    the request, but the database row and the queued background task are
    still there; when that task runs it finds no job and leaves with a
    [KeyError], writing nothing. *)
Theorem deleted_job_still_runs_and_raises
    (sqrt : Q -> Q) (ohlcv_data : DataFrame)
    (random_simulation : BacktestRequest -> result backtest_result)
    (str : exn -> string)
    (request : BacktestRequest) (job_id : string) (now : Z) (sv : server)
    (reply : response) :
  fst (create_backtest request job_id now sv) = Ok reply ->
  backtest_jobs sv !! job_id = None ->
  let deleted :=
    snd (delete_backtest_job job_id
           (snd (create_backtest request job_id now sv))) in
  backtest_jobs deleted = backtest_jobs sv /\
  db deleted = db sv ++ [mkJobRow request "PENDING"] /\
  background_tasks deleted = background_tasks sv ++ [(job_id, request)] /\
  run_backtest sqrt ohlcv_data random_simulation str job_id request deleted
    = (Some (KeyError job_id), deleted).
Proof.
  intros Hok Hfresh. cbv zeta.
  unfold create_backtest in *.
  destruct (get_strategy (strategy_id request)); [|discriminate Hok].
  destruct (start_date request >=? end_date request)%Z; [discriminate Hok|].
  cbn [snd]. unfold delete_backtest_job. cbn [backtest_jobs].
  rewrite lookup_insert_eq. cbn [snd with_jobs backtest_jobs db
                                 background_tasks].
  rewrite (delete_insert_id _ _ _ Hfresh).
  repeat split. unfold run_backtest. cbn [with_jobs backtest_jobs].
  rewrite Hfresh. reflexivity.
Qed.

Lemma deleted_job_still_runs_and_raises_witness :
  run_backtest sqrt6 breakout_series no_random_result exn_text "job-1"
    good_request
    (snd (delete_backtest_job "job-1"
            (snd (create_backtest good_request "job-1" 1700000000
                    fresh_server))))
  = (Some (KeyError "job-1"),
     snd (delete_backtest_job "job-1"
            (snd (create_backtest good_request "job-1" 1700000000
                    fresh_server)))).
Proof.
  apply (deleted_job_still_runs_and_raises sqrt6 breakout_series
           no_random_result exn_text good_request "job-1" 1700000000
           fresh_server (mkResponse "job-1" BollingerBandBreakoutStrategy
                           "PENDING")).
  - vm_compute. reflexivity.
  - reflexivity.
Defined.

End JobFacts.

(** ** The strategy classes *)

Section PolicyFacts.
Import Pandas Strategy Policy Samples.



Lemma leverage_value (cls : strategy_class) (regime : string) (v : Q) :
  leverage_map cls !! regime = Some v -> 1 <= v /\ v <= 2.
Proof.
  intros H. destruct cls; unfold leverage_map in H;
    repeat (apply lookup_insert_Some in H;
            destruct H as [[_ <-]|[_ H]]; [split; lra|]);
    rewrite lookup_empty in H; discriminate H.
Qed.

(** X12.  Whatever the strategy and whatever text names the regime, the
    leverage lies between 1 and 2; a regime that is none of UPTREND,
    DOWNTREND and SIDEWAYS gets the leverage 1. *)
Theorem leverage_is_between_one_and_two
    (cls : strategy_class) (market_regime : string) :
  (1 <= determine_leverage cls market_regime /\
   determine_leverage cls market_regime <= 2) /\
  (market_regime <> "UPTREND"%string ->
   market_regime <> "DOWNTREND"%string ->
   market_regime <> "SIDEWAYS"%string ->
   determine_leverage cls market_regime = 1.0).
Proof.
  unfold determine_leverage. split.
  - destruct (leverage_map cls !! market_regime) as [v|] eqn:E.
    + exact (leverage_value cls market_regime v E).
    + cbn. split; lra.
  - intros Hu Hd Hs.
    assert (E : leverage_map cls !! market_regime = None).
    { destruct cls; unfold leverage_map;
        rewrite !lookup_insert_ne by congruence; apply lookup_empty. }
    rewrite E. reflexivity.
Qed.

(** X13.  For a positive entry price the levels of every strategy bracket
    it in the same order: stop loss below the trailing reference, the
    trailing reference below the entry price, the entry price below the
    take profit. *)
Theorem stops_bracket_the_entry_price
    (cls : strategy_class) (entry_price stop target trailing : Q) :
  0 < entry_price ->
  set_trailing_stop cls entry_price = (stop, target, trailing) ->
  stop < trailing /\ trailing < entry_price /\ entry_price < target.
Proof.
  intros H Hs. destruct cls; cbn in Hs; injection Hs as <- <- <-;
    repeat split; lra.
Qed.

Lemma stops_bracket_the_entry_price_witness :
  100 * 0.95 < 100 * 0.98 /\ 100 * 0.98 < 100 /\ 100 < 100 * 1.15.
Proof.
  apply (stops_bracket_the_entry_price MomentumStrategy 100
           (100 * 0.95) (100 * 1.15) (100 * 0.98)); reflexivity.
Defined.

(** X14.  The registry is keyed by the strategies' own ids: asking the
    factory for an id succeeds exactly when some strategy carries that id,
    and then returns that strategy; the listing of available strategies
    maps each such id to the name of its strategy and holds nothing
    else. *)
Theorem registry_is_keyed_by_strategy_id (strategy_id : string) :
  (forall cls : strategy_class,
     get_strategy strategy_id = Ok cls <-> strategy_id_of cls = strategy_id) /\
  (get_strategy strategy_id = Raise ValueError <->
     forall cls : strategy_class, strategy_id_of cls <> strategy_id) /\
  (forall cls : strategy_class,
     get_strategy strategy_id = Ok cls ->
     get_available_strategies !! strategy_id = Some (name_of cls)) /\
  (get_strategy strategy_id = Raise ValueError ->
     get_available_strategies !! strategy_id = None).
Proof.
  assert (Hreg : forall cls : strategy_class,
            _strategies !! strategy_id = Some cls
            <-> strategy_id_of cls = strategy_id).
  { intros cls. unfold _strategies. split.
    - intros H.
      repeat (apply lookup_insert_Some in H;
              destruct H as [[<- <-]|[_ H]]; [reflexivity|]).
      rewrite lookup_empty in H. discriminate H.
    - intros <-. destruct cls; vm_compute; reflexivity. }
  unfold get_strategy, get_available_strategies.
  split; [|split; [|split]].
  - intros cls. rewrite <- Hreg.
    destruct (_strategies !! strategy_id); split; congruence.
  - split.
    + intros H cls Hid. apply Hreg in Hid. rewrite Hid in H. discriminate H.
    + intros H. destruct (_strategies !! strategy_id) as [cls|] eqn:E;
        [|reflexivity].
      exfalso. apply (H cls). apply Hreg. reflexivity.
  - intros cls H. rewrite lookup_fmap.
    destruct (_strategies !! strategy_id); [|discriminate H].
    injection H as ->. reflexivity.
  - intros H. rewrite lookup_fmap.
    destruct (_strategies !! strategy_id); [discriminate H|reflexivity].
Qed.

Lemma momentum_signal_total (df : DataFrame) :
  exists b : bool, Momentum.check_entry_signal df = Ok b.
Proof.
  unfold Momentum.check_entry_signal.
  destruct (Nat.ltb_spec (length df) 50) as [|Hlen]; [eauto|].
  assert (Hcol : length (close_column df) = length df)
    by (unfold close_column; apply length_map).
  destruct (iloc_last_nonempty
              (rsi_series Momentum.rsi_period (close_column df)))
    as [r ->].
  { unfold rsi_series. rewrite length_zip_with.
    rewrite <- gain_loss_same_length. unfold gain_series.
    rewrite rolling_length. unfold where_.
    rewrite length_map, diff_length. lia. }
  unfold Momentum.sma_short, Momentum.sma_long.
  rewrite !last_sma by lia. cbn [mbind result_bind].
  destruct (F.lt r (Fin Momentum.rsi_oversold)
            && F.gt (Fin (Spec.sma 20 df)) (Fin (Spec.sma 50 df))); eauto.
Qed.

Lemma mean_reversion_signal_total (sqrt : Q -> Q) (df : DataFrame) :
  exists b : bool, MeanReversion.check_entry_signal sqrt df = Ok b.
Proof.
  unfold MeanReversion.check_entry_signal.
  destruct (Nat.ltb_spec (length df) 20) as [|Hlen]; [eauto|].
  assert (Hcol : length (close_column df) = length df)
    by (unfold close_column; apply length_map).
  rewrite last_close_column by lia. cbn [mbind result_bind].
  repeat match goal with
  | |- context [iloc_last (zip_with ?f ?a ?b)] =>
      let x := fresh "x" in
      destruct (iloc_last_nonempty (zip_with f a b)) as [x ->];
      [ rewrite length_zip_with, length_map, !rolling_length; lia
      | cbn [mbind result_bind] ]
  end.
  destruct (iloc_last_nonempty
              (rsi_series MeanReversion.rsi_period (close_column df)))
    as [r ->].
  { unfold rsi_series. rewrite length_zip_with.
    rewrite <- gain_loss_same_length. unfold gain_series.
    rewrite rolling_length. unfold where_.
    rewrite length_map, diff_length. lia. }
  cbn [mbind result_bind].
  match goal with |- context [if ?b then _ else _] => destruct b end; eauto.
Qed.

(** X15.  No entry signal ever raises: on every series each of the three
    strategies answers [True] or [False], and below its lookback (50
    candles for momentum, 20 for mean reversion, 80 for the Bollinger
    breakout) the answer is [False]. *)
Theorem entry_signals_answer_on_every_series
    (sqrt : Q -> Q) (cls : strategy_class) (ohlcv_df : DataFrame) :
  (exists b : bool, check_entry_signal sqrt cls ohlcv_df = Ok b) /\
  ((length ohlcv_df < lookback cls)%nat ->
     check_entry_signal sqrt cls ohlcv_df = Ok false).
Proof.
  split.
  - destruct cls; cbn [check_entry_signal].
    + apply momentum_signal_total.
    + apply mean_reversion_signal_total.
    + apply check_entry_signal_total.
  - intros H. destruct cls; cbn [check_entry_signal lookback] in *.
    + unfold Momentum.check_entry_signal.
      destruct (Nat.ltb_spec (length ohlcv_df) 50); [reflexivity|lia].
    + unfold MeanReversion.check_entry_signal.
      destruct (Nat.ltb_spec (length ohlcv_df) 20); [reflexivity|lia].
    + unfold Bollinger.check_entry_signal.
      destruct (Nat.ltb_spec (length ohlcv_df) 80); [reflexivity|lia].
Qed.

End PolicyFacts.

(** ** The regime endpoints *)

Section RegimeApiFacts.
Import Pandas MarketAnalyzer Spec RegimeApi Samples.

Lemma lookup_rolling (w : nat) (agg : list float64 -> float64) (s : Series)
    (i : nat) :
  (i < length s)%nat ->
  rolling w agg s !! i
    = Some (if (S i <? w)%nat then NaN else agg (window w i s)).
Proof.
  intros Hi. unfold rolling, Series.
  change (map ?f ?l) with (f <$> l).
  rewrite list_lookup_fmap, lookup_seq_lt by exact Hi. reflexivity.
Qed.

Lemma window_prefix {A : Type} (w i : nat) (l : list A) :
  (w <= S i)%nat -> window w i (firstn (S i) l) = window w i l.
Proof.
  intros Hw. unfold window.
  rewrite skipn_firstn_comm, firstn_firstn.
  replace (Nat.min w (S i - (S i - w))) with w by lia. reflexivity.
Qed.

Lemma iloc_sma (w i : nat) (df : DataFrame) :
  (0 < w)%nat -> (w <= S i)%nat -> (i < length df)%nat ->
  iloc i (rolling w mean (close_column df))
    = Ok (Fin (sma w (firstn (S i) df))).
Proof.
  intros Hw Hwi Hi. unfold iloc.
  rewrite lookup_rolling by (unfold close_column; rewrite length_map; exact Hi).
  destruct (Nat.ltb_spec (S i) w); [lia|].
  unfold sma, close_column.
  rewrite length_firstn, Nat.min_l by lia.
  replace (S i - 1)%nat with i by lia.
  replace (map (fun c => Fin (close c)) df) with (map Fin (map close df))
    by (rewrite map_map; reflexivity).
  rewrite window_map, mean_fin, <- firstn_map, window_prefix by exact Hwi.
  reflexivity.
Qed.

Lemma last_firstn_S {A : Type} (i : nat) (l : list A) :
  (i < length l)%nat -> last (firstn (S i) l) = l !! i.
Proof.
  intros Hi. rewrite last_lookup, length_firstn, Nat.min_l by lia.
  cbn [Nat.pred]. change (firstn (S i) l) with (take (S i) l).
  apply lookup_take_lt. lia.
Qed.

Lemma iloc_close (i : nat) (df : DataFrame) :
  (i < length df)%nat ->
  iloc i (close_column df) = Ok (Fin (last_close (firstn (S i) df))).
Proof.
  intros Hi. unfold iloc, close_column, last_close.
  change (map ?f ?l) with (f <$> l).
  rewrite list_lookup_fmap.
  change (close <$> firstn (S i) df) with (map close (firstn (S i) df)).
  rewrite last_map, last_firstn_S by exact Hi.
  destruct (lookup_lt_is_Some_2 df i Hi) as [c ->]. reflexivity.
Qed.

Lemma iloc_name (i : nat) (df : DataFrame) (c : candle) :
  df !! i = Some c -> iloc i (map name df) = Ok (name c).
Proof.
  unfold DataFrame in *. intros Hc. unfold iloc.
  change (map ?f ?l) with (f <$> l).
  rewrite list_lookup_fmap, Hc. reflexivity.
Qed.

(** A loop whose body appends one item per index. *)
Lemma for_each_appends {A B : Type}
    (body : A -> list B -> result (list B)) (P : A -> B -> Prop)
    (xs : list A) :
  (forall (x : A) (acc : list B),
     In x xs -> exists b : B, body x acc = Ok (acc ++ [b]) /\ P x b) ->
  forall acc : list B,
    exists bs : list B,
      for_each body xs acc = Ok (acc ++ bs) /\ Forall2 P xs bs.
Proof.
  induction xs as [|x xs IH]; intros Hbody acc.
  - exists []. rewrite app_nil_r. split; [reflexivity|constructor].
  - destruct (Hbody x acc (or_introl eq_refl)) as (b & Hb & HP).
    destruct (IH (fun y a Hy => Hbody y a (or_intror Hy)) (acc ++ [b]))
      as (bs & Hbs & HF).
    exists (b :: bs). cbn [for_each]. rewrite Hb. cbn [mbind result_bind].
    rewrite Hbs, <- app_assoc. split; [reflexivity|].
    constructor; assumption.
Qed.

(** The label the classifier gives to the candles up to index [i]. *)
Lemma analyze_prefix (df : DataFrame) (i : nat) :
  (119 <= i)%nat -> (i < length df)%nat ->
  analyze_market_regime (firstn (S i) df) =
    Ok (if F.gt (Fin (last_close (firstn (S i) df)))
                (Fin (sma 20 (firstn (S i) df)))
           && F.gt (Fin (sma 20 (firstn (S i) df)))
                   (Fin (sma 60 (firstn (S i) df)))
           && F.gt (Fin (sma 60 (firstn (S i) df)))
                   (Fin (sma 120 (firstn (S i) df)))
        then "UPTREND"%string
        else if F.lt (Fin (last_close (firstn (S i) df)))
                     (Fin (sma 20 (firstn (S i) df)))
                && F.lt (Fin (sma 20 (firstn (S i) df)))
                        (Fin (sma 60 (firstn (S i) df)))
                && F.lt (Fin (sma 60 (firstn (S i) df)))
                        (Fin (sma 120 (firstn (S i) df)))
        then "DOWNTREND"%string
        else "SIDEWAYS"%string).
Proof.
  intros Hlo Hi.
  rewrite analyze_market_regime_unfold
    by (rewrite length_firstn, Nat.min_l; lia).
  rewrite !F_gt_fin, !F_lt_fin. reflexivity.
Qed.

Lemma label_is_one_of_three (df : DataFrame) (r : string) :
  analyze_market_regime df = Ok r ->
  r = "UPTREND"%string \/ r = "DOWNTREND"%string \/ r = "SIDEWAYS"%string.
Proof.
  unfold analyze_market_regime.
  destruct (length df <? 120)%nat; [discriminate|].
  destruct (iloc_last (close_column df)); [|discriminate].
  destruct (iloc_last (rolling 20 mean (close_column df))); [|discriminate].
  destruct (iloc_last (rolling 60 mean (close_column df))); [|discriminate].
  destruct (iloc_last (rolling 120 mean (close_column df))); [|discriminate].
  cbn [mbind result_bind].
  repeat match goal with |- context [if ?b then _ else _] => destruct b end;
    intros [= <-]; auto.
Qed.

Lemma history_step_ok (df : DataFrame) (i : nat) (acc : list history_entry) :
  (120 <= i)%nat -> (i < length df)%nat ->
  exists e : history_entry,
    history_step df (rolling 20 mean (close_column df))
      (rolling 60 mean (close_column df))
      (rolling 120 mean (close_column df)) i acc = Ok (acc ++ [e]) /\
    (analyze_market_regime (firstn (S i) df) = Ok (h_regime e) /\
     name <$> df !! i = Some (h_timestamp e) /\
     h_price e = Fin (last_close (firstn (S i) df))).
Proof.
  intros Hlo Hi. unfold history_step.
  rewrite iloc_close, !iloc_sma by lia.
  destruct (lookup_lt_is_Some_2 df i Hi) as [c Hc].
  rewrite (iloc_name _ _ _ Hc). cbn [mbind result_bind].
  eexists. split; [reflexivity|]. cbn [h_regime h_timestamp h_price].
  split; [apply analyze_prefix; lia|]. split; [|reflexivity].
  unfold DataFrame in *. rewrite Hc. reflexivity.
Qed.

Lemma statistics_step_ok (df : DataFrame) (i : nat) (acc : list string) :
  (120 <= i)%nat -> (i < length df)%nat ->
  exists r : string,
    statistics_step df (rolling 20 mean (close_column df))
      (rolling 60 mean (close_column df))
      (rolling 120 mean (close_column df)) i acc = Ok (acc ++ [r]) /\
    analyze_market_regime (firstn (S i) df) = Ok r.
Proof.
  intros Hlo Hi. unfold statistics_step.
  rewrite iloc_close, !iloc_sma by lia. cbn [mbind result_bind].
  rewrite analyze_prefix by lia.
  repeat match goal with |- context [if ?b then _ else _] => destruct b end;
    eexists; split; reflexivity.
Qed.

Lemma periods_partition (es : list history_entry) :
  Forall (fun e => h_regime e = "UPTREND"%string \/
                   h_regime e = "DOWNTREND"%string \/
                   h_regime e = "SIDEWAYS"%string) es ->
  (periods "UPTREND" es + periods "DOWNTREND" es + periods "SIDEWAYS" es
   = length es)%nat.
Proof.
  unfold periods. induction 1 as [|e es He _ IH]; [reflexivity|].
  cbn [List.filter length].
  destruct He as [-> | [-> | ->]]; cbn; lia.
Qed.

Lemma list_count_partition (rs : list string) :
  Forall (fun r => r = "UPTREND"%string \/ r = "DOWNTREND"%string \/
                   r = "SIDEWAYS"%string) rs ->
  (list_count "UPTREND" rs + list_count "DOWNTREND" rs
   + list_count "SIDEWAYS" rs = length rs)%nat.
Proof.
  unfold list_count. induction 1 as [|r rs Hr _ IH]; [reflexivity|].
  cbn [List.filter length].
  destruct Hr as [-> | [-> | ->]]; cbn; lia.
Qed.

(** X16.  The regime history replays the classifier.  When the exchange
    answers with a frame, the history holds one entry per candle from index
    120 on, in order; the entry for candle [120 + j] carries that candle's
    timestamp and the label [analyze_market_regime] gives to the frame cut
    after that candle, and the three counts of the summary add up to the
    number of entries.  Candle 119, the first one the classifier accepts,
    has no entry.  When the exchange fails the answer is the 500. *)
Theorem regime_history_replays_the_classifier
    (get_btc_ohlcv : Z -> result DataFrame) (days : Z) :
  match get_btc_ohlcv (days * 24)%Z with
  | Raise _ =>
      get_regime_history get_btc_ohlcv days = Raise (HTTPException 500)
  | Ok btc_df =>
      exists resp : history_response,
        get_regime_history get_btc_ohlcv days = Ok resp /\
        length (history resp) = (length btc_df - 120)%nat /\
        (forall (j : nat) (e : history_entry),
           history resp !! j = Some e ->
           analyze_market_regime (firstn (121 + j) btc_df)
             = Ok (h_regime e) /\
           name <$> btc_df !! (120 + j)%nat = Some (h_timestamp e) /\
           h_price e = Fin (last_close (firstn (121 + j) btc_df))) /\
        total_periods (summary resp) = length (history resp) /\
        (uptrend_periods (summary resp) + downtrend_periods (summary resp)
         + sideways_periods (summary resp)
         = total_periods (summary resp))%nat
  end.
Proof.
  unfold get_regime_history.
  destruct (get_btc_ohlcv (days * 24)%Z) as [df|e]; [|reflexivity].
  cbn [mbind result_bind].
  destruct (for_each_appends
              (history_step df (rolling 20 mean (close_column df))
                 (rolling 60 mean (close_column df))
                 (rolling 120 mean (close_column df)))
              (fun i e =>
                 analyze_market_regime (firstn (S i) df) = Ok (h_regime e) /\
                 name <$> df !! i = Some (h_timestamp e) /\
                 h_price e = Fin (last_close (firstn (S i) df)))
              (seq 120 (length df - 120))) with (acc := @nil history_entry)
    as (es & -> & HF).
  { intros i acc Hin. apply in_seq in Hin.
    apply history_step_ok; lia. }
  cbn [app mbind result_bind http_500].
  eexists. split; [reflexivity|]. cbn [history summary total_periods
    uptrend_periods downtrend_periods sideways_periods].
  assert (Hlen : length es = (length df - 120)%nat).
  { rewrite <- (Forall2_length _ _ _ HF). apply length_seq. }
  split; [exact Hlen|]. split; [|split; [reflexivity|]].
  - intros j e Hj.
    destruct (Forall2_lookup_r _ _ _ _ _ HF Hj) as (i & Hi & HP).
    apply lookup_seq in Hi. destruct Hi as [-> _]. exact HP.
  - apply periods_partition.
    apply Forall_lookup. intros j e Hj.
    destruct (Forall2_lookup_r _ _ _ _ _ HF Hj) as (i & _ & HP & _).
    exact (label_is_one_of_three _ _ HP).
Qed.

(** X17.  The regime statistics need more than 120 candles.  When the
    exchange fails, or answers with 120 candles or fewer, the endpoint
    answers 500: with no period to count the percentages divide by zero.
    With more candles it answers; the periods are the candles from index
    120 on, the three counts add up to their number, and the current
    regime is the label [analyze_market_regime] gives to the whole frame,
    never UNKNOWN. *)
Theorem regime_statistics_need_more_than_120_candles
    (get_btc_ohlcv : Z -> result DataFrame) :
  match get_btc_ohlcv 720%Z with
  | Raise _ => get_regime_statistics get_btc_ohlcv = Raise (HTTPException 500)
  | Ok btc_df =>
      if (length btc_df <=? 120)%nat
      then get_regime_statistics get_btc_ohlcv = Raise (HTTPException 500)
      else
        exists s : statistics,
          get_regime_statistics get_btc_ohlcv = Ok s /\
          s_total_periods s = (length btc_df - 120)%nat /\
          (count (uptrend s) + count (downtrend s) + count (sideways s)
           = s_total_periods s)%nat /\
          analyze_market_regime btc_df = Ok (current_regime s) /\
          current_regime s <> "UNKNOWN"%string
  end.
Proof.
  unfold get_regime_statistics.
  destruct (get_btc_ohlcv 720%Z) as [df|e]; [|reflexivity].
  cbn [mbind result_bind].
  destruct (for_each_appends
              (statistics_step df (rolling 20 mean (close_column df))
                 (rolling 60 mean (close_column df))
                 (rolling 120 mean (close_column df)))
              (fun i r => analyze_market_regime (firstn (S i) df) = Ok r)
              (seq 120 (length df - 120))) with (acc := @nil string)
    as (rs & -> & HF).
  { intros i acc Hin. apply in_seq in Hin.
    apply statistics_step_ok; lia. }
  cbn [app mbind result_bind].
  assert (Hlen : length rs = (length df - 120)%nat).
  { rewrite <- (Forall2_length _ _ _ HF). apply length_seq. }
  destruct (Nat.leb_spec (length df) 120) as [Hshort|Hlong].
  - replace (length rs) with 0%nat by lia. reflexivity.
  - destruct (Nat.eqb_spec (length rs) 0) as [Hz|_]; [lia|].
    cbn [http_500]. eexists. split; [reflexivity|].
    cbn [s_total_periods uptrend downtrend sideways count current_regime].
    assert (Hall : Forall (fun r => r = "UPTREND"%string \/
                             r = "DOWNTREND"%string \/
                             r = "SIDEWAYS"%string) rs).
    { apply Forall_lookup. intros j r Hj.
      destruct (Forall2_lookup_r _ _ _ _ _ HF Hj) as (i & _ & HP).
      exact (label_is_one_of_three _ _ HP). }
    split; [exact Hlen|]. split; [apply list_count_partition, Hall|].
    assert (Hlast : exists r, last rs = Some r /\
                      analyze_market_regime df = Ok r).
    { rewrite last_lookup.
      destruct (lookup_lt_is_Some_2 rs (Nat.pred (length rs))) as [r Hr];
        [lia|].
      exists r. split; [exact Hr|].
      destruct (Forall2_lookup_r _ _ _ _ _ HF Hr) as (i & Hi & HP).
      apply lookup_seq in Hi. destruct Hi as [-> _].
      replace (S (120 + Nat.pred (length rs))) with (length df) in HP by lia.
      rewrite firstn_all in HP. exact HP. }
    destruct Hlast as (r & -> & Hr). cbn [default]. split; [exact Hr|].
    destruct (label_is_one_of_three _ _ Hr) as [-> | [-> | ->]]; discriminate.
Qed.

Lemma above_or_below_gt (a b : float64) :
  F.gt a b = true -> above_or_below a b = "above"%string.
Proof. intros H. unfold above_or_below. rewrite H. reflexivity. Qed.

Lemma above_or_below_lt (a b : float64) :
  F.lt a b = true -> above_or_below a b = "below"%string.
Proof.
  intros H. unfold above_or_below, F.gt.
  destruct a as [x| | |], b as [y| | |]; try discriminate H; try reflexivity.
  rewrite F_lt_fin in *. apply Qltb_lt in H.
  assert (E : Qltb y x = false) by (apply Qltb_ge; lra).
  rewrite E. reflexivity.
Qed.

(** X18.  The regime endpoint answers exactly when the classifier does.
    When the exchange fails or answers with fewer than 120 candles the
    answer is the 500; from 120 candles on it answers with the label of
    [analyze_market_regime] and the last close, no later step of the
    endpoint fails, and the three comparisons it reports agree with the
    label: all "above" under UPTREND, all "below" under DOWNTREND. *)
Theorem regime_endpoint_answers_with_the_classifier
    (get_btc_ohlcv : Z -> result DataFrame) :
  match get_btc_ohlcv 200%Z with
  | Raise _ => get_market_regime get_btc_ohlcv = Raise (HTTPException 500)
  | Ok btc_df =>
      if (length btc_df <? 120)%nat
      then get_market_regime get_btc_ohlcv = Raise (HTTPException 500)
      else
        exists r : regime_response,
          get_market_regime get_btc_ohlcv = Ok r /\
          analyze_market_regime btc_df = Ok (regime r) /\
          btc_price r = Fin (last_close btc_df) /\
          (regime r = "UPTREND"%string ->
             r_analysis r = mkAnalysis "above" "above" "above") /\
          (regime r = "DOWNTREND"%string ->
             r_analysis r = mkAnalysis "below" "below" "below")
  end.
Proof.
  unfold get_market_regime.
  destruct (get_btc_ohlcv 200%Z) as [df|e]; [|reflexivity].
  cbn [mbind result_bind].
  destruct (Nat.ltb_spec (length df) 120) as [Hshort|Hlong].
  - unfold analyze_market_regime.
    destruct (Nat.ltb_spec (length df) 120); [reflexivity|lia].
  - rewrite analyze_market_regime_unfold by exact Hlong.
    cbn [mbind result_bind].
    rewrite last_close_column, !last_sma by lia. cbn [mbind result_bind].
    destruct (Nat.leb_spec 24 (length df)); [|lia].
    unfold iloc_back. unfold close_column at 1. rewrite length_map.
    destruct (Nat.ltb_spec (length df) 24); [lia|].
    destruct (lookup_lt_is_Some_2 (close_column df) (length df - 24))
      as [p Hp]; [unfold close_column; rewrite length_map; lia|].
    unfold iloc. unfold close_column at 1. rewrite length_map.
    rewrite Hp. cbn [mbind result_bind http_500].
    eexists. split; [reflexivity|].
    cbn [regime btc_price r_analysis].
    split; [reflexivity|]. split; [reflexivity|].
    unfold above_or_below. rewrite !F_gt_fin.
    destruct (Qltb (sma 20 df) (last_close df)) eqn:G1,
             (Qltb (sma 60 df) (sma 20 df)) eqn:G2,
             (Qltb (sma 120 df) (sma 60 df)) eqn:G3;
      cbn [andb]; try (split; [reflexivity|discriminate]);
      destruct (Qltb (last_close df) (sma 20 df)) eqn:L1,
               (Qltb (sma 20 df) (sma 60 df)) eqn:L2,
               (Qltb (sma 60 df) (sma 120 df)) eqn:L3;
      cbn [andb]; (split; [discriminate|]); try discriminate;
      repeat match goal with
             | H : Qltb _ _ = true |- _ => apply Qltb_lt in H
             | H : Qltb _ _ = false |- _ => apply Qltb_ge in H
             end;
      try reflexivity; exfalso; lra.
Qed.

End RegimeApiFacts.

(** ** The universe ranker: which symbols it can pick *)

Section RankingFacts.
Import MarketAnalyzer Spec Ranking Samples.

Lemma insert_sorted_perm {A : Type} (key : A -> Q) (rev : bool) (x : A)
    (l : list A) :
  insert_sorted key rev x l ≡ₚ x :: l.
Proof.
  induction l as [|y l IH]; cbn [insert_sorted]; [reflexivity|].
  destruct (stays_in_front key rev y x); [|reflexivity].
  rewrite IH. apply Permutation_swap.
Qed.

Lemma sorted_perm {A : Type} (key : A -> Q) (rev : bool) (l : list A) :
  sorted key rev l ≡ₚ l.
Proof.
  induction l as [|x l IH]; cbn [sorted fold_right]; [reflexivity|].
  fold (sorted key rev l). rewrite insert_sorted_perm, IH. reflexivity.
Qed.

Lemma add_score_keys (item : ticker) (points : Q) (scores : list score_item)
    (k : string) :
  In k (map s_symbol (add_score item points scores)) ->
  In k (map s_symbol scores) \/ k = symbol item.
Proof.
  induction scores as [|e rest IH]; cbn [add_score].
  - intros [<-|[]]. right. reflexivity.
  - destruct (String.eqb (s_symbol e) (symbol item)).
    + cbn. tauto.
    + cbn. intros [<-|H]; [tauto|]. destruct (IH H); tauto.
Qed.

Lemma add_score_keyed (pool : ticker -> Prop) (item : ticker) (points : Q)
    (scores : list score_item) :
  pool item -> keyed pool scores -> keyed pool (add_score item points scores).
Proof.
  intros Hitem. unfold keyed.
  induction scores as [|e rest IH]; cbn [add_score]; intros [Hnd Hall].
  - split.
    + cbn. apply NoDup_singleton.
    + constructor; [split; [reflexivity|exact Hitem]|constructor].
  - cbn [map] in Hnd. apply NoDup_cons in Hnd. destruct Hnd as [Hnotin Hnd].
    apply Forall_cons_iff in Hall. destruct Hall as [He Hall].
    destruct (String.eqb_spec (s_symbol e) (symbol item)) as [Heq|Hne].
    + split.
      * cbn. apply NoDup_cons. split; assumption.
      * constructor; assumption.
    + destruct (IH (conj Hnd Hall)) as [Hnd' Hall'].
      split.
      * cbn. apply NoDup_cons. split; [|exact Hnd'].
        intros Hin. apply list_elem_of_In, add_score_keys in Hin.
        destruct Hin as [Hin|Hin]; [|exact (Hne Hin)].
        apply Hnotin, list_elem_of_In, Hin.
      * constructor; assumption.
Qed.

Lemma score_list_keyed (pool : ticker -> Prop) (lst : list ticker)
    (weight : Q) (scores : list score_item) :
  Forall pool lst -> keyed pool scores ->
  keyed pool (score_list lst weight scores).
Proof.
  intros Hlst. unfold score_list.
  assert (Hpairs : Forall (fun p => pool (snd p))
                     (combine (seq 0 (length lst)) lst)).
  { apply List.Forall_forall. intros [i t] Hin.
    apply in_combine_r in Hin.
    exact (proj1 (List.Forall_forall pool lst) Hlst t Hin). }
  revert scores.
  induction Hpairs as [|[i t] ps Hp _ IH]; intros scores Hk; [exact Hk|].
  cbn [fold_left]. apply IH. apply add_score_keyed; assumption.
Qed.

Lemma keyed_perm (pool : ticker -> Prop) (l k : list score_item) :
  l ≡ₚ k -> keyed pool k -> keyed pool l.
Proof.
  intros Hp [Hnd Hall]. split.
  - rewrite Hp. exact Hnd.
  - eapply Permutation_Forall; [|exact Hall]. symmetry. exact Hp.
Qed.

Lemma keyed_symbols (pool : ticker -> Prop) (scores : list score_item) :
  keyed pool scores ->
  map symbol (map s_data scores) = map s_symbol scores /\
  Forall pool (map s_data scores).
Proof.
  intros [_ Hall]. induction Hall as [|e l [He Hp] _ [IH1 IH2]].
  - split; [reflexivity|constructor].
  - cbn. rewrite He, IH1. split; [reflexivity|constructor; assumption].
Qed.

(** The ranked list holds each symbol once, and tickers of the two
    candidate lists only. *)
Lemma weighted_score_distinct (pool : ticker -> Prop)
    (change_list volume_list : list ticker) (change_weight volume_weight : Q) :
  Forall pool change_list -> Forall pool volume_list ->
  NoDup (map symbol (_calculate_weighted_score change_list volume_list
                       change_weight volume_weight)) /\
  Forall pool (_calculate_weighted_score change_list volume_list
                 change_weight volume_weight).
Proof.
  intros Hc Hv. unfold _calculate_weighted_score.
  assert (Hk : keyed pool
                 (sorted s_score true
                    (score_list volume_list volume_weight
                       (score_list change_list change_weight [])))).
  { eapply keyed_perm; [apply sorted_perm|].
    apply score_list_keyed; [exact Hv|].
    apply score_list_keyed; [exact Hc|].
    split; constructor. }
  destruct (keyed_symbols _ _ Hk) as [Hsym Hpool].
  split; [|exact Hpool].
  change (map s_data ?l) with (map s_data l).
  rewrite Hsym. exact (proj1 Hk).
Qed.

Lemma top_of_usdt_pairs (all_tickers_data : list ticker)
    (key : ticker -> Q) (rev : bool) :
  let usdt_pairs :=
    List.filter (fun t => endswith (symbol t) "/USDT") all_tickers_data in
  Forall (usdt_pair all_tickers_data) (firstn 10 (sorted key rev usdt_pairs))
  /\ Forall (usdt_pair all_tickers_data)
       (last_n 10 (sorted key rev usdt_pairs)).
Proof.
  cbv zeta.
  assert (Hall : Forall (usdt_pair all_tickers_data)
                   (sorted key rev
                      (List.filter (fun t => endswith (symbol t) "/USDT")
                         all_tickers_data))).
  { eapply Permutation_Forall; [symmetry; apply sorted_perm|].
    apply List.Forall_forall. intros t Ht. apply filter_In in Ht. exact Ht. }
  split.
  - apply Forall_take. exact Hall.
  - unfold last_n. apply Forall_drop. exact Hall.
Qed.

Lemma as_picks_distinct (dir : string) (selected : list ticker) :
  NoDup (map symbol selected) -> NoDup (as_picks dir selected).
Proof.
  intros H. unfold as_picks.
  replace (map (fun item => mkPick (symbol item) dir) selected)
    with ((fun s => mkPick s dir) <$> map symbol selected)
    by (change (?f <$> ?l) with (map f l); rewrite map_map; reflexivity).
  apply NoDup_fmap_2; [|exact H].
  intros a b [= ->]. reflexivity.
Qed.

Lemma top5_distinct (pool : ticker -> Prop) (dir : string)
    (change_list volume_list : list ticker) :
  Forall pool change_list -> Forall pool volume_list ->
  NoDup (as_picks dir
           (firstn 5 (_calculate_weighted_score change_list volume_list
                        0.6 0.4))) /\
  forall p : pick,
    In p (as_picks dir
            (firstn 5 (_calculate_weighted_score change_list volume_list
                         0.6 0.4))) ->
    direction p = dir /\
    exists t : ticker, pool t /\ symbol t = p_symbol p.
Proof.
  intros Hc Hv.
  destruct (weighted_score_distinct pool change_list volume_list 0.6 0.4 Hc Hv)
    as [Hnd Hpool].
  split.
  - apply as_picks_distinct. rewrite <- firstn_map.
    eapply sublist_NoDup; [exact Hnd|]. apply sublist_take.
  - intros p Hp. unfold as_picks in Hp. apply in_map_iff in Hp.
    destruct Hp as (t & <- & Ht). split; [reflexivity|].
    exists t. split; [|reflexivity].
    apply (Forall_take _ 5%nat) in Hpool.
    exact (proj1 (List.Forall_forall pool _) Hpool t Ht).
Qed.

(** X19.  The ranked universe never names a pick twice, and every pick is
    a USDT pair of the snapshot: the same symbol can appear once as long
    and once as short (in a sideways market), never twice with the same
    direction, and a symbol that does not end in "/USDT" or is not in the
    snapshot is never picked. *)
Theorem scan_universe_picks_distinct_usdt_pairs
    (market_regime : string) (all_tickers_data : list ticker) :
  NoDup (scan_universe market_regime all_tickers_data) /\
  forall p : pick,
    In p (scan_universe market_regime all_tickers_data) ->
    endswith (p_symbol p) "/USDT" = true /\
    exists t : ticker, In t all_tickers_data /\ symbol t = p_symbol p.
Proof.
  assert (Hfrom : forall (dir : string) (cl vl : list ticker) (p : pick),
            Forall (usdt_pair all_tickers_data) cl ->
            Forall (usdt_pair all_tickers_data) vl ->
            In p (as_picks dir
                    (firstn 5 (_calculate_weighted_score cl vl 0.6 0.4))) ->
            endswith (p_symbol p) "/USDT" = true /\
            exists t : ticker, In t all_tickers_data /\ symbol t = p_symbol p).
  { intros dir cl vl p Hc Hv Hp.
    destruct (top5_distinct _ dir cl vl Hc Hv) as [_ H].
    destruct (H p Hp) as (_ & t & [Hin Husdt] & Hsym).
    split; [rewrite <- Hsym; exact Husdt|]. exists t. split; assumption. }
  unfold scan_universe.
  set (usdt_pairs :=
         List.filter (fun t => endswith (symbol t) "/USDT") all_tickers_data).
  pose proof (top_of_usdt_pairs all_tickers_data
                (fun x => get0 (change_pct x)) true) as [Hgain Hlose].
  pose proof (top_of_usdt_pairs all_tickers_data
                (fun x => get0 (change_pct x)) false) as [Hfall _].
  pose proof (top_of_usdt_pairs all_tickers_data
                (fun x => get0 (quote_volume x)) true) as [Hvol _].
  fold usdt_pairs in Hgain, Hlose, Hfall, Hvol.
  destruct (String.eqb market_regime "UPTREND");
    [|destruct (String.eqb market_regime "DOWNTREND")].
  - split.
    + exact (proj1 (top5_distinct _ "long" _ _ Hgain Hvol)).
    + intros p. apply Hfrom; assumption.
  - split.
    + exact (proj1 (top5_distinct _ "short" _ _ Hfall Hvol)).
    + intros p. apply Hfrom; assumption.
  - split.
    + apply NoDup_app. split; [|split].
      * exact (proj1 (top5_distinct _ "long" _ _ Hgain Hvol)).
      * intros p Hl Hs. apply list_elem_of_In in Hl, Hs.
        destruct (proj2 (top5_distinct _ "long" _ _ Hgain Hvol) p Hl)
          as [Hdl _].
        destruct (proj2 (top5_distinct _ "short" _ _ Hlose Hvol) p Hs)
          as [Hds _].
        rewrite Hdl in Hds. discriminate Hds.
      * exact (proj1 (top5_distinct _ "short" _ _ Hlose Hvol)).
    + intros p Hp. apply in_app_or in Hp.
      destruct Hp as [Hp|Hp]; [apply (Hfrom "long"%string _ _ p Hgain Hvol Hp)
                              |apply (Hfrom "short"%string _ _ p Hlose Hvol Hp)].
Qed.

(** X20.  A small sideways market is recommended both ways.  When the
    regime is neither UPTREND nor DOWNTREND and the snapshot holds at most
    ten USDT pairs, the gainers' window [[:10]] and the losers' window
    [[-10:]] are the same list, so the answer is one selection given
    twice: first with direction long, then with direction short. *)
Theorem small_sideways_universe_is_picked_both_ways
    (market_regime : string) (all_tickers_data : list ticker) :
  market_regime <> "UPTREND"%string ->
  market_regime <> "DOWNTREND"%string ->
  (length (List.filter (fun t => endswith (symbol t) "/USDT")
             all_tickers_data) <= 10)%nat ->
  exists selected : list ticker,
    scan_universe market_regime all_tickers_data
      = as_picks "long" selected ++ as_picks "short" selected.
Proof.
  intros Hu Hd Hlen. unfold scan_universe.
  apply String.eqb_neq in Hu, Hd. rewrite Hu, Hd.
  set (usdt_pairs :=
         List.filter (fun t => endswith (symbol t) "/USDT") all_tickers_data)
    in *.
  set (sorted_by_change := sorted (fun x => get0 (change_pct x)) true usdt_pairs).
  assert (Hs : (length sorted_by_change <= 10)%nat)
    by (unfold sorted_by_change; rewrite sorted_length; exact Hlen).
  assert (Hsame : last_n 10 sorted_by_change = firstn 10 sorted_by_change).
  { unfold last_n. replace (length sorted_by_change - 10)%nat with 0%nat by lia.
    rewrite firstn_all2 by exact Hs. reflexivity. }
  rewrite Hsame. eexists. reflexivity.
Qed.

Lemma small_sideways_universe_is_picked_both_ways_witness :
  exists selected : list ticker,
    scan_universe "SIDEWAYS" small_snapshot
      = as_picks "long" selected ++ as_picks "short" selected.
Proof.
  apply (small_sideways_universe_is_picked_both_ways "SIDEWAYS" small_snapshot).
  - discriminate.
  - discriminate.
  - vm_compute. lia.
Defined.

End RankingFacts.

(** ** Live trading *)

Section LiveFacts.
Import Strategy Live LiveSpec Samples.

(** X21.  Live trading starts once.  A start request is refused with 400,
    and nothing is written, when its strategy is not registered or the
    database says trading is on.  Otherwise it is accepted: the status then
    reads active with the request's strategy and risk, the pnl totals it
    read before, and the time of the start; and from that state every
    further start request is refused. *)
Theorem live_trading_starts_once
    (request : LiveTradingRequest) (now later : Z) (w : backend) :
  ((_strategies !! req_strategy_id request = None \/ active w = true) ->
     start_live_trading request now w = (Raise (HTTPException 400), w)) /\
  (forall cls : strategy_class,
     _strategies !! req_strategy_id request = Some cls ->
     active w = false ->
     let started := snd (start_live_trading request now w) in
     fst (start_live_trading request now w)
       = Ok (mkStartReply "실시간 매매가 시작되었습니다."
               (req_strategy_id request) (strategy_name cls)
               (req_risk_per_trade request) now) /\
     get_live_status later started
       = mkStatusResponse true (Some (req_strategy_id request))
           (req_risk_per_trade request)
           (sr_total_pnl (get_live_status later w))
           (sr_daily_pnl (get_live_status later w)) now /\
     forall (again : LiveTradingRequest) (t : Z),
       start_live_trading again t started
         = (Raise (HTTPException 400), started)).
Proof.
  unfold active, start_live_trading, get_strategy. split.
  - intros [Hnone|Hact].
    + rewrite Hnone. reflexivity.
    + destruct (_strategies !! req_strategy_id request); [|reflexivity].
      destruct (status_rows w) as [|r rest]; [discriminate Hact|].
      rewrite Hact. reflexivity.
  - intros cls Hcls Hact. rewrite Hcls. cbv zeta.
    destruct (status_rows w) as [|r rest] eqn:Hrows.
    + cbn [fst snd]. split; [reflexivity|].
      split; [unfold get_live_status; rewrite Hrows; reflexivity|].
      intros again t. cbn [status_rows is_active].
      destruct (_strategies !! req_strategy_id again); reflexivity.
    + rewrite Hact. cbn [fst snd]. split; [reflexivity|].
      split; [unfold get_live_status; rewrite Hrows; reflexivity|].
      intros again t. cbn [status_rows is_active].
      destruct (_strategies !! req_strategy_id again); reflexivity.
Qed.

(** X22.  Stopping.  A stop is refused with 400, and nothing is written,
    when the database does not say trading is on.  After an accepted start
    a stop is accepted: it reports the pnl totals of the row, the status
    then reads inactive, and a second stop is refused.  The row still
    names the strategy of the start while the in-memory dict has forgotten
    it. *)
Theorem live_trading_stops_what_was_started
    (request : LiveTradingRequest) (now later at_last : Z) (w : backend) :
  (active w = false ->
     stop_live_trading now w = (Raise (HTTPException 400), w)) /\
  (forall reply : start_reply,
     fst (start_live_trading request now w) = Ok reply ->
     let started := snd (start_live_trading request now w) in
     let stopped := snd (stop_live_trading later started) in
     fst (stop_live_trading later started)
       = Ok (mkStopReply "실시간 매매가 중단되었습니다." later
               (sr_total_pnl (get_live_status at_last w))
               (sr_daily_pnl (get_live_status at_last w))) /\
     get_live_status at_last stopped
       = mkStatusResponse false (Some (req_strategy_id request))
           (req_risk_per_trade request)
           (sr_total_pnl (get_live_status at_last w))
           (sr_daily_pnl (get_live_status at_last w)) later /\
     st_is_active (live_trading_state stopped) = false /\
     st_strategy_id (live_trading_state stopped) = None /\
     stop_live_trading at_last stopped
       = (Raise (HTTPException 400), stopped)).
Proof.
  split.
  - unfold active, stop_live_trading.
    destruct (status_rows w) as [|r rest]; [reflexivity|].
    intros ->. reflexivity.
  - intros reply Hok. cbv zeta.
    unfold start_live_trading in *.
    destruct (get_strategy (req_strategy_id request)); [|discriminate Hok].
    unfold get_live_status.
    destruct (status_rows w) as [|r rest] eqn:Hrows.
    + cbn. repeat split.
    + destruct (is_active r); [discriminate Hok|].
      cbn. repeat split.
Qed.

Lemma live_trading_stops_what_was_started_witness :
  get_live_status 30
    (snd (stop_live_trading 20
            (snd (start_live_trading (mkLiveRequest "momentum_v1" 0.02) 10
                    (fresh_backend 0)))))
  = mkStatusResponse false (Some "momentum_v1"%string) 0.02 0.0 0.0 20.
Proof.
  destruct (live_trading_stops_what_was_started
              (mkLiveRequest "momentum_v1" 0.02) 10 20 30 (fresh_backend 0))
    as [_ Hstop].
  destruct (Hstop (mkStartReply "실시간 매매가 시작되었습니다." "momentum_v1"
                     (strategy_name MomentumStrategy) 0.02 10))
    as (_ & Hstatus & _).
  - vm_compute. reflexivity.
  - exact Hstatus.
Defined.

(** X23.  The in-memory flag follows the database.  When the dict and the
    first row agree on whether trading is on, they still agree after any
    start or stop request, accepted or refused; they agree on a fresh
    process with an empty table. *)
Theorem live_flag_mirrors_the_database
    (request : LiveTradingRequest) (now : Z) (w : backend) :
  mirrored w ->
  mirrored (snd (start_live_trading request now w)) /\
  mirrored (snd (stop_live_trading now w)).
Proof.
  unfold mirrored, active. intros H. split.
  - unfold start_live_trading.
    destruct (get_strategy (req_strategy_id request)); [|exact H].
    destruct (status_rows w) as [|r rest] eqn:Hrows; [reflexivity|].
    destruct (is_active r) eqn:Hact; [|reflexivity].
    cbn [snd]. rewrite Hrows, Hact. exact H.
  - unfold stop_live_trading.
    destruct (status_rows w) as [|r rest] eqn:Hrows.
    + cbn [snd]. rewrite Hrows. exact H.
    + destruct (is_active r) eqn:Hact; cbn [negb snd]; [reflexivity|].
      rewrite Hrows, Hact. exact H.
Qed.

Lemma live_flag_mirrors_the_database_witness :
  mirrored (snd (start_live_trading (mkLiveRequest "momentum_v1" 0.02) 10
                   (fresh_backend 0))) /\
  mirrored (snd (stop_live_trading 10 (fresh_backend 0))).
Proof.
  apply (live_flag_mirrors_the_database (mkLiveRequest "momentum_v1" 0.02) 10
           (fresh_backend 0)).
  reflexivity.
Defined.

End LiveFacts.

(** ** Live trading: positions and performance *)

Section LiveReports.
Import Backtest Spec Live LiveSpec Samples.

Lemma find_snoc {A : Type} (f : A -> bool) (l : list A) (x : A) :
  List.find f (l ++ [x])
    = match List.find f l with
      | Some y => Some y
      | None => if f x then Some x else None
      end.
Proof.
  induction l as [|y l IH]; cbn [app List.find]; [reflexivity|].
  destruct (f y); [reflexivity|exact IH].
Qed.

Lemma find_none_iff {A : Type} (f : A -> bool) (l : list A) :
  List.find f l = None <-> Forall (fun x => f x = false) l.
Proof.
  induction l as [|y l IH]; cbn [List.find].
  - split; [constructor|reflexivity].
  - destruct (f y) eqn:E.
    + split; [discriminate|]. intros H. inversion H; congruence.
    + rewrite IH. split; [constructor; assumption|].
      intros H. inversion H; assumption.
Qed.

(** What one iteration does to the dict: an entry keeps its symbol, its
    direction and its entry price; a new entry appears only for a symbol
    that was not a key, and carries the data of the trade. *)
Lemma record_trade_entries (trade : TradeLog) (position_map : list position)
    (pos' : position) :
  In pos' (record_trade trade position_map) ->
  (exists pos : position,
     In pos position_map /\ pos_symbol pos' = pos_symbol pos /\
     pos_direction pos' = pos_direction pos /\
     pos_entry_price pos' = pos_entry_price pos) \/
  (~ In (log_symbol trade) (map pos_symbol position_map) /\
   pos_symbol pos' = log_symbol trade /\
   pos_direction pos' = log_direction trade /\
   pos_entry_price pos' = log_price trade).
Proof.
  induction position_map as [|pos rest IH]; cbn [record_trade].
  - intros [<-|[]]. right. cbn. tauto.
  - destruct (String.eqb_spec (pos_symbol pos) (log_symbol trade)) as [He|Hne].
    + intros [<-|Hin].
      * left. exists pos. split; [left; reflexivity|].
        destruct (String.eqb (log_action trade) "CLOSE"); cbn; tauto.
      * left. exists pos'. split; [right; exact Hin|tauto].
    + intros [<-|Hin].
      * left. exists pos. split; [left; reflexivity|tauto].
      * destruct (IH Hin) as [(p & Hp & H)|(Hnot & H)].
        -- left. exists p. split; [right; exact Hp|exact H].
        -- right. split; [|exact H]. cbn. intros [Heq|Hk]; [|exact (Hnot Hk)].
           exact (Hne Heq).
Qed.

Lemma record_trade_keys (trade : TradeLog) (position_map : list position) :
  map pos_symbol (record_trade trade position_map)
    = if existsb (String.eqb (log_symbol trade)) (map pos_symbol position_map)
      then map pos_symbol position_map
      else map pos_symbol position_map ++ [log_symbol trade].
Proof.
  induction position_map as [|pos rest IH]; cbn [record_trade map existsb].
  - reflexivity.
  - rewrite (String.eqb_sym (log_symbol trade) (pos_symbol pos)).
    destruct (String.eqb (pos_symbol pos) (log_symbol trade)); cbn [orb map].
    + destruct (String.eqb (log_action trade) "CLOSE"); reflexivity.
    + rewrite IH.
      destruct (existsb (String.eqb (log_symbol trade)) (map pos_symbol rest));
        reflexivity.
Qed.

Lemma existsb_eqb_false (k : string) (keys : list string) :
  existsb (String.eqb k) keys = false -> ~ In k keys.
Proof.
  intros H Hin.
  assert (E : existsb (String.eqb k) keys = true).
  { apply existsb_exists. exists k. split; [exact Hin|apply String.eqb_refl]. }
  congruence.
Qed.

(** The loop invariant of [get_current_positions]: after the trades
    [seen], the dict holds each symbol once, holds every symbol seen, and
    each entry has the direction and the price of the first trade seen on
    its symbol. *)
Lemma position_map_invariant (rest seen : list TradeLog)
    (position_map : list position) :
  NoDup (map pos_symbol position_map) ->
  Forall (fun t => In (log_symbol t) (map pos_symbol position_map)) seen ->
  Forall (fun pos =>
            exists trade : TradeLog,
              most_recent (pos_symbol pos) seen = Some trade /\
              pos_entry_price pos = log_price trade /\
              pos_direction pos = log_direction trade) position_map ->
  let final := fold_left (fun m trade => record_trade trade m) rest
                 position_map in
  NoDup (map pos_symbol final) /\
  Forall (fun pos =>
            exists trade : TradeLog,
              most_recent (pos_symbol pos) (seen ++ rest) = Some trade /\
              pos_entry_price pos = log_price trade /\
              pos_direction pos = log_direction trade) final.
Proof.
  revert seen position_map.
  induction rest as [|t rest IH]; intros seen m Hnd Hseen Hfirst; cbv zeta.
  - rewrite app_nil_r. split; assumption.
  - cbn [fold_left].
    replace (seen ++ t :: rest) with ((seen ++ [t]) ++ rest)
      by (rewrite <- app_assoc; reflexivity).
    apply IH.
    + rewrite record_trade_keys.
      destruct (existsb (String.eqb (log_symbol t)) (map pos_symbol m)) eqn:E;
        [exact Hnd|].
      apply NoDup_app. split; [exact Hnd|]. split; [|apply NoDup_singleton].
      intros k Hk Hk'. apply list_elem_of_In in Hk.
      apply list_elem_of_singleton in Hk'. subst k.
      exact (existsb_eqb_false _ _ E Hk).
    + rewrite record_trade_keys.
      destruct (existsb (String.eqb (log_symbol t)) (map pos_symbol m)) eqn:E.
      * apply Forall_app. split; [exact Hseen|].
        constructor; [|constructor].
        apply existsb_exists in E. destruct E as (k & Hk & Heq).
        apply String.eqb_eq in Heq. rewrite Heq. exact Hk.
      * apply Forall_app. split.
        -- eapply List.Forall_impl; [|exact Hseen].
           intros t' Ht'. cbn beta in *. apply in_or_app. left. exact Ht'.
        -- constructor; [|constructor]. apply in_or_app. right. left.
           reflexivity.
    + apply List.Forall_forall. intros pos' Hpos'.
      apply record_trade_entries in Hpos'.
      destruct Hpos' as [(pos & Hpos & Hs & Hd & He)|(Hnew & Hs & Hd & He)].
      * destruct (proj1 (List.Forall_forall _ _) Hfirst pos Hpos)
          as (trade & Hfind & Hprice & Hdir).
        exists trade. unfold most_recent in *. rewrite find_snoc, Hs, Hfind.
        split; [reflexivity|]. split; congruence.
      * exists t. unfold most_recent in *. rewrite find_snoc, Hs.
        assert (Hnone : List.find
                          (fun t0 => String.eqb (log_symbol t0) (log_symbol t))
                          seen = None).
        { apply find_none_iff. eapply List.Forall_impl; [|exact Hseen].
          intros t' Ht'. cbn beta in *.
          apply String.eqb_neq. intros Heq. apply Hnew.
          rewrite <- Heq. exact Ht'. }
        rewrite Hnone, String.eqb_refl. repeat split; assumption.
Qed.

Lemma NoDup_map_filter {A B : Type} (f : A -> B) (g : A -> bool)
    (l : list A) :
  NoDup (map f l) -> NoDup (map f (List.filter g l)).
Proof.
  induction l as [|a l IH]; cbn [map List.filter]; intros H; [constructor|].
  apply NoDup_cons in H. destruct H as [Hn Hd].
  destruct (g a); [|exact (IH Hd)].
  cbn [map]. apply NoDup_cons. split; [|exact (IH Hd)].
  intros Hin. apply Hn. apply list_elem_of_In. apply list_elem_of_In in Hin.
  apply in_map_iff in Hin. destruct Hin as (x & Hx & Hin).
  apply filter_In in Hin. rewrite <- Hx. apply in_map. tauto.
Qed.

(** X24.  The positions endpoint reports one position per symbol.  The
    positions carry pairwise different symbols and a positive size, and
    their number is [total_positions].  The direction and the "entry"
    price of a position are those of the most recent trade on its symbol
    among the rows read, whatever that trade's action was, a CLOSE
    included. *)
Theorem current_positions_are_one_per_symbol (recent_trades : list TradeLog) :
  total_positions (get_current_positions recent_trades)
    = length (positions (get_current_positions recent_trades)) /\
  NoDup (map pos_symbol (positions (get_current_positions recent_trades))) /\
  forall pos : position,
    In pos (positions (get_current_positions recent_trades)) ->
    0 < pos_size pos /\
    exists trade : TradeLog,
      most_recent (pos_symbol pos) recent_trades = Some trade /\
      pos_entry_price pos = log_price trade /\
      pos_direction pos = log_direction trade.
Proof.
  unfold get_current_positions. cbn [total_positions positions].
  destruct (position_map_invariant recent_trades [] [])
    as [Hnd Hfirst]; [constructor|constructor|constructor|].
  cbn [app] in Hfirst.
  split; [reflexivity|]. split.
  - apply NoDup_map_filter. exact Hnd.
  - intros pos Hpos. apply filter_In in Hpos. destruct Hpos as [Hin Hsize].
    split; [apply Qltb_lt; exact Hsize|].
    exact (proj1 (List.Forall_forall _ _) Hfirst pos Hin).
Qed.

Lemma round_half_even_comp (x y : Q) :
  x == y -> round_half_even x = round_half_even y.
Proof.
  intros H. unfold round_half_even. rewrite (Qfloor_comp _ _ H).
  assert (E : (x - inject_Z (Qfloor y) ?= 1 # 2)
              = (y - inject_Z (Qfloor y) ?= 1 # 2)).
  { apply Qcompare_comp; [rewrite H; reflexivity|reflexivity]. }
  rewrite E. reflexivity.
Qed.

Lemma py_round_comp (x y : Q) (ndigits : nat) :
  x == y -> py_round x ndigits = py_round y ndigits.
Proof.
  intros H. unfold py_round.
  rewrite (round_half_even_comp (x * inject_Z (10 ^ Z.of_nat ndigits))
             (y * inject_Z (10 ^ Z.of_nat ndigits)))
    by (rewrite H; reflexivity).
  reflexivity.
Qed.

Lemma fold_left_Qplus_nonneg (l : list Q) (a : Q) :
  Forall (fun x => 0 < x) l -> a <= fold_left Qplus l a.
Proof.
  revert a. induction l as [|x l IH]; intros a H; simpl.
  - apply Qle_refl.
  - inversion H as [|? ? Hx Hl]; subst.
    specialize (IH (a + x) Hl). lra.
Qed.

Lemma winning_pnls_sum_nonneg (ts : list trade) :
  0 <= py_sum (winning_pnls ts).
Proof.
  unfold py_sum. apply fold_left_Qplus_nonneg.
  unfold winning_pnls. apply List.Forall_forall. intros x Hx.
  apply filter_In in Hx. destruct Hx as [_ Hx]. apply Qltb_lt. exact Hx.
Qed.

(** X25.  The two profit factors.  On the same pnls the performance
    endpoint and the back-test agree whenever some trade lost: both report
    the sum of the gains over the absolute sum of the losses, rounded to
    two decimals.  When no trade lost, including when there is no trade at
    all, they differ: the performance endpoint reports infinity, the
    back-test 0. *)
Theorem live_and_backtest_profit_factor
    (ts : list trade) (logs : list TradeLog) :
  map log_pnl logs = map pnl ts ->
  (no_losing_trade ts ->
     Live.profit_factor (get_trading_performance logs) = PInf /\
     Backtest.profit_factor ts = 0) /\
  (~ no_losing_trade ts ->
     Live.profit_factor (get_trading_performance logs)
       = Fin (Backtest.profit_factor ts)).
Proof.
  intros Hpnls.
  assert (Hlose : py_sum (map log_pnl
                            (List.filter (fun t => Qltb (log_pnl t) 0) logs))
                  = py_sum (losing_pnls ts)).
  { unfold losing_pnls. rewrite <- Hpnls, filter_map_swap. reflexivity. }
  assert (Hwin : py_sum (map log_pnl
                           (List.filter (fun t => Qltb 0 (log_pnl t)) logs))
                 = py_sum (winning_pnls ts)).
  { unfold winning_pnls. rewrite <- Hpnls, filter_map_swap. reflexivity. }
  unfold get_trading_performance, Backtest.profit_factor.
  cbn [Live.profit_factor]. rewrite Hlose, Hwin.
  pose proof (gross_loss_zero_iff ts) as Hzero.
  change (gross_loss ts) with (py_sum (losing_pnls ts)) in Hzero.
  unfold Qneqb.
  destruct (Qeq_bool (py_sum (losing_pnls ts)) 0) eqn:E; cbn [negb].
  - split; [intros _; split; reflexivity|].
    intros Hsome. exfalso. apply Hsome, Hzero, Qeq_bool_iff, E.
  - split.
    + intros Hnone. apply Hzero, Qeq_bool_iff in Hnone. congruence.
    + intros _. f_equal. apply py_round_comp.
      assert (Hl : ~ py_sum (losing_pnls ts) == 0).
      { intros Hq. apply Qeq_bool_iff in Hq. congruence. }
      pose proof (winning_pnls_sum_nonneg ts) as Hw.
      unfold Qdiv. rewrite Qabs_Qmult, Qabs_Qinv.
      rewrite (Qabs_pos _ Hw). reflexivity.
Qed.

Lemma live_and_backtest_profit_factor_witness :
  Live.profit_factor
    (get_trading_performance
       [mkTradeLog 1 "BTC/USDT" "CLOSE" "LONG" 100 1 470;
        mkTradeLog 2 "ETH/USDT" "CLOSE" "LONG" 100 1 25])
    = PInf /\
  Backtest.profit_factor winners_only = 0.
Proof.
  apply (live_and_backtest_profit_factor winners_only
           [mkTradeLog 1 "BTC/USDT" "CLOSE" "LONG" 100 1 470;
            mkTradeLog 2 "ETH/USDT" "CLOSE" "LONG" 100 1 25]).
  - reflexivity.
  - repeat constructor; cbn; lra.
Defined.

End LiveReports.

(** ** The connection manager *)

Section ConnectionFacts.
Import WebSocketApi.

Lemma filter_all {A : Type} (f : A -> bool) (l : list A) :
  (forall x : A, In x l -> f x = true) -> List.filter f l = l.
Proof.
  intros H. rewrite (filter_ext_in f (fun _ => true) l H). apply filter_true.
Qed.

Lemma filter_twice {A : Type} (f g : A -> bool) (l : list A) :
  List.filter g (List.filter f l) = List.filter (fun x => f x && g x) l.
Proof.
  induction l as [|x l IH]; cbn [List.filter]; [reflexivity|].
  destruct (f x); cbn [andb List.filter]; [|exact IH].
  destruct (g x); rewrite IH; reflexivity.
Qed.

Lemma NoDup_list_filter {A : Type} (f : A -> bool) (l : list A) :
  NoDup l -> NoDup (List.filter f l).
Proof.
  intros H. rewrite <- (map_id (List.filter f l)).
  apply NoDup_map_filter. rewrite map_id. exact H.
Qed.

Lemma list_in_In (x : WebSocket) (xs : list WebSocket) :
  list_in x xs = true <-> In x xs.
Proof.
  unfold list_in. rewrite existsb_exists. split.
  - intros (y & Hy & E). apply Nat.eqb_eq in E. subst. exact Hy.
  - intros H. exists x. split; [exact H|apply Nat.eqb_refl].
Qed.

Lemma list_remove_filter (x : WebSocket) (xs : list WebSocket) :
  NoDup xs -> list_remove x xs = List.filter (fun y => negb (Nat.eqb y x)) xs.
Proof.
  induction xs as [|y rest IH]; intros Hnd; cbn [list_remove List.filter];
    [reflexivity|].
  apply NoDup_cons in Hnd. destruct Hnd as [Hy Hnd].
  destruct (Nat.eqb_spec y x) as [->|Hne]; cbn [negb].
  - symmetry. apply filter_all. intros z Hz.
    destruct (Nat.eqb_spec z x) as [->|_]; [|reflexivity].
    exfalso. apply Hy, list_elem_of_In, Hz.
  - rewrite IH by exact Hnd. reflexivity.
Qed.

Lemma dict_del_filter (k : WebSocket) (d : list (WebSocket * client)) :
  NoDup (map fst d) -> In k (map fst d) ->
  dict_del k d = Some (List.filter (fun e => negb (Nat.eqb (fst e) k)) d).
Proof.
  induction d as [|[k' v'] rest IH]; intros Hnd Hin; [destruct Hin|].
  cbn [map fst] in Hnd. apply NoDup_cons in Hnd. destruct Hnd as [Hk' Hnd].
  cbn [dict_del List.filter fst].
  destruct (Nat.eqb_spec k' k) as [->|Hne]; cbn [negb].
  - f_equal. symmetry. apply filter_all. intros [z v] Hz. cbn [fst].
    destruct (Nat.eqb_spec z k) as [->|_]; [|reflexivity].
    exfalso. apply Hk', list_elem_of_In.
    change k with (fst (k, v)). apply in_map. exact Hz.
  - destruct Hin as [Heq|Hin]; [exfalso; exact (Hne Heq)|].
    rewrite (IH Hnd Hin). reflexivity.
Qed.

Lemma restrict_consistent (keep : WebSocket -> bool) (m : ConnectionManager) :
  consistent m -> consistent (restrict keep m).
Proof.
  intros [Hnd Hkeys]. unfold consistent, restrict.
  cbn [active_connections connection_data]. split.
  - apply NoDup_list_filter. exact Hnd.
  - rewrite <- Hkeys, filter_map_swap. reflexivity.
Qed.

Lemma restrict_ext (f g : WebSocket -> bool) (m : ConnectionManager) :
  consistent m ->
  (forall x : WebSocket, In x (active_connections m) -> f x = g x) ->
  restrict f m = restrict g m.
Proof.
  intros [_ Hkeys] H. unfold restrict. f_equal.
  - apply filter_ext_in. exact H.
  - apply filter_ext_in. intros [k v] Hin. cbn [fst]. apply H.
    rewrite <- Hkeys. change k with (fst (k, v)). apply in_map. exact Hin.
Qed.

Lemma restrict_all (m : ConnectionManager) :
  restrict (fun _ => true) m = m.
Proof.
  destruct m as [active data]. unfold restrict.
  cbn [active_connections connection_data]. rewrite !filter_true.
  reflexivity.
Qed.

Lemma restrict_twice (f g : WebSocket -> bool) (m : ConnectionManager) :
  restrict g (restrict f m) = restrict (fun x => f x && g x) m.
Proof.
  unfold restrict. cbn [active_connections connection_data].
  rewrite !filter_twice. reflexivity.
Qed.

(** On consistent books a disconnect returns and leaves the manager
    without that connection. *)
Lemma disconnect_restricts (websocket : WebSocket) (m : ConnectionManager) :
  consistent m ->
  disconnect websocket m
    = (Returned, restrict (fun y => negb (Nat.eqb y websocket)) m).
Proof.
  intros Hc. pose proof Hc as [Hnd Hkeys]. unfold disconnect.
  destruct (list_in websocket (active_connections m)) eqn:E.
  - apply list_in_In in E.
    rewrite dict_del_filter by (rewrite Hkeys; assumption).
    rewrite list_remove_filter by exact Hnd. reflexivity.
  - f_equal. rewrite <- (restrict_all m) at 1.
    apply restrict_ext; [exact Hc|]. intros x Hx.
    destruct (Nat.eqb_spec x websocket) as [->|_]; [|reflexivity].
    apply list_in_In in Hx. congruence.
Qed.

Lemma disconnect_each_restricts (disconnected : list WebSocket)
    (m : ConnectionManager) :
  consistent m ->
  disconnect_each disconnected m
    = (Returned, restrict (fun y => negb (list_in y disconnected)) m).
Proof.
  revert m. induction disconnected as [|c rest IH]; intros m Hc;
    cbn [disconnect_each].
  - rewrite <- (restrict_all m) at 1. reflexivity.
  - rewrite (disconnect_restricts c m Hc).
    rewrite IH by (apply restrict_consistent; exact Hc).
    rewrite restrict_twice. f_equal.
    apply restrict_ext; [exact Hc|]. intros x _.
    unfold list_in. cbn [existsb]. rewrite negb_orb. reflexivity.
Qed.

Lemma dict_set_fresh (k : WebSocket) (v : client)
    (d : list (WebSocket * client)) :
  ~ In k (map fst d) -> dict_set k v d = d ++ [(k, v)].
Proof.
  induction d as [|[k' v'] rest IH]; intros Hk; cbn [dict_set app];
    [reflexivity|].
  destruct (Nat.eqb_spec k' k) as [->|_].
  - exfalso. apply Hk. left. reflexivity.
  - rewrite IH; [reflexivity|]. intros H. apply Hk. right. exact H.
Qed.

(** X26.  Connecting and disconnecting are inverse.  On consistent books
    (no connection listed twice, the dict holding exactly the listed
    connections) a connection that is not yet listed is appended to the
    list and to the dict, under the given client id or, for a missing or
    empty one, under "client_" followed by the new number of connections;
    the books stay consistent, and disconnecting it again returns the
    manager exactly as it was. *)
Theorem connect_then_disconnect_restores_the_manager
    (websocket : WebSocket) (client_id : option string) (now : Z)
    (m : ConnectionManager) :
  consistent m ->
  ~ In websocket (active_connections m) ->
  consistent (connect websocket client_id now m) /\
  active_connections (connect websocket client_id now m)
    = active_connections m ++ [websocket] /\
  clients (get_connection_info (connect websocket client_id now m))
    = clients (get_connection_info m)
      ++ [mkClient
            (client_name client_id (S (length (active_connections m))))
            now []] /\
  disconnect websocket (connect websocket client_id now m) = (Returned, m).
Proof.
  intros Hc Hnew. pose proof Hc as [Hnd Hkeys].
  assert (Hdata : connection_data (connect websocket client_id now m)
                  = connection_data m
                    ++ [(websocket,
                         mkClient
                           (client_name client_id
                              (S (length (active_connections m)))) now [])]).
  { unfold connect. cbn [connection_data].
    rewrite dict_set_fresh by (rewrite Hkeys; exact Hnew).
    rewrite length_app. cbn [length].
    replace (length (active_connections m) + 1)%nat
      with (S (length (active_connections m))) by lia.
    reflexivity. }
  assert (Hcons : consistent (connect websocket client_id now m)).
  { split.
    - unfold connect. cbn [active_connections].
      apply NoDup_app. split; [exact Hnd|]. split; [|apply NoDup_singleton].
      intros x Hx Hx'. apply list_elem_of_singleton in Hx'. subst x.
      apply Hnew, list_elem_of_In, Hx.
    - rewrite Hdata, map_app, Hkeys. reflexivity. }
  split; [exact Hcons|]. split; [reflexivity|]. split.
  - unfold get_connection_info. cbn [clients]. rewrite Hdata, map_app.
    reflexivity.
  - rewrite (disconnect_restricts _ _ Hcons). f_equal.
    unfold restrict. rewrite Hdata. unfold connect.
    cbn [active_connections]. rewrite !List.filter_app.
    cbn [List.filter fst]. rewrite Nat.eqb_refl. cbn [negb].
    rewrite !app_nil_r.
    rewrite !filter_all.
    + destruct m; reflexivity.
    + intros [k v] Hin. cbn [fst].
      destruct (Nat.eqb_spec k websocket) as [->|_]; [|reflexivity].
      exfalso. apply Hnew. rewrite <- Hkeys.
      change websocket with (fst (websocket, v)). apply in_map. exact Hin.
    + intros x Hx.
      destruct (Nat.eqb_spec x websocket) as [->|_]; [|reflexivity].
      exfalso. exact (Hnew Hx).
Qed.

Lemma two_clients_consistent :
  consistent (connect 8%nat (Some "trades_client"%string) 20%Z
                (connect 7%nat None 10%Z new_manager)).
Proof.
  split; [|reflexivity]. cbn.
  apply NoDup_cons. split; [|apply NoDup_singleton].
  intros H. apply list_elem_of_singleton in H. discriminate H.
Qed.

Lemma connect_then_disconnect_restores_the_manager_witness :
  disconnect 9%nat
    (connect 9%nat None 30%Z
       (connect 8%nat (Some "trades_client"%string) 20%Z
          (connect 7%nat None 10%Z new_manager)))
  = (Returned,
     connect 8%nat (Some "trades_client"%string) 20%Z
       (connect 7%nat None 10%Z new_manager)).
Proof.
  apply (connect_then_disconnect_restores_the_manager 9%nat None 30%Z
           (connect 8%nat (Some "trades_client"%string) 20%Z
              (connect 7%nat None 10%Z new_manager))).
  - exact two_clients_consistent.
  - cbn. intros [H|[H|[]]]; discriminate H.
Defined.

(** X27.  A disconnect forgets one connection.  On consistent books
    [disconnect] returns without a [KeyError], the books stay consistent,
    the connection is listed no more, every other connection stays listed
    with its client data, a second disconnect changes nothing, and the
    status reports as many active connections as clients. *)
Theorem disconnect_forgets_one_connection
    (websocket : WebSocket) (m : ConnectionManager) :
  consistent m ->
  exists m' : ConnectionManager,
    disconnect websocket m = (Returned, m') /\
    consistent m' /\
    ~ In websocket (active_connections m') /\
    (forall (other : WebSocket) (c : client),
       other <> websocket ->
       (In other (active_connections m') <-> In other (active_connections m))
       /\ (In (other, c) (connection_data m')
           <-> In (other, c) (connection_data m))) /\
    disconnect websocket m' = (Returned, m') /\
    info_active_connections (get_connection_info m')
      = length (clients (get_connection_info m')).
Proof.
  intros Hc. rewrite (disconnect_restricts _ _ Hc).
  eexists. split; [reflexivity|].
  pose proof (restrict_consistent
                (fun y => negb (Nat.eqb y websocket)) m Hc) as Hc'.
  split; [exact Hc'|]. split; [|split; [|split]].
  - unfold restrict. cbn [active_connections]. intros H.
    apply filter_In in H. destruct H as [_ H].
    rewrite Nat.eqb_refl in H. discriminate H.
  - intros other c Hne. unfold restrict.
    cbn [active_connections connection_data].
    assert (E : negb (Nat.eqb other websocket) = true)
      by (apply negb_true_iff, Nat.eqb_neq; exact Hne).
    rewrite !filter_In. cbn [fst]. rewrite E. tauto.
  - rewrite (disconnect_restricts _ _ Hc'), restrict_twice. f_equal.
    apply restrict_ext; [exact Hc|]. intros x _. apply andb_diag.
  - unfold get_connection_info. cbn [info_active_connections clients].
    destruct Hc' as [_ <-]. rewrite !length_map. reflexivity.
Qed.

Lemma disconnect_forgets_one_connection_witness :
  exists m' : ConnectionManager,
    disconnect 7%nat
      (connect 8%nat (Some "trades_client"%string) 20%Z
         (connect 7%nat None 10%Z new_manager)) = (Returned, m') /\
    ~ In 7%nat (active_connections m').
Proof.
  destruct (disconnect_forgets_one_connection 7%nat
              (connect 8%nat (Some "trades_client"%string) 20%Z
                 (connect 7%nat None 10%Z new_manager)) two_clients_consistent)
    as (m' & Hd & _ & Hgone & _).
  exists m'. split; assumption.
Defined.

(** X28.  A broadcast drops exactly the connections whose send failed.
    On consistent books [broadcast] returns without a [KeyError] and
    leaves the connections whose send succeeded, in their order and with
    their client data; the books stay consistent.  A failed personal
    message drops that one connection. *)
Theorem broadcast_drops_the_failed_connections
    (send_fails : WebSocket -> bool) (m : ConnectionManager) :
  consistent m ->
  broadcast send_fails m
    = (Returned, restrict (fun ws => negb (send_fails ws)) m) /\
  consistent (restrict (fun ws => negb (send_fails ws)) m) /\
  forall websocket : WebSocket,
    send_personal_message send_fails websocket m
      = (Returned,
         if send_fails websocket
         then restrict (fun ws => negb (Nat.eqb ws websocket)) m
         else m).
Proof.
  intros Hc. split; [|split].
  - unfold broadcast. rewrite (disconnect_each_restricts _ _ Hc). f_equal.
    apply restrict_ext; [exact Hc|]. intros x Hx. f_equal.
    destruct (send_fails x) eqn:E.
    + apply list_in_In, filter_In. split; assumption.
    + apply not_true_iff_false. intros H. apply list_in_In, filter_In in H.
      destruct H as [_ H]. congruence.
  - apply restrict_consistent. exact Hc.
  - intros websocket. unfold send_personal_message.
    destruct (send_fails websocket); [|reflexivity].
    apply disconnect_restricts. exact Hc.
Qed.

Lemma broadcast_drops_the_failed_connections_witness :
  broadcast (Nat.eqb 7%nat)
    (connect 8%nat (Some "trades_client"%string) 20%Z
       (connect 7%nat None 10%Z new_manager))
  = (Returned,
     restrict (fun ws => negb (Nat.eqb 7%nat ws))
       (connect 8%nat (Some "trades_client"%string) 20%Z
          (connect 7%nat None 10%Z new_manager))).
Proof.
  apply (broadcast_drops_the_failed_connections (Nat.eqb 7%nat)
           (connect 8%nat (Some "trades_client"%string) 20%Z
              (connect 7%nat None 10%Z new_manager)) two_clients_consistent).
Defined.

End ConnectionFacts.

(** ** What an entry signal implies *)

Section SignalFacts.
Import Pandas Strategy Spec Samples.

Lemma iloc_last_zip_with {A B C : Type} (f : A -> B -> C)
    (a : list A) (b : list B) (x : A) (y : B) :
  length a = length b ->
  iloc_last a = Ok x -> iloc_last b = Ok y ->
  iloc_last (zip_with f a b) = Ok (f x y).
Proof.
  intros Hlen Ha Hb. apply iloc_last_inv in Ha. apply iloc_last_inv in Hb.
  unfold iloc_last, last_item. rewrite last_zip_with by exact Hlen.
  rewrite Ha, Hb. reflexivity.
Qed.

Lemma iloc_last_map_ok {A B : Type} (f : A -> B) (s : list A) (x : A) :
  iloc_last s = Ok x -> iloc_last (map f s) = Ok (f x).
Proof. intros H. apply iloc_last_map, iloc_last_inv, H. Qed.

(** The last standard deviation over a full window of closes is a number,
    the square root of the variance of the window. *)
Lemma last_std (sqrt : Q -> Q) (w : nat) (df : DataFrame) :
  (2 <= w)%nat -> (w <= length df)%nat ->
  iloc_last (rolling w (std sqrt) (close_column df))
    = Ok (Fin (sqrt (Qvar (window w (length df - 1) (map close df))))).
Proof.
  intros Hw Hlen. unfold close_column.
  rewrite rolling_last by (rewrite length_map; lia).
  rewrite length_map.
  replace (map (fun c => Fin (close c)) df) with (map Fin (map close df))
    by (rewrite map_map; reflexivity).
  rewrite window_map. unfold std. rewrite finite_values_fin.
  assert (Hl : length (window w (length df - 1) (map close df)) = w).
  { unfold window. rewrite length_firstn, length_skipn, length_map. lia. }
  rewrite Hl. destruct (Nat.leb_spec w 1); [lia|reflexivity].
Qed.

(** The last values of the two bands. *)
Lemma last_bands (sqrt : Q -> Q) (w : nat) (k : Q) (df : DataFrame) :
  (2 <= w)%nat -> (w <= length df)%nat ->
  iloc_last (fst (fst (Bollinger.calculate_bollinger_bands sqrt df w k)))
    = Ok (Fin (sma w df
               + sqrt (Qvar (window w (length df - 1) (map close df))) * k))
  /\
  iloc_last (snd (Bollinger.calculate_bollinger_bands sqrt df w k))
    = Ok (Fin (sma w df
               + - (sqrt (Qvar (window w (length df - 1) (map close df)))
                    * k))).
Proof.
  intros Hw Hlen. unfold Bollinger.calculate_bollinger_bands.
  cbn [fst snd].
  assert (Hsma : iloc_last (rolling w mean (close_column df))
                 = Ok (Fin (sma w df))) by (apply last_sma; lia).
  pose proof (last_std sqrt w df Hw Hlen) as Hstd.
  apply (iloc_last_map_ok (fun s => F.mul s (Fin k))) in Hstd.
  assert (Hlens : length (rolling w mean (close_column df))
                  = length (map (fun s => F.mul s (Fin k))
                              (rolling w (std sqrt) (close_column df))))
    by (rewrite length_map, !rolling_length; reflexivity).
  split.
  - rewrite (iloc_last_zip_with F.add _ _ _ _ Hlens Hsma Hstd). reflexivity.
  - rewrite (iloc_last_zip_with F.sub _ _ _ _ Hlens Hsma Hstd). reflexivity.
Qed.

Lemma sqrt6_nonneg (q : Q) : 0 <= sqrt6 q.
Proof.
  unfold sqrt6.
  assert (H : 0 <= inject_Z (Z.sqrt (Qfloor (q * 1000000000000)))).
  { change 0 with (inject_Z 0). rewrite <- Zle_Qle. apply Z.sqrt_nonneg. }
  unfold Qdiv. apply Qmult_le_0_compat; [exact H|]. discriminate.
Qed.

(** X29.  What a Bollinger breakout signal needs.  For a square root that
    is never negative, the signal is given only on a series of at least 80
    candles whose last candle opens below the 20-candle average of the
    closes, closes above its open, and has a high above the SUM of the
    20-candle and the 80-candle average: the code adds the two upper bands
    where its comment asks for both to be broken. *)
Theorem bollinger_signal_needs_a_high_above_both_averages
    (sqrt : Q -> Q) (ohlcv_df : DataFrame) :
  (forall q : Q, 0 <= sqrt q) ->
  Bollinger.check_entry_signal sqrt ohlcv_df = Ok true ->
  (80 <= length ohlcv_df)%nat /\
  exists current_candle : candle,
    last ohlcv_df = Some current_candle /\
    open current_candle < sma 20 ohlcv_df /\
    sma 20 ohlcv_df + sma 80 ohlcv_df < high current_candle /\
    open current_candle < close current_candle.
Proof.
  intros Hsqrt. unfold Bollinger.check_entry_signal.
  destruct (Nat.ltb_spec (length ohlcv_df) 80) as [|Hlen]; [discriminate|].
  destruct (last_bands sqrt 20 Bollinger.bb_20_std ohlcv_df
              ltac:(lia) ltac:(lia)) as [Hu20 Hl20].
  destruct (last_bands sqrt 80 Bollinger.bb_80_std ohlcv_df
              ltac:(lia) ltac:(lia)) as [Hu80 _].
  destruct (iloc_last_nonempty ohlcv_df) as [c Hc]; [lia|].
  unfold Bollinger.bb_20_period, Bollinger.bb_80_period.
  destruct (Bollinger.calculate_bollinger_bands sqrt ohlcv_df 20
              Bollinger.bb_20_std) as [[u20 m20] l20].
  destruct (Bollinger.calculate_bollinger_bands sqrt ohlcv_df 80
              Bollinger.bb_80_std) as [[u80 m80] l80].
  cbn [fst snd] in Hu20, Hl20, Hu80.
  rewrite Hc, Hl20, Hu20, Hu80. cbn [mbind result_bind F.add].
  rewrite F_gt_fin, !F_lt_fin. intros [= H].
  apply andb_true_iff in H. destruct H as [H H3].
  apply andb_true_iff in H. destruct H as [H1 H2].
  apply Qltb_lt in H1, H2, H3.
  split; [exact Hlen|]. exists c.
  split; [apply iloc_last_inv; exact Hc|].
  pose proof (Hsqrt (Qvar (window 20 (length ohlcv_df - 1)
                             (map close ohlcv_df)))) as Hs20.
  pose proof (Hsqrt (Qvar (window 80 (length ohlcv_df - 1)
                             (map close ohlcv_df)))) as Hs80.
  unfold Bollinger.bb_20_std, Bollinger.bb_80_std in *.
  repeat split; lra.
Qed.

Lemma bollinger_signal_needs_a_high_above_both_averages_witness :
  (80 <= length (firstn 81 breakout_series))%nat /\
  exists current_candle : candle,
    last (firstn 81 breakout_series) = Some current_candle /\
    open current_candle < sma 20 (firstn 81 breakout_series) /\
    sma 20 (firstn 81 breakout_series) + sma 80 (firstn 81 breakout_series)
      < high current_candle /\
    open current_candle < close current_candle.
Proof.
  apply (bollinger_signal_needs_a_high_above_both_averages sqrt6
           (firstn 81 breakout_series)).
  - exact sqrt6_nonneg.
  - vm_compute. reflexivity.
Defined.

End SignalFacts.

(** ** The range of the RSI *)

Section RsiRange.
Import Pandas Strategy Spec Samples.

Lemma Qsum_nonneg (qs : list Q) : Forall (fun q => 0 <= q) qs -> 0 <= Qsum qs.
Proof.
  induction 1 as [|q qs Hq _ IH]; cbn [Qsum fold_right]; [apply Qle_refl|].
  fold (Qsum qs). lra.
Qed.

Lemma Qmean_nonneg (qs : list Q) :
  Forall (fun q => 0 <= q) qs -> 0 <= Qmean qs.
Proof.
  intros H. unfold Qmean, Qdiv.
  apply Qmult_le_0_compat; [apply Qsum_nonneg; exact H|].
  apply Qinv_le_0_compat. change 0 with (inject_Z 0).
  rewrite <- Zle_Qle. lia.
Qed.

(** The mean of a window of non-negative numbers is a non-negative
    number. *)
Lemma mean_nonneg (w : list float64) :
  Forall (fun x => exists q : Q, x = Fin q /\ 0 <= q) w ->
  exists q : Q, mean w = Fin q /\ 0 <= q.
Proof.
  intros H.
  assert (Hfin : exists qs : list Q,
            finite_values w = Some qs /\ Forall (fun q => 0 <= q) qs).
  { induction H as [|x w (q & -> & Hq) _ (qs & Hqs & Hall)].
    - exists []. split; [reflexivity|constructor].
    - exists (q :: qs). cbn [finite_values]. rewrite Hqs.
      split; [reflexivity|constructor; assumption]. }
  destruct Hfin as (qs & Hqs & Hall). unfold mean. rewrite Hqs.
  exists (Qmean qs). split; [reflexivity|apply Qmean_nonneg; exact Hall].
Qed.

Lemma sub_of_numbers (a b : list Q) :
  Forall (fun x => x = NaN \/ exists q : Q, x = Fin q)
    (zip_with F.sub (map Fin a) (map Fin b)).
Proof.
  revert b. induction a as [|x a IH]; intros [|y b]; cbn [map zip_with];
    try constructor.
  - right. eexists. reflexivity.
  - apply IH.
Qed.

Lemma diff_of_numbers (qs : list Q) :
  Forall (fun x => x = NaN \/ exists q : Q, x = Fin q) (diff (map Fin qs)).
Proof.
  destruct qs as [|q0 qs]; [constructor|].
  change (diff (map Fin (q0 :: qs)))
    with (NaN :: zip_with F.sub (map Fin qs) (map Fin (q0 :: qs))).
  constructor; [left; reflexivity|apply sub_of_numbers].
Qed.

Lemma gains_nonneg (s : Series) :
  Forall (fun x => x = NaN \/ exists q : Q, x = Fin q) s ->
  Forall (fun x => exists q : Q, x = Fin q /\ 0 <= q)
    (where_ (fun d => F.gt d (Fin 0)) (Fin 0) s).
Proof.
  intros H. unfold where_. induction H as [|x s Hx _ IH]; [constructor|].
  cbn [map]. constructor; [|exact IH].
  destruct Hx as [->|[q ->]].
  - exists 0. split; [reflexivity|apply Qle_refl].
  - rewrite F_gt_fin. destruct (Qltb 0 q) eqn:E.
    + exists q. split; [reflexivity|]. apply Qltb_lt in E. lra.
    + exists 0. split; [reflexivity|apply Qle_refl].
Qed.

Lemma losses_nonneg (s : Series) :
  Forall (fun x => x = NaN \/ exists q : Q, x = Fin q) s ->
  Forall (fun x => exists q : Q, x = Fin q /\ 0 <= q)
    (map F.neg (where_ (fun d => F.lt d (Fin 0)) (Fin 0) s)).
Proof.
  intros H. unfold where_. induction H as [|x s Hx _ IH]; [constructor|].
  cbn [map]. constructor; [|exact IH].
  destruct Hx as [->|[q ->]].
  - exists (- 0). split; [reflexivity|lra].
  - rewrite F_lt_fin. destruct (Qltb q 0) eqn:E.
    + exists (- q). split; [reflexivity|]. apply Qltb_lt in E. lra.
    + exists (- 0). split; [reflexivity|lra].
Qed.

(** The last entry of a rolling mean over non-negative numbers is NaN
    (window not full) or a non-negative number. *)
Lemma last_rolling_mean_nonneg (w : nat) (s : Series) (v : float64) :
  Forall (fun x => exists q : Q, x = Fin q /\ 0 <= q) s ->
  last (rolling w mean s) = Some v ->
  v = NaN \/ exists q : Q, v = Fin q /\ 0 <= q.
Proof.
  intros Hs Hv. rewrite last_lookup, rolling_length in Hv.
  destruct (length s) as [|n] eqn:Hn.
  - unfold rolling in Hv. rewrite Hn in Hv. discriminate Hv.
  - cbn [Nat.pred] in Hv. rewrite lookup_rolling in Hv by lia.
    injection Hv as <-.
    destruct (S n <? w)%nat; [left; reflexivity|]. right.
    apply mean_nonneg. unfold window.
    apply Forall_take, Forall_drop. exact Hs.
Qed.

(** The RSI of two non-negative averages. *)
Lemma rsi_of_range (g l : Q) :
  0 <= g -> 0 <= l ->
  rsi_of (Fin g) (Fin l) = NaN \/
  exists q : Q, rsi_of (Fin g) (Fin l) = Fin q /\ 0 <= q /\ q <= 100.
Proof.
  intros Hg Hl. unfold rsi_of. cbn [F.div]. unfold F.sgn.
  destruct (Qcompare_spec l 0) as [El|El|El].
  - destruct (Qcompare_spec g 0) as [Eg|Eg|Eg]; cbn.
    + left. reflexivity.
    + lra.
    + right. eexists. split; [reflexivity|]. split; lra.
  - lra.
  - assert (Hrs : 0 <= g / l) by (apply Qle_shift_div_l; lra).
    cbn [F.add F.div]. unfold F.sgn.
    destruct (Qcompare_spec (1 + g / l) 0) as [E|E|E]; [lra|lra|].
    cbn [F.sub F.neg F.add]. right. eexists. split; [reflexivity|].
    assert (H1 : 0 <= 100 / (1 + g / l)) by (apply Qle_shift_div_l; lra).
    assert (H2 : 100 / (1 + g / l) <= 100) by (apply Qle_shift_div_r; lra).
    split; lra.
Qed.

Lemma rsi_of_nan_l (l : float64) : rsi_of NaN l = NaN.
Proof. reflexivity. Qed.

Lemma rsi_of_nan_r (g : float64) : rsi_of g NaN = NaN.
Proof. destruct g; reflexivity. Qed.

(** X30.  The RSI is a percentage or NaN.  Whatever the candles and the
    period, the last RSI the strategies compute is NaN or a number between
    0 and 100, never an infinity and never out of range: the average gain
    and the average loss are non-negative, and a zero average loss gives
    100 or NaN.  So a momentum entry signal rests on a real RSI in
    [0, 30) together with SMA20 above SMA50. *)
Theorem rsi_is_a_percentage_or_nan
    (rsi_period : nat) (ohlcv_df : DataFrame) :
  (forall current_rsi : float64,
     iloc_last (rsi_series rsi_period (close_column ohlcv_df))
       = Ok current_rsi ->
     current_rsi = NaN \/
     exists q : Q, current_rsi = Fin q /\ 0 <= q /\ q <= 100) /\
  (Momentum.check_entry_signal ohlcv_df = Ok true ->
     (50 <= length ohlcv_df)%nat /\
     (exists q : Q,
        iloc_last (rsi_series Momentum.rsi_period (close_column ohlcv_df))
          = Ok (Fin q) /\ 0 <= q /\ q < 30) /\
     sma 50 ohlcv_df < sma 20 ohlcv_df).
Proof.
  assert (Hrange : forall (period : nat) (r : float64),
            iloc_last (rsi_series period (close_column ohlcv_df)) = Ok r ->
            r = NaN \/ exists q : Q, r = Fin q /\ 0 <= q /\ q <= 100).
  { intros period r Hr. apply iloc_last_inv in Hr. unfold rsi_series in Hr.
    rewrite last_zip_with in Hr by apply gain_loss_same_length.
    destruct (last (gain_series period (close_column ohlcv_df)))
      as [g|] eqn:Eg; [|discriminate Hr].
    destruct (last (loss_series period (close_column ohlcv_df)))
      as [l|] eqn:El; [|discriminate Hr].
    injection Hr as <-.
    assert (Hdiff : Forall (fun x => x = NaN \/ exists q : Q, x = Fin q)
                      (diff (close_column ohlcv_df))).
    { unfold close_column.
      replace (map (fun c => Fin (close c)) ohlcv_df)
        with (map Fin (map close ohlcv_df))
        by (rewrite map_map; reflexivity).
      apply diff_of_numbers. }
    unfold gain_series in Eg. unfold loss_series in El.
    apply last_rolling_mean_nonneg in Eg; [|apply gains_nonneg, Hdiff].
    apply last_rolling_mean_nonneg in El; [|apply losses_nonneg, Hdiff].
    destruct Eg as [->|(gq & -> & Hg)]; [left; apply rsi_of_nan_l|].
    destruct El as [->|(lq & -> & Hl)]; [left; reflexivity|].
    apply rsi_of_range; assumption. }
  split; [apply Hrange|].
  unfold Momentum.check_entry_signal.
  destruct (Nat.ltb_spec (length ohlcv_df) 50) as [|Hlen]; [discriminate|].
  destruct (iloc_last (rsi_series Momentum.rsi_period
                         (close_column ohlcv_df))) as [r|e] eqn:Er;
    [|discriminate].
  unfold Momentum.sma_short, Momentum.sma_long.
  rewrite !last_sma by lia. cbn [mbind result_bind].
  destruct (F.lt r (Fin Momentum.rsi_oversold)) eqn:Elt;
    cbn [andb]; [|discriminate].
  rewrite F_gt_fin.
  destruct (Qltb (sma 50 ohlcv_df) (sma 20 ohlcv_df)) eqn:Esma;
    [|discriminate].
  intros _. split; [exact Hlen|]. split; [|apply Qltb_lt; exact Esma].
  destruct (Hrange _ _ Er) as [->|(q & -> & Hq0 & _)]; [discriminate Elt|].
  exists q. split; [reflexivity|]. split; [exact Hq0|].
  rewrite F_lt_fin in Elt. apply Qltb_lt in Elt.
  unfold Momentum.rsi_oversold in Elt. exact Elt.
Qed.

Lemma rsi_is_a_percentage_or_nan_witness :
  (50 <= length MoreSamples.dip_series)%nat /\
  (exists q : Q,
     iloc_last (rsi_series Momentum.rsi_period
                  (close_column MoreSamples.dip_series))
       = Ok (Fin q) /\ 0 <= q /\ q < 30) /\
  sma 50 MoreSamples.dip_series < sma 20 MoreSamples.dip_series.
Proof.
  apply (rsi_is_a_percentage_or_nan 14 MoreSamples.dip_series).
  vm_compute. reflexivity.
Defined.

End RsiRange.
